(** * FSM presentation examples: a shallow embedding and its properties

    The repository is a set of TypeScript demonstrations of finite state
    machines: two hand-written classes ([ToggleFSM], [TrafficLightFSM]),
    several statechart definitions interpreted by the xstate library
    (chat, order, form and game machines), a LangGraph order workflow and
    the save/load helpers of the game example.

    The hand-written code is embedded function by function.  The statechart
    definitions are embedded as transition tables, in declaration order,
    and run by a small interpreter ([Statechart]) that follows the
    repository's specification of the executor (resolver, timer scheduler,
    action executor, machine core). *)

From stdpp Require Import base strings gmap list pretty.
From Stdlib Require Import ZArith QArith.

Set Warnings "-register-all".
Close Scope Q_scope.
#[local] Open Scope string_scope.
#[local] Open Scope list_scope.

(** ** JavaScript values used by the examples *)

Module Js.

(** A JavaScript [number].  The finite values the examples compute with are
    counters (levels, lives, scores, retry counts) and are kept as
    integers; the three non-finite values keep their own behaviour under
    comparison, arithmetic and JSON serialisation. *)
Inductive number := Finite (z : Z) | NaN | PosInfinity | NegInfinity.

#[export] Instance number_eq_dec : EqDecision number.
Proof. solve_decision. Defined.

Definition isFinite (n : number) : bool :=
  match n with Finite _ => true | _ => false end.

(** [a + b] *)
Definition add (a b : number) : number :=
  match a, b with
  | NaN, _ | _, NaN => NaN
  | Finite x, Finite y => Finite (x + y)
  | PosInfinity, NegInfinity | NegInfinity, PosInfinity => NaN
  | PosInfinity, _ | _, PosInfinity => PosInfinity
  | NegInfinity, _ | _, NegInfinity => NegInfinity
  end.

(** [-a] *)
Definition neg (a : number) : number :=
  match a with
  | Finite x => Finite (- x)
  | NaN => NaN
  | PosInfinity => NegInfinity
  | NegInfinity => PosInfinity
  end.

(** [a - b] *)
Definition sub (a b : number) : number := add a (neg b).

(** [a < b]: every comparison with [NaN] is false. *)
Definition lt (a b : number) : bool :=
  match a, b with
  | NaN, _ | _, NaN => false
  | Finite x, Finite y => bool_decide (x < y)%Z
  | NegInfinity, NegInfinity => false
  | NegInfinity, _ => true
  | _, PosInfinity => negb (bool_decide (a = PosInfinity))
  | _, _ => false
  end.

(** [a <= b] *)
Definition le (a b : number) : bool :=
  match a, b with
  | NaN, _ | _, NaN => false
  | _, _ => lt a b || bool_decide (a = b)
  end.

(** [a > b] and [a >= b] *)
Definition gt (a b : number) : bool := lt b a.
Definition ge (a b : number) : bool := le b a.

(** [String(a)] *)
Definition toString (a : number) : string :=
  match a with
  | Finite z => pretty z
  | NaN => "NaN"
  | PosInfinity => "Infinity"
  | NegInfinity => "-Infinity"
  end.

(** Truthiness of a number: [0] and [NaN] are falsy. *)
Definition truthy (a : number) : bool :=
  match a with
  | Finite z => negb (bool_decide (z = 0%Z))
  | NaN => false
  | _ => true
  end.

(** A string is held as the bytes of its UTF-8 encoding, as the source
    files hold their literals.  [s.length] counts UTF-16 code units: one
    for every character of the basic plane and two for every character
    beyond it.  In UTF-8 a character is one lead byte, followed by
    continuation bytes [10xxxxxx] when the lead byte is not below 128; the
    lead bytes [11110xxx] are those of the characters beyond the basic
    plane. *)
Definition codeUnits (byte : Ascii.ascii) : nat :=
  let code := Ascii.nat_of_ascii byte in
  if Nat.ltb code 128 then 1
  else if Nat.ltb code 192 then 0
  else if Nat.ltb code 240 then 1
  else 2.

(** [s.length] *)
Fixpoint stringLength (s : string) : nat :=
  match s with
  | EmptyString => 0
  | String.String byte rest => codeUnits byte + stringLength rest
  end.

(** The values a variable of type [unknown] can hold in these programs. *)
Inductive Value :=
  | Undefined
  | Null
  | Boolean (b : bool)
  | Number (n : number)
  | String (s : string)
  | Array (items : list Value)
  | Object (fields : gmap string Value)
  | Function.

(** [typeof v] *)
Definition typeof (v : Value) : string :=
  match v with
  | Undefined => "undefined"
  | Null => "object"
  | Boolean _ => "boolean"
  | Number _ => "number"
  | String _ => "string"
  | Array _ => "object"
  | Object _ => "object"
  | Function => "function"
  end.

(** [v === null] *)
Definition isNull (v : Value) : bool :=
  match v with Null => true | _ => false end.

(** Completion of a piece of code that may throw. *)
Inductive Completion (A : Type) :=
  | Normal (a : A)
  | Throw (error : string).
Arguments Normal {A} a.
Arguments Throw {A} error.

Definition bind {A B} (c : Completion A) (k : A -> Completion B) : Completion B :=
  match c with
  | Normal a => k a
  | Throw e => Throw e
  end.

(** [try { body } catch (error) { handler }] *)
Definition tryCatch {A} (body : Completion A) (handler : string -> A) : A :=
  match body with
  | Normal a => a
  | Throw e => handler e
  end.

(** Reading the own property [key] of [v], as object destructuring
    [const { key } = v] does: it throws on [undefined] and [null], and
    yields [undefined] where the property is missing. *)
Definition getProperty (v : Value) (key : string) : Completion Value :=
  match v with
  | Undefined | Null => Throw "TypeError"
  | Object fields => Normal (default Undefined (fields !! key))
  | _ => Normal Undefined
  end.

(** The value [JSON.stringify] writes for [v]; [None] where the value is
    left out (an [undefined] or function-valued property). Numbers that
    are not finite are written as [null]. *)
Fixpoint toJSON (v : Value) : option Value :=
  match v with
  | Undefined | Function => None
  | Number n => Some (if isFinite n then v else Null)
  | Array items => Some (Array (map (fun x => default Null (toJSON x)) items))
  | Object fields => Some (Object (omap toJSON fields))
  | _ => Some v
  end.

(** The contents of a text file: either the JSON text of a document, kept
    as the value [JSON.parse] returns for it, or text that is not JSON. *)
Inductive Text :=
  | JsonText (document : Value)
  | Malformed (raw : string).

(** [JSON.stringify(v, null, 2)] for a [v] that is not left out. *)
Definition JSON_stringify (v : Value) : Text :=
  JsonText (default Null (toJSON v)).

(** [JSON.parse(text)]: throws a [SyntaxError] on text that is not JSON. *)
Definition JSON_parse (text : Text) : Completion Value :=
  match text with
  | JsonText document => Normal document
  | Malformed _ => Throw "SyntaxError"
  end.

End Js.

(** ** 01-basic-fsm: the toggle switch *)

Module Toggle.

(** The slot [currentState] holds the string it was given. *)
Record ToggleFSM := { currentState : string }.

(** What a call prints: the two [console] calls of [transition]. *)
Inductive Console :=
  | Log (event newState : string)
  | Warn (event : string).

Definition declaredStates : list string := ["ON"; "OFF"].

(** [constructor(initialState = 'OFF')] *)
Definition new (initialState : option string) : ToggleFSM :=
  {| currentState := default "OFF" initialState |}.

(** [transition(event)] *)
Definition transition (event : string) (this : ToggleFSM) : ToggleFSM * Console :=
  if bool_decide (event = "TOGGLE") then
    let this' :=
      {| currentState := if bool_decide (currentState this = "OFF") then "ON" else "OFF" |} in
    (this', Log event (currentState this'))
  else
    (this, Warn event).

(** [getState()] *)
Definition getState (this : ToggleFSM) : string := currentState this.

(** Calling [transition] for each event in turn. *)
Definition sendAll (events : list string) (this : ToggleFSM) : ToggleFSM :=
  foldl (fun fsm event => fst (transition event fsm)) this events.

(** The states observed after each call. *)
Fixpoint observe (events : list string) (this : ToggleFSM) : list string :=
  match events with
  | [] => []
  | event :: rest =>
      let this' := fst (transition event this) in
      getState this' :: observe rest this'
  end.

End Toggle.

(** ** 01-basic-fsm: the traffic light *)

Module TrafficLight.

(** [currentState] is read back from the transition table, so it holds a
    string or [undefined] ([None]). *)
Record TrafficLightFSM := {
  currentState : option string;
  transitions : gmap string string
}.

Inductive Console :=
  | Log (oldState nextState : option string)
  | Warn (event : string).

Definition declaredStates : list string := ["RED"; "YELLOW"; "GREEN"].

(** The table built by the constructor. *)
Definition transitionTable : gmap string string :=
  <["RED" := "GREEN"]> (<["GREEN" := "YELLOW"]> (<["YELLOW" := "RED"]> ∅)).

(** [constructor(initialState = 'RED')] *)
Definition new (initialState : option string) : TrafficLightFSM :=
  {| currentState := Some (default "RED" initialState);
     transitions := transitionTable |}.

(** A property key: [undefined] is looked up as the key "undefined". *)
Definition key (state : option string) : string := default "undefined" state.

(** [transition(event)] *)
Definition transition (event : string) (this : TrafficLightFSM)
  : TrafficLightFSM * Console :=
  if bool_decide (event = "NEXT") then
    let nextState := transitions this !! key (currentState this) in
    ({| currentState := nextState; transitions := transitions this |},
     Log (currentState this) nextState)
  else
    (this, Warn event).

(** [getState()] *)
Definition getState (this : TrafficLightFSM) : option string := currentState this.

(** The table [actions] of [getAction]. *)
Definition actionTable : gmap string string :=
  <["RED" := "정지"]> (<["YELLOW" := "주의"]> (<["GREEN" := "진행"]> ∅)).

(** [getAction()] *)
Definition getAction (this : TrafficLightFSM) : option string :=
  actionTable !! key (currentState this).

Definition sendAll (events : list string) (this : TrafficLightFSM) : TrafficLightFSM :=
  foldl (fun fsm event => fst (transition event fsm)) this events.

Fixpoint observe (events : list string) (this : TrafficLightFSM) : list (option string) :=
  match events with
  | [] => []
  | event :: rest =>
      let this' := fst (transition event this) in
      getState this' :: observe rest this'
  end.

End TrafficLight.

(** ** The statechart executor

    The statechart examples hand their definitions to the executor of the
    xstate library, which is not part of the repository; the repository's
    specification describes it (transition table resolver, timer scheduler,
    action executor, machine core).  This module is that executor, for flat
    machines, with a logical clock counting milliseconds.  The definitions
    of the machines, further down, are the repository's. *)

Module Statechart.

Section Executor.

Context {State Context Payload World : Type} `{EqDecision State}.

(** Modelled from the spec: what guards and actions receive as [event],
    the library's events being missing: the initial event, an event sent to
    the machine, or the expiry of a delay. *)
Inductive Event :=
  | Init
  | Sent (payload : Payload)
  | Elapsed (delay : N).

(** Modelled from the spec: what a declared transition waits for, an event
    type ([on]), a delay ([after]) or nothing ([always]). *)
Inductive Trigger :=
  | On (type : string)
  | After (delay : N)
  | Always.

#[export] Instance Trigger_eq_dec : EqDecision Trigger.
Proof. solve_decision. Defined.

(** Modelled from the spec: a guard reads the context and the event; it
    also sees the world, since one guard of the examples draws from
    [Math.random()]. *)
Definition Guard := Context -> Event -> World -> bool * World.

(** Modelled from the spec: an action updates the context ([assign]) or
    acts on the world. *)
Definition Action := Context -> Event -> World -> Context * World.

(** Modelled from the spec: a rule [(source, trigger, optional guard) ->
    (target, actions)]; a rule without target only runs its actions. *)
Record Transition := {
  source : State;
  trigger : Trigger;
  guard : option Guard;
  target : option State;
  actions : list Action
}.

(** Modelled from the spec: a machine definition, as handed to
    [createMachine]; [transitions] lists the rules in declaration order. *)
Record Machine := {
  initial : State;
  initialContext : Context;
  states : list State;
  final : list State;
  entry : State -> list Action;
  exit : State -> list Action;
  transitions : list Transition;
  typeOf : Payload -> string
}.

(** Modelled from the spec: the life cycle of a started machine. *)
Inductive Status := Running | Done | Stopped.

#[export] Instance Status_eq_dec : EqDecision Status.
Proof. solve_decision. Defined.

(** Modelled from the spec: a one-shot timer armed on entering [owner],
    stamped with the generation of the machine at that time. *)
Record Timer := {
  owner : State;
  delay : N;
  due : N;
  armedAt : N
}.

#[export] Instance Timer_eq_dec : EqDecision Timer.
Proof. solve_decision. Defined.

(** Modelled from the spec: a started machine, with its current state, its
    context, the clock, a generation counter incremented on every state
    change, and the timers that are pending. *)
Record Actor := {
  status : Status;
  value : State;
  context : Context;
  clock : N;
  generation : N;
  pending : list Timer
}.

Variable machine : Machine.

(** *** Transition table resolver *)

(** Modelled from the spec: the declared transitions whose source is the
    current state and whose trigger is the one that occurred, in
    declaration order. *)
Definition candidates (current : State) (occurred : Trigger) : list Transition :=
  filter (fun t => source t = current /\ trigger t = occurred) (transitions machine).

(** Modelled from the spec: the library's resolver is missing; by section
    4.2, guards are evaluated left to right, and the first transition whose
    guard is absent or evaluates true is returned; [None] when there is
    none. *)
Fixpoint firstEnabled (declared : list Transition)
    (ctx : Context) (event : Event) (world : World) : option Transition * World :=
  match declared with
  | [] => (None, world)
  | t :: rest =>
      match guard t with
      | None => (Some t, world)
      | Some g =>
          let '(holds, world') := g ctx event world in
          if holds then (Some t, world') else firstEnabled rest ctx event world'
      end
  end.

(** Modelled from the spec: the trigger an event amounts to. *)
Definition triggerOf (event : Event) : Trigger :=
  match event with
  | Init => On "xstate.init"
  | Sent payload => On (typeOf machine payload)
  | Elapsed d => After d
  end.

(** Modelled from the spec: the resolver of the transition table. *)
Definition resolve (occurred : Trigger) (event : Event) (actor : Actor) (world : World)
  : option Transition * World :=
  firstEnabled (candidates (value actor) occurred) (context actor) event world.

(** *** Action executor *)

(** Modelled from the spec: actions run strictly in sequence. *)
Definition runActions (todo : list Action) (event : Event) (ctx : Context) (world : World)
  : Context * World :=
  foldl (fun '(c, w) (act : Action) => act c event w) (ctx, world) todo.

(** *** Timer scheduler *)

(** Modelled from the spec: the delays declared by the [after] transitions
    of a state. *)
Definition delaysOf (s : State) : list N :=
  remove_dups
    (omap (fun t => match trigger t with
                    | After d => if decide (source t = s) then Some d else None
                    | _ => None
                    end) (transitions machine)).

(** Modelled from the spec: the library's timer scheduler is missing; by
    section 4.3, entering a state arms one timer per declared delay. *)
Definition arm (s : State) (actor : Actor) : list Timer :=
  map (fun d => {| owner := s; delay := d; due := (clock actor + d)%N;
                   armedAt := generation actor |}) (delaysOf s).

(** Modelled from the spec: leaving a state cancels its timers. *)
Definition cancel (s : State) (timers : list Timer) : list Timer :=
  filter (fun tm => owner tm <> s) timers.

(** *** Machine core *)

(** Modelled from the spec: entering a state runs its entry actions and
    arms its timers; a final state ends the machine's life. *)
Definition enter (s : State) (event : Event) (actor : Actor) (world : World)
  : Actor * World :=
  let '(ctx, world') := runActions (entry machine s) event (context actor) world in
  ({| status := if decide (s ∈ final machine) then Done else status actor;
      value := s;
      context := ctx;
      clock := clock actor;
      generation := generation actor;
      pending := pending actor ++ arm s actor |}, world').

(** Modelled from the spec: the library's machine core is missing; by
    sections 4.1 and 4.5, one transition is taken by running the exit
    actions of the source state, the transition's actions and the entry
    actions of the target state, in that order; the timers of the source
    state are cancelled and those of the target state armed.  A
    transition without target only runs its actions. *)
Definition take (t : Transition) (event : Event) (actor : Actor) (world : World)
  : Actor * World :=
  match target t with
  | None =>
      let '(ctx, world') := runActions (actions t) event (context actor) world in
      ({| status := status actor; value := value actor; context := ctx;
          clock := clock actor; generation := generation actor;
          pending := pending actor |}, world')
  | Some s =>
      let '(ctx1, world1) :=
        runActions (exit machine (value actor)) event (context actor) world in
      let '(ctx2, world2) := runActions (actions t) event ctx1 world1 in
      enter s event
        {| status := status actor; value := s; context := ctx2;
           clock := clock actor; generation := (generation actor + 1)%N;
           pending := cancel (value actor) (pending actor) |} world2
  end.

(** Modelled from the spec: eventless transitions are taken until none is
    enabled. *)
Fixpoint settle (fuel : nat) (event : Event) (actor : Actor) (world : World)
  : Actor * World :=
  match fuel with
  | O => (actor, world)
  | S fuel' =>
      if decide (status actor = Running) then
        match resolve Always event actor world with
        | (Some t, world') =>
            let '(actor', world'') := take t event actor world' in
            settle fuel' event actor' world''
        | (None, world') => (actor, world')
        end
      else (actor, world)
  end.

(** Modelled from the spec: the eventless steps allowed after one event. *)
Definition patience : nat := S (length (states machine)).

(** Modelled from the spec: one event is resolved and its transition
    taken; an event that matches nothing changes nothing; a machine that
    is stopped or has reached a final state ignores events. *)
Definition deliver (event : Event) (actor : Actor) (world : World) : Actor * World :=
  if decide (status actor = Running) then
    match resolve (triggerOf event) event actor world with
    | (Some t, world') =>
        let '(actor', world'') := take t event actor world' in
        settle patience event actor' world''
    | (None, world') => settle patience event actor world'
    end
  else (actor, world).

(** Modelled from the spec: [createActor(machine).start()]. *)
Definition start (world : World) : Actor * World :=
  let '(actor, world') :=
    enter (initial machine) Init
      {| status := Running; value := initial machine;
         context := initialContext machine;
         clock := 0; generation := 0; pending := [] |} world in
  settle patience Init actor world'.

(** Modelled from the spec: [actor.send(event)]. *)
Definition send (payload : Payload) (actor : Actor) (world : World) : Actor * World :=
  deliver (Sent payload) actor world.

(** Modelled from the spec: [actor.stop()]; all pending timers are
    cancelled. *)
Definition stop (actor : Actor) : Actor :=
  {| status := Stopped; value := value actor; context := context actor;
     clock := clock actor; generation := generation actor; pending := [] |}.

(** Modelled from the spec: the callback of a timer.  A timer that is no
    longer pending (its state was left, or the machine stopped) applies
    nothing. *)
Definition fire (tm : Timer) (actor : Actor) (world : World) : Actor * World :=
  if decide (tm ∈ pending actor) then
    deliver (Elapsed (delay tm))
      {| status := status actor; value := value actor; context := context actor;
         clock := clock actor; generation := generation actor;
         pending := filter (fun other => other <> tm) (pending actor) |} world
  else (actor, world).

(** Modelled from the spec: one millisecond passes, and the timers that
    are due fire in the order they were armed. *)
Definition tick (now : Actor * World) : Actor * World :=
  let actor := fst now in
  let actor' :=
    {| status := status actor; value := value actor; context := context actor;
       clock := (clock actor + 1)%N; generation := generation actor;
       pending := pending actor |} in
  foldl (fun aw tm => fire tm (fst aw) (snd aw)) (actor', snd now)
    (filter (fun tm => (due tm <= clock actor')%N) (pending actor')).

(** Modelled from the spec: [ms] milliseconds pass. *)
Definition elapse (ms : N) (actor : Actor) (world : World) : Actor * World :=
  N.iter ms tick (actor, world).

(** Modelled from the spec: sending a list of events in turn. *)
Definition sendAll (payloads : list Payload) (actor : Actor) (world : World)
  : Actor * World :=
  foldl (fun aw p => send p (fst aw) (snd aw)) (actor, world) payloads.

(** Modelled from the spec: what the host of an actor can do with it, send
    an event, let time pass, run the callback of a timer (whether still
    pending or not), and stop the actor. *)
Inductive Step :=
  | DoSend (payload : Payload)
  | DoElapse (ms : N)
  | DoFire (tm : Timer)
  | DoStop.

(** Modelled from the spec: the effect of one such step. *)
Definition step (now : Actor * World) (s : Step) : Actor * World :=
  match s with
  | DoSend payload => send payload (fst now) (snd now)
  | DoElapse ms => elapse ms (fst now) (snd now)
  | DoFire tm => fire tm (fst now) (snd now)
  | DoStop => (stop (fst now), snd now)
  end.

(** Modelled from the spec: the effect of a sequence of steps. *)
Definition run (steps : list Step) (now : Actor * World) : Actor * World :=
  foldl step now steps.

End Executor.

Arguments Event : clear implicits.
Arguments Guard : clear implicits.
Arguments Action : clear implicits.
Arguments Transition : clear implicits.
Arguments Machine : clear implicits.
Arguments Actor : clear implicits.
Arguments Timer : clear implicits.
Arguments Step : clear implicits.

(** Modelled from the spec: [assign(...)], an action that only updates the
    context. *)
Definition assign {Context Payload World : Type}
    (update : Context -> Event Payload -> Context) : Action Context Payload World :=
  fun ctx event world => (update ctx event, world).

(** Modelled from the spec: a guard that only reads the context and the
    event. *)
Definition pure {Context Payload World : Type}
    (holds : Context -> Event Payload -> bool) : Guard Context Payload World :=
  fun ctx event world => (holds ctx event, world).

End Statechart.

(** ** 02-xstate-examples: the LLM chat machine ([llm-chat.ts]) *)

Module LlmChat.
Import Js Statechart.

Record ChatContext := {
  message : string;
  response : option string;
  error : option string;
  retryCount : number
}.

(** [ChatEvent], and the two events by which the promise invoked in
    [calling_llm] reports back. *)
Inductive ChatEvent :=
  | SEND_MESSAGE (message : string)
  | RETRY
  | DoneInvoke (output : string)
  | ErrorInvoke (error : string).

Definition eventType (e : ChatEvent) : string :=
  match e with
  | SEND_MESSAGE _ => "SEND_MESSAGE"
  | RETRY => "RETRY"
  | DoneInvoke _ => "xstate.done.actor"
  | ErrorInvoke _ => "xstate.error.actor"
  end.

(** The world of the chat machine: the messages handed to [callLLM], one
    per invocation. *)
Definition Calls := list string.

Definition eventMessage (event : Event ChatEvent) : string :=
  match event with
  | Sent (SEND_MESSAGE m) => m
  | _ => ""
  end.

Definition eventOutput (event : Event ChatEvent) : option string :=
  match event with
  | Sent (DoneInvoke output) => Some output
  | _ => None
  end.

Definition eventError (event : Event ChatEvent) : option string :=
  match event with
  | Sent (ErrorInvoke e) => Some e
  | _ => None
  end.

(** [invoke: { src: fromPromise(... callLLM(input.message)), input: context }] *)
Definition invokeCallLLM : Action ChatContext ChatEvent Calls :=
  fun ctx _ calls => (ctx, calls ++ [message ctx]).

(** [error.after[1500]], first candidate *)
Definition retryLater : Transition string ChatContext ChatEvent Calls :=
  {| source := "error"; trigger := After 1500;
     guard := Some (pure (fun ctx _ => lt (retryCount ctx) (Finite 3)));
     target := Some "calling_llm";
     actions := [assign (fun ctx _ =>
       {| message := message ctx; response := response ctx; error := None;
          retryCount := add (retryCount ctx) (Finite 1) |})] |}.

(** [error.after[1500]], second candidate *)
Definition giveUp : Transition string ChatContext ChatEvent Calls :=
  {| source := "error"; trigger := After 1500; guard := None;
     target := Some "failed"; actions := [] |}.

Definition chatMachine : Machine string ChatContext ChatEvent Calls := {|
  initial := "idle";
  initialContext :=
    {| message := ""; response := None; error := None; retryCount := Finite 0 |};
  states := ["idle"; "calling_llm"; "success"; "error"; "failed"];
  final := ["failed"];
  entry := fun s => if decide (s = "calling_llm") then [invokeCallLLM] else [];
  exit := fun _ => [];
  typeOf := eventType;
  transitions := [
    (* idle.on.SEND_MESSAGE *)
    {| source := "idle"; trigger := On "SEND_MESSAGE"; guard := None;
       target := Some "calling_llm";
       actions := [assign (fun ctx event =>
         {| message := eventMessage event; response := None; error := None;
            retryCount := Finite 0 |})] |};
    (* calling_llm.invoke.onDone *)
    {| source := "calling_llm"; trigger := On "xstate.done.actor"; guard := None;
       target := Some "success";
       actions := [assign (fun ctx event =>
         {| message := message ctx; response := eventOutput event;
            error := error ctx; retryCount := retryCount ctx |})] |};
    (* calling_llm.invoke.onError *)
    {| source := "calling_llm"; trigger := On "xstate.error.actor"; guard := None;
       target := Some "error";
       actions := [assign (fun ctx event =>
         {| message := message ctx; response := response ctx;
            error := eventError event; retryCount := retryCount ctx |})] |};
    (* success.on.SEND_MESSAGE *)
    {| source := "success"; trigger := On "SEND_MESSAGE"; guard := None;
       target := Some "calling_llm";
       actions := [assign (fun ctx event =>
         {| message := eventMessage event; response := None; error := None;
            retryCount := retryCount ctx |})] |};
    retryLater;
    giveUp;
    (* error.on.RETRY *)
    {| source := "error"; trigger := On "RETRY"; guard := None;
       target := Some "calling_llm";
       actions := [assign (fun ctx _ =>
         {| message := message ctx; response := response ctx; error := None;
            retryCount := add (retryCount ctx) (Finite 1) |})] |}
  ]
|}.

(** One failed call: the promise rejects, and the retry delay passes. *)
Definition failOnce (now : Actor string ChatContext * Calls)
  : Actor string ChatContext * Calls :=
  let '(actor, calls) := send chatMachine (ErrorInvoke "timeout") (fst now) (snd now) in
  elapse chatMachine 1500 actor calls.

(** A message is sent and the call fails [n] times in a row. *)
Definition failures (n : nat) : Actor string ChatContext * Calls :=
  let '(actor, calls) := start chatMachine [] in
  Nat.iter n failOnce (send chatMachine (SEND_MESSAGE "hello") actor calls).

End LlmChat.

(** ** 03-workflow-comparison: the order machine (xstate) *)

Module OrderXState.
Import Js Statechart.

Record OrderContext := {
  orderId : string;
  items : list string;
  total : number;
  orderStatus : string;
  retryCount : number
}.

Inductive OrderEvent :=
  | CONFIRM_ORDER
  | PROCESS_PAYMENT
  | PAYMENT_SUCCESS
  | PAYMENT_FAILED
  | RETRY_PAYMENT
  | SHIP_ORDER
  | DELIVER_ORDER
  | CANCEL.

Definition eventType (e : OrderEvent) : string :=
  match e with
  | CONFIRM_ORDER => "CONFIRM_ORDER"
  | PROCESS_PAYMENT => "PROCESS_PAYMENT"
  | PAYMENT_SUCCESS => "PAYMENT_SUCCESS"
  | PAYMENT_FAILED => "PAYMENT_FAILED"
  | RETRY_PAYMENT => "RETRY_PAYMENT"
  | SHIP_ORDER => "SHIP_ORDER"
  | DELIVER_ORDER => "DELIVER_ORDER"
  | CANCEL => "CANCEL"
  end.

Definition PAYMENT_DELAY_MS : N := 1000.
Definition SHIPPING_DELAY_MS : N := 2000.
Definition PAYMENT_SUCCESS_RATE : Q := 7 # 10.
Definition MAX_PAYMENT_RETRIES : number := Finite 3.
Definition RETRY_EVENT_DELAY_MS : N := 1500.

(** The pseudo-random generator behind [Math.random()]: the draws it will
    return, and how many were taken. *)
Record Random := {
  draws : nat -> Q;
  taken : nat
}.

(** [Math.random()] *)
Definition Math_random (rng : Random) : Q * Random :=
  (draws rng (taken rng), {| draws := draws rng; taken := S (taken rng) |}).

(** [() => Math.random() < PAYMENT_SUCCESS_RATE] *)
Definition paymentSucceeds : Guard OrderContext OrderEvent Random :=
  fun _ _ rng =>
    let '(r, rng') := Math_random rng in
    (negb (Qle_bool PAYMENT_SUCCESS_RATE r), rng').

Definition setStatus (s : string) : Action OrderContext OrderEvent Random :=
  assign (fun ctx _ =>
    {| orderId := orderId ctx; items := items ctx; total := total ctx;
       orderStatus := s; retryCount := retryCount ctx |}).

(** [processing_payment.after[PAYMENT_DELAY_MS]], first candidate *)
Definition paymentAccepted : Transition string OrderContext OrderEvent Random :=
  {| source := "processing_payment"; trigger := After PAYMENT_DELAY_MS;
     guard := Some paymentSucceeds;
     target := Some "paid";
     actions := [assign (fun ctx _ =>
       {| orderId := orderId ctx; items := items ctx; total := total ctx;
          orderStatus := "paid"; retryCount := Finite 0 |})] |}.

(** [processing_payment.after[PAYMENT_DELAY_MS]], second candidate *)
Definition paymentDeclined : Transition string OrderContext OrderEvent Random :=
  {| source := "processing_payment"; trigger := After PAYMENT_DELAY_MS;
     guard := None;
     target := Some "payment_failed";
     actions := [assign (fun ctx _ =>
       {| orderId := orderId ctx; items := items ctx; total := total ctx;
          orderStatus := orderStatus ctx;
          retryCount := add (retryCount ctx) (Finite 1) |})] |}.

(** [payment_failed.after[RETRY_EVENT_DELAY_MS]], first candidate *)
Definition retryPayment : Transition string OrderContext OrderEvent Random :=
  {| source := "payment_failed"; trigger := After RETRY_EVENT_DELAY_MS;
     guard := Some (pure (fun ctx _ => lt (retryCount ctx) MAX_PAYMENT_RETRIES));
     target := Some "processing_payment"; actions := [] |}.

(** [payment_failed.after[RETRY_EVENT_DELAY_MS]], second candidate *)
Definition cancelOrder : Transition string OrderContext OrderEvent Random :=
  {| source := "payment_failed"; trigger := After RETRY_EVENT_DELAY_MS;
     guard := None;
     target := Some "canceled"; actions := [] |}.

Definition orderMachine : Machine string OrderContext OrderEvent Random := {|
  initial := "pending";
  initialContext :=
    {| orderId := "ORD-001"; items := ["Item A"; "Item B"]; total := Finite 100;
       orderStatus := "pending"; retryCount := Finite 0 |};
  states := ["pending"; "confirmed"; "processing_payment"; "paid"; "payment_failed";
             "shipping"; "delivered"; "canceled"];
  final := ["delivered"; "canceled"];
  entry := fun s =>
    if decide (s = "processing_payment") then [setStatus "processing_payment"]
    else if decide (s = "shipping") then [setStatus "shipping"]
    else if decide (s = "canceled") then [setStatus "canceled"]
    else [];
  exit := fun _ => [];
  typeOf := eventType;
  transitions := [
    {| source := "pending"; trigger := On "CONFIRM_ORDER"; guard := None;
       target := Some "confirmed"; actions := [] |};
    {| source := "confirmed"; trigger := On "PROCESS_PAYMENT"; guard := None;
       target := Some "processing_payment"; actions := [] |};
    {| source := "confirmed"; trigger := On "CANCEL"; guard := None;
       target := Some "canceled"; actions := [] |};
    paymentAccepted;
    paymentDeclined;
    {| source := "paid"; trigger := On "SHIP_ORDER"; guard := None;
       target := Some "shipping"; actions := [] |};
    retryPayment;
    cancelOrder;
    {| source := "shipping"; trigger := After SHIPPING_DELAY_MS; guard := None;
       target := Some "delivered";
       actions := [setStatus "delivered"] |}
  ]
|}.

End OrderXState.

(** ** 03-workflow-comparison: the order workflow (LangGraph) *)

Module OrderLangGraph.
Import Js.

Definition CONFIRM_DELAY_MS : N := 500.
Definition PAYMENT_DELAY_MS : N := 1000.
Definition SHIPPING_DELAY_MS : N := 2000.
Definition MAX_PAYMENT_RETRIES : number := Finite 3.
Definition PAYMENT_SUCCESS_RATE : Q := 7 # 10.
Definition END : string := "__end__".

Record OrderGraphState := {
  orderId : string;
  items : list string;
  total : number;
  orderStatus : string;
  retryCount : number;
  messages : list string
}.

(** [createOrderNode] *)
Definition createOrderNode (state : OrderGraphState) : OrderGraphState :=
  {| orderId := "ORD-001"; items := ["Item A"; "Item B"]; total := Finite 100;
     orderStatus := "pending"; retryCount := Finite 0;
     messages := messages state ++ ["주문 생성됨 (Pending)"] |}.

(** [confirmOrderNode] *)
Definition confirmOrderNode (state : OrderGraphState) : OrderGraphState :=
  {| orderId := orderId state; items := items state; total := total state;
     orderStatus := orderStatus state; retryCount := retryCount state;
     messages := messages state ++ ["주문 확인됨"] |}.

(** [processPaymentNode]; [random] is the value of [Math.random()]. *)
Definition processPaymentNode (random : Q) (state : OrderGraphState) : OrderGraphState :=
  let success := negb (Qle_bool PAYMENT_SUCCESS_RATE random) in
  if success then
    {| orderId := orderId state; items := items state; total := total state;
       orderStatus := "paid"; retryCount := retryCount state;
       messages := messages state ++ ["결제 완료 (Paid)"] |}
  else
    {| orderId := orderId state; items := items state; total := total state;
       orderStatus := "pending";
       retryCount := add (retryCount state) (Finite 1);
       messages := messages state ++
         ["결제 실패 (시도 " +:+ toString (add (retryCount state) (Finite 1)) +:+ ")"] |}.

(** [shipOrderNode] *)
Definition shipOrderNode (state : OrderGraphState) : OrderGraphState :=
  {| orderId := orderId state; items := items state; total := total state;
     orderStatus := "shipping"; retryCount := retryCount state;
     messages := messages state ++ ["배송 시작됨 (Shipping)"] |}.

(** [deliverOrderNode] *)
Definition deliverOrderNode (state : OrderGraphState) : OrderGraphState :=
  {| orderId := orderId state; items := items state; total := total state;
     orderStatus := "delivered"; retryCount := retryCount state;
     messages := messages state ++ ["배송 완료 (Delivered)"] |}.

(** [shouldRetryPayment] *)
Definition shouldRetryPayment (state : OrderGraphState) : string :=
  if bool_decide (orderStatus state = "pending")
     && lt (retryCount state) MAX_PAYMENT_RETRIES then
    "process_payment"
  else if bool_decide (orderStatus state = "pending")
          && ge (retryCount state) MAX_PAYMENT_RETRIES then
    END
  else
    "ship_order".

(** The generator behind [Math.random()], as in the xstate order machine. *)
Record Random := {
  draws : nat -> Q;
  taken : nat
}.

(** The node functions registered by [addNode]. *)
Definition runNode (node : string) (state : OrderGraphState) (rng : Random)
  : OrderGraphState * Random :=
  if decide (node = "create_order") then (createOrderNode state, rng)
  else if decide (node = "confirm_order") then (confirmOrderNode state, rng)
  else if decide (node = "process_payment") then
    (processPaymentNode (draws rng (taken rng)) state,
     {| draws := draws rng; taken := S (taken rng) |})
  else if decide (node = "ship_order") then (shipOrderNode state, rng)
  else if decide (node = "deliver_order") then (deliverOrderNode state, rng)
  else (state, rng).

(** The edges registered by [addEdge] and [addConditionalEdges]. *)
Definition nextNode (node : string) (state : OrderGraphState) : string :=
  if decide (node = "__start__") then "create_order"
  else if decide (node = "create_order") then "confirm_order"
  else if decide (node = "confirm_order") then "process_payment"
  else if decide (node = "process_payment") then shouldRetryPayment state
  else if decide (node = "ship_order") then "deliver_order"
  else END.

(** The library's default bound on the steps of one [invoke]. *)
Definition recursionLimit : nat := 25.

(** [app.invoke(state)]: the nodes are run along the edges until [END];
    the result carries the nodes that ran, in order. *)
Fixpoint walk (steps : nat) (node : string) (state : OrderGraphState) (rng : Random)
    (ran : list string) : Completion (OrderGraphState * list string) :=
  if decide (node = END) then Normal (state, ran)
  else match steps with
       | O => Throw "GraphRecursionError"
       | S steps' =>
           let '(state', rng') := runNode node state rng in
           walk steps' (nextNode node state') state' rng' (ran ++ [node])
       end.

Definition invoke (state : OrderGraphState) (rng : Random)
  : Completion (OrderGraphState * list string) :=
  walk recursionLimit (nextNode "__start__" state) state rng [].

(** The initial state built by [runLangGraphWorkflow]. *)
Definition initialState : OrderGraphState :=
  {| orderId := ""; items := []; total := Finite 0; orderStatus := "pending";
     retryCount := Finite 0; messages := [] |}.

End OrderLangGraph.

(** ** 02-xstate-examples: the form machine ([form-validation.ts]) *)

Module FormValidation.
Import Js Statechart.

Record FormContext := {
  email : string;
  password : string;
  errors : list string
}.

Inductive FormEvent :=
  | INPUT_EMAIL (value : string)
  | INPUT_PASSWORD (value : string)
  | SUBMIT
  | RESET.

Definition eventType (e : FormEvent) : string :=
  match e with
  | INPUT_EMAIL _ => "INPUT_EMAIL"
  | INPUT_PASSWORD _ => "INPUT_PASSWORD"
  | SUBMIT => "SUBMIT"
  | RESET => "RESET"
  end.

Definition MIN_PASSWORD_LENGTH : nat := 6.

Definition eventValue (event : Event FormEvent) : string :=
  match event with
  | Sent (INPUT_EMAIL v) | Sent (INPUT_PASSWORD v) => v
  | _ => ""
  end.

Section Machine.

(** [EMAIL_REGEX.test]: the regular expression engine is the platform's. *)
Variable EMAIL_REGEX_test : string -> bool.

(** The [errors] assigner of [validating.entry]. *)
Definition validate (ctx : FormContext) : list string :=
  (if bool_decide (email ctx = "") then ["이메일을 입력해주세요"]
   else if negb (EMAIL_REGEX_test (email ctx)) then ["올바른 이메일 형식이 아닙니다"]
   else [])
  ++
  (if bool_decide (password ctx = "") then ["비밀번호를 입력해주세요"]
   else if bool_decide (stringLength (password ctx) < MIN_PASSWORD_LENGTH)
        then ["비밀번호는 최소 6자 이상이어야 합니다"]
   else []).

Definition setEmail : Action FormContext FormEvent unit :=
  assign (fun ctx event =>
    {| email := eventValue event; password := password ctx; errors := errors ctx |}).

Definition setPassword : Action FormContext FormEvent unit :=
  assign (fun ctx event =>
    {| email := email ctx; password := eventValue event; errors := errors ctx |}).

(** [validating.always], first candidate *)
Definition whenValid : Transition string FormContext FormEvent unit :=
  {| source := "validating"; trigger := Always;
     guard := Some (pure (fun ctx _ => bool_decide (length (errors ctx) = 0)));
     target := Some "submitting"; actions := [] |}.

(** [validating.always], second candidate *)
Definition otherwise : Transition string FormContext FormEvent unit :=
  {| source := "validating"; trigger := Always; guard := None;
     target := Some "error"; actions := [] |}.

Definition formMachine : Machine string FormContext FormEvent unit := {|
  initial := "editing";
  initialContext := {| email := ""; password := ""; errors := [] |};
  states := ["editing"; "validating"; "submitting"; "success"; "error"];
  final := [];
  entry := fun s =>
    if decide (s = "validating") then
      [assign (fun ctx _ =>
         {| email := email ctx; password := password ctx; errors := validate ctx |})]
    else [];
  exit := fun _ => [];
  typeOf := eventType;
  transitions := [
    {| source := "editing"; trigger := On "INPUT_EMAIL"; guard := None;
       target := None; actions := [setEmail] |};
    {| source := "editing"; trigger := On "INPUT_PASSWORD"; guard := None;
       target := None; actions := [setPassword] |};
    {| source := "editing"; trigger := On "SUBMIT"; guard := None;
       target := Some "validating"; actions := [] |};
    whenValid;
    otherwise;
    {| source := "submitting"; trigger := After 1000; guard := None;
       target := Some "success"; actions := [] |};
    {| source := "success"; trigger := On "RESET"; guard := None;
       target := Some "editing"; actions := [] |};
    {| source := "error"; trigger := On "INPUT_EMAIL"; guard := None;
       target := Some "editing"; actions := [setEmail] |};
    {| source := "error"; trigger := On "INPUT_PASSWORD"; guard := None;
       target := Some "editing"; actions := [setPassword] |};
    {| source := "error"; trigger := On "RESET"; guard := None;
       target := Some "editing";
       actions := [assign (fun _ _ => {| email := ""; password := ""; errors := [] |})] |}
  ]
|}.

End Machine.

End FormValidation.

(** ** 04-advanced-topics: the persisted game ([state-persistence.ts]) *)

Module GamePersistence.
Import Js Statechart.

Record GameContext := {
  level : number;
  score : number;
  lives : number;
  playerName : string
}.

(** [Partial<GameContext>]: [None] where the property is absent. *)
Record PartialGameContext := {
  level_opt : option number;
  score_opt : option number;
  lives_opt : option number;
  playerName_opt : option string
}.

(** A [GameContext] passed where a [Partial<GameContext>] is expected. *)
Definition asPartial (ctx : GameContext) : PartialGameContext :=
  {| level_opt := Some (level ctx); score_opt := Some (score ctx);
     lives_opt := Some (lives ctx); playerName_opt := Some (playerName ctx) |}.

(** [GameEvent]; the [savedState] of [LOAD_GAME] may be missing at run
    time, which the machine allows for. *)
Inductive GameEvent :=
  | NEW_GAME
  | LOAD_GAME (savedState : option PartialGameContext)
  | EARN_POINTS (points : number)
  | LOSE_LIFE
  | LEVEL_UP
  | SAVE
  | PAUSE
  | RESUME
  | QUIT
  | RESTART.

Definition eventType (e : GameEvent) : string :=
  match e with
  | NEW_GAME => "NEW_GAME"
  | LOAD_GAME _ => "LOAD_GAME"
  | EARN_POINTS _ => "EARN_POINTS"
  | LOSE_LIFE => "LOSE_LIFE"
  | LEVEL_UP => "LEVEL_UP"
  | SAVE => "SAVE"
  | PAUSE => "PAUSE"
  | RESUME => "RESUME"
  | QUIT => "QUIT"
  | RESTART => "RESTART"
  end.

(** The part of the outside world the example touches: the save file, and
    whether it can be written, and the date [new Date().toISOString()]
    returns. *)
Record Disk := {
  saveFile : option Text;
  writable : bool;
  today : string
}.

(** [isRecord] *)
Definition isRecord (value : Value) : bool :=
  bool_decide (typeof value = "object") && negb (isNull value).

Definition theNumber (v : Value) : number :=
  match v with Number n => n | _ => NaN end.

Definition theString (v : Value) : string :=
  match v with String s => s | _ => "" end.

(** [parseSavedGame]; [None] is [null]. *)
Definition parseSavedGame (data : Value) : Completion (option GameContext) :=
  if negb (isRecord data) then Normal None
  else
    bind (getProperty data "level") (fun level =>
    bind (getProperty data "score") (fun score =>
    bind (getProperty data "lives") (fun lives =>
    bind (getProperty data "playerName") (fun playerName =>
      if negb (bool_decide (typeof level = "number"))
         || negb (bool_decide (typeof score = "number"))
         || negb (bool_decide (typeof lives = "number"))
         || negb (bool_decide (typeof playerName = "string"))
      then Normal None
      else Normal (Some {| level := theNumber level; score := theNumber score;
                           lives := theNumber lives;
                           playerName := theString playerName |}))))).

(** The object [saveData] built by [saveGame]. *)
Definition saveData (ctx : GameContext) (disk : Disk) : Value :=
  Object (<["level" := Number (level ctx)]>
         (<["score" := Number (score ctx)]>
         (<["lives" := Number (lives ctx)]>
         (<["playerName" := String (playerName ctx)]>
         (<["savedAt" := String (today disk)]> ∅))))).

(** [fs.writeFileSync(SAVE_FILE, text)] *)
Definition writeFileSync (text : Text) (disk : Disk) : Completion Disk :=
  if writable disk then
    Normal {| saveFile := Some text; writable := writable disk; today := today disk |}
  else Throw "EACCES".

(** [saveGame]: a failed write is caught and reported on the console. *)
Definition saveGame (ctx : GameContext) (disk : Disk) : Disk :=
  tryCatch (writeFileSync (JSON_stringify (saveData ctx disk)) disk) (fun _ => disk).

(** [loadSavedGame]; [None] is [null]. *)
Definition loadSavedGame (disk : Disk) : option GameContext :=
  tryCatch
    (match saveFile disk with
     | Some data =>
         bind (JSON_parse data) (fun savedState =>
         bind (parseSavedGame savedState) (fun parsedState =>
           match parsedState with
           | None => Normal None
           | Some parsed => Normal (Some parsed)
           end))
     | None => Normal None
     end)
    (fun _ => None).

(** [deleteSaveFile] *)
Definition deleteSaveFile (disk : Disk) : Disk :=
  {| saveFile := None; writable := writable disk; today := today disk |}.

(** [assign(({ event }) => loadEvent.savedState || {})]: the properties
    present in the saved state replace those of the context. *)
Definition merge (ctx : GameContext) (saved : option PartialGameContext) : GameContext :=
  match saved with
  | None => ctx
  | Some s =>
      {| level := default (level ctx) (level_opt s);
         score := default (score ctx) (score_opt s);
         lives := default (lives ctx) (lives_opt s);
         playerName := default (playerName ctx) (playerName_opt s) |}
  end.

Definition eventSavedState (event : Event GameEvent) : option PartialGameContext :=
  match event with
  | Sent (LOAD_GAME saved) => saved
  | _ => None
  end.

(** [pointsEvent.points || 100] *)
Definition eventPoints (event : Event GameEvent) : number :=
  match event with
  | Sent (EARN_POINTS points) => if truthy points then points else Finite 100
  | _ => Finite 100
  end.

(** [entry: ({ context }) => saveGame(context)] *)
Definition saveOnEntry : Action GameContext GameEvent Disk :=
  fun ctx _ disk => (ctx, saveGame ctx disk).

(** [playing.always] *)
Definition outOfLives : Transition string GameContext GameEvent Disk :=
  {| source := "playing"; trigger := Always;
     guard := Some (pure (fun ctx _ => le (lives ctx) (Finite 0)));
     target := Some "gameOver"; actions := [] |}.

Definition gameMachine : Machine string GameContext GameEvent Disk := {|
  initial := "menu";
  initialContext :=
    {| level := Finite 1; score := Finite 0; lives := Finite 3; playerName := "Player" |};
  states := ["menu"; "playing"; "paused"; "savingFromPlaying"; "savingFromPaused";
             "gameOver"];
  final := [];
  entry := fun s =>
    if decide (s = "savingFromPlaying") then [saveOnEntry]
    else if decide (s = "savingFromPaused") then [saveOnEntry]
    else [];
  exit := fun _ => [];
  typeOf := eventType;
  transitions := [
    {| source := "menu"; trigger := On "NEW_GAME"; guard := None;
       target := Some "playing";
       actions := [assign (fun ctx _ =>
         {| level := Finite 1; score := Finite 0; lives := Finite 3;
            playerName := playerName ctx |})] |};
    {| source := "menu"; trigger := On "LOAD_GAME"; guard := None;
       target := Some "playing";
       actions := [assign (fun ctx event => merge ctx (eventSavedState event))] |};
    {| source := "playing"; trigger := On "EARN_POINTS"; guard := None;
       target := None;
       actions := [assign (fun ctx event =>
         {| level := level ctx; score := add (score ctx) (eventPoints event);
            lives := lives ctx; playerName := playerName ctx |})] |};
    {| source := "playing"; trigger := On "LOSE_LIFE"; guard := None;
       target := None;
       actions := [assign (fun ctx _ =>
         {| level := level ctx; score := score ctx;
            lives := sub (lives ctx) (Finite 1); playerName := playerName ctx |})] |};
    {| source := "playing"; trigger := On "LEVEL_UP"; guard := None;
       target := None;
       actions := [assign (fun ctx _ =>
         {| level := add (level ctx) (Finite 1); score := score ctx;
            lives := add (lives ctx) (Finite 1); playerName := playerName ctx |})] |};
    {| source := "playing"; trigger := On "SAVE"; guard := None;
       target := Some "savingFromPlaying"; actions := [] |};
    {| source := "playing"; trigger := On "PAUSE"; guard := None;
       target := Some "paused"; actions := [] |};
    outOfLives;
    {| source := "paused"; trigger := On "RESUME"; guard := None;
       target := Some "playing"; actions := [] |};
    {| source := "paused"; trigger := On "SAVE"; guard := None;
       target := Some "savingFromPaused"; actions := [] |};
    {| source := "paused"; trigger := On "QUIT"; guard := None;
       target := Some "menu"; actions := [] |};
    {| source := "savingFromPlaying"; trigger := After 1000; guard := None;
       target := Some "playing"; actions := [] |};
    {| source := "savingFromPaused"; trigger := After 1000; guard := None;
       target := Some "paused"; actions := [] |};
    {| source := "gameOver"; trigger := On "RESTART"; guard := None;
       target := Some "menu"; actions := [] |}
  ]
|}.

(** The second scenario of the demonstration, up to the loading: a new
    actor is started, and the saved game, if there is a valid one, is
    delivered to it. *)
Definition resume (disk : Disk) : Actor string GameContext * Disk :=
  let '(newGameActor, disk') := start gameMachine disk in
  match loadSavedGame disk' with
  | Some savedState => send gameMachine (LOAD_GAME (Some (asPartial savedState))) newGameActor disk'
  | None => (newGameActor, disk')
  end.

End GamePersistence.

(** ** 03-workflow-comparison: the order workflow (Mastra) *)

Module OrderMastra.
Import Js.

Definition CONFIRM_DELAY_MS : N := 500.
Definition PAYMENT_DELAY_MS : N := 1000.
Definition SHIPPING_DELAY_MS : N := 2000.
Definition MAX_PAYMENT_RETRIES : number := Finite 3.
Definition PAYMENT_SUCCESS_RATE : Q := 7 # 10.

(** [OrderState], the type of [orderSchema]. *)
Record OrderState := {
  orderId : string;
  items : list string;
  total : number;
  orderStatus : string;
  retryCount : number
}.

(** [OrderSeed], the type of [orderSchema.partial()]: [None] where the
    property is absent. *)
Record OrderSeed := {
  orderId_opt : option string;
  items_opt : option (list string);
  total_opt : option number;
  orderStatus_opt : option string;
  retryCount_opt : option number
}.

(** The generator behind [Math.random()], as in the LangGraph workflow. *)
Definition Random := OrderLangGraph.Random.

(** [{ ...state, orderStatus }] and [{ ...state, retryCount }] *)
Definition withOrderStatus (orderStatus' : string) (state : OrderState) : OrderState :=
  {| orderId := orderId state; items := items state; total := total state;
     orderStatus := orderStatus'; retryCount := retryCount state |}.

Definition withRetryCount (retryCount' : number) (state : OrderState) : OrderState :=
  {| orderId := orderId state; items := items state; total := total state;
     orderStatus := orderStatus state; retryCount := retryCount' |}.

(** [createOrder.execute] *)
Definition createOrder (seed : OrderSeed) : OrderState :=
  {| orderId := default "ORD-001" (orderId_opt seed);
     items := match items_opt seed with
              | Some (item :: rest) => item :: rest
              | _ => ["Item A"; "Item B"]
              end;
     total := default (Finite 100) (total_opt seed);
     orderStatus := "pending";
     retryCount := Finite 0 |}.

(** [confirmOrder.execute] *)
Definition confirmOrder (inputData : OrderState) : OrderState := inputData.

(** The [while] loop of [processPayment.execute]; [rounds] bounds the
    iterations, and [None] is a loop still running after that many. *)
Fixpoint paymentLoop (rounds : nat) (state : OrderState) (rng : Random)
  : option (OrderState * Random) :=
  if negb (bool_decide (orderStatus state = "paid"))
     && lt (retryCount state) MAX_PAYMENT_RETRIES then
    match rounds with
    | O => None
    | S rounds' =>
        let attempt := add (retryCount state) (Finite 1) in
        let state1 := withOrderStatus "processing_payment" state in
        let success :=
          negb (Qle_bool PAYMENT_SUCCESS_RATE
                  (OrderLangGraph.draws rng (OrderLangGraph.taken rng))) in
        let rng' := {| OrderLangGraph.draws := OrderLangGraph.draws rng;
                       OrderLangGraph.taken := S (OrderLangGraph.taken rng) |} in
        if success then Some (withOrderStatus "paid" state1, rng')
        else paymentLoop rounds' (withRetryCount attempt state1) rng'
    end
  else Some (state, rng).

(** [processPayment.execute] *)
Definition processPayment (rounds : nat) (inputData : OrderState) (rng : Random)
  : option (OrderState * Random) :=
  match paymentLoop rounds inputData rng with
  | Some (state, rng') =>
      Some (if negb (bool_decide (orderStatus state = "paid"))
            then withOrderStatus "canceled" state else state, rng')
  | None => None
  end.

(** [shipOrder.execute] *)
Definition shipOrder (inputData : OrderState) : OrderState :=
  if negb (bool_decide (orderStatus inputData = "paid")) then inputData
  else withOrderStatus "shipping" inputData.

(** [deliverOrder.execute] *)
Definition deliverOrder (inputData : OrderState) : OrderState :=
  if negb (bool_decide (orderStatus inputData = "shipping")) then inputData
  else withOrderStatus "delivered" inputData.

(** [orderWorkflow]: the five steps, each fed the result of the one
    before. *)
Definition orderWorkflow (rounds : nat) (inputData : OrderSeed) (rng : Random)
  : option (OrderState * Random) :=
  match processPayment rounds (confirmOrder (createOrder inputData)) rng with
  | Some (state, rng') => Some (deliverOrder (shipOrder state), rng')
  | None => None
  end.

(** The input of [runMastraWorkflow], [{}]. *)
Definition emptySeed : OrderSeed :=
  {| orderId_opt := None; items_opt := None; total_opt := None;
     orderStatus_opt := None; retryCount_opt := None |}.

End OrderMastra.

(** ** 03-workflow-comparison: the language model of the chatbots *)

Module Llm.
Import Js.

(** A message of the conversation. *)
Record Message := {
  role : string;
  content : string
}.

(** The model behind [callLLM] (the OpenAI API, or the mock and its draws):
    what it answers, or the error it throws, at each call, and the
    histories it was called with so far. *)
Record Model := {
  answers : nat -> list Message -> Completion string;
  asked : list (list Message)
}.

(** [callLLM(conversationHistory)] *)
Definition callLLM (conversationHistory : list Message) (model : Model)
  : Completion string * Model :=
  (answers model (length (asked model)) conversationHistory,
   {| answers := answers model; asked := asked model ++ [conversationHistory] |}).

End Llm.

(** ** 03-workflow-comparison: the chatbot workflow (LangGraph) *)

Module ChatbotLangGraph.
Import Js Llm.

Definition MAX_LLM_RETRIES : number := Finite 3.
Definition END : string := "__end__".

Record ChatGraphState := {
  userMessage : string;
  conversationHistory : list Message;
  currentResponse : option string;
  retryCount : number;
  status : string
}.

(** [{ ...state, status }] *)
Definition withStatus (status' : string) (state : ChatGraphState) : ChatGraphState :=
  {| userMessage := userMessage state; conversationHistory := conversationHistory state;
     currentResponse := currentResponse state; retryCount := retryCount state;
     status := status' |}.

Section Workflow.

(** [String.prototype.trim]: the platform's. *)
Variable trim : string -> string.

(** [validateInputNode] *)
Definition validateInputNode (state : ChatGraphState) : ChatGraphState :=
  let userMessage := trim (userMessage state) in
  if bool_decide (String.length userMessage = 0) then withStatus "failed" state
  else withStatus "validating" state.

(** [callLLMNode] *)
Definition callLLMNode (state : ChatGraphState) (model : Model) : ChatGraphState * Model :=
  let attempt := add (retryCount state) (Finite 1) in
  let updatedHistory :=
    conversationHistory state ++ [{| role := "user"; content := userMessage state |}] in
  let '(answer, model') := callLLM updatedHistory model in
  (tryCatch
     (bind answer (fun response =>
        Normal {| userMessage := userMessage state;
                  conversationHistory :=
                    updatedHistory ++ [{| role := "assistant"; content := response |}];
                  currentResponse := Some response;
                  retryCount := retryCount state;
                  status := "success" |}))
     (fun _ =>
        {| userMessage := userMessage state;
           conversationHistory := conversationHistory state;
           currentResponse := currentResponse state;
           retryCount := attempt;
           status := "processing" |}),
   model').

(** [displayResponseNode] *)
Definition displayResponseNode (state : ChatGraphState) : ChatGraphState := state.

(** [handleFailureNode] *)
Definition handleFailureNode (state : ChatGraphState) : ChatGraphState :=
  withStatus "failed" state.

(** [routeAfterValidation] *)
Definition routeAfterValidation (state : ChatGraphState) : string :=
  if bool_decide (status state = "failed") then END else "call_llm".

(** [routeAfterLLMCall] *)
Definition routeAfterLLMCall (state : ChatGraphState) : string :=
  if bool_decide (status state = "success") then "display_response"
  else if bool_decide (status state = "processing")
          && lt (retryCount state) MAX_LLM_RETRIES then "call_llm"
  else "handle_failure".

(** The node functions registered by [addNode]. *)
Definition runNode (node : string) (state : ChatGraphState) (model : Model)
  : ChatGraphState * Model :=
  if decide (node = "validate_input") then (validateInputNode state, model)
  else if decide (node = "call_llm") then callLLMNode state model
  else if decide (node = "display_response") then (displayResponseNode state, model)
  else if decide (node = "handle_failure") then (handleFailureNode state, model)
  else (state, model).

(** The edges registered by [addEdge] and [addConditionalEdges]. *)
Definition nextNode (node : string) (state : ChatGraphState) : string :=
  if decide (node = "__start__") then "validate_input"
  else if decide (node = "validate_input") then routeAfterValidation state
  else if decide (node = "call_llm") then routeAfterLLMCall state
  else END.

(** The library's default bound on the steps of one [invoke]. *)
Definition recursionLimit : nat := 25.

(** [app.invoke(state)]: the nodes are run along the edges until [END];
    the result carries the nodes that ran, in order. *)
Fixpoint walk (steps : nat) (node : string) (state : ChatGraphState) (model : Model)
    (ran : list string) : Completion (ChatGraphState * Model * list string) :=
  if decide (node = END) then Normal (state, model, ran)
  else match steps with
       | O => Throw "GraphRecursionError"
       | S steps' =>
           let '(state', model') := runNode node state model in
           walk steps' (nextNode node state') state' model' (ran ++ [node])
       end.

Definition invoke (state : ChatGraphState) (model : Model)
  : Completion (ChatGraphState * Model * list string) :=
  walk recursionLimit (nextNode "__start__" state) state model [].

End Workflow.

(** The initial state built by [runLangGraphChatbot] for a message. *)
Definition initialState (message : string) (conversationHistory : list Message)
  : ChatGraphState :=
  {| userMessage := message; conversationHistory := conversationHistory;
     currentResponse := None; retryCount := Finite 0; status := "waiting" |}.

End ChatbotLangGraph.

(** ** 03-workflow-comparison: the chatbot workflow (Mastra) *)

Module ChatbotMastra.
Import Js Llm.

Definition MAX_LLM_RETRIES : number := Finite 3.

(** [ChatState], the type of [chatStateSchema]. *)
Record ChatState := {
  userMessage : string;
  conversationHistory : list Message;
  currentResponse : option string;
  retryCount : number;
  status : string
}.

(** [ChatInput], [Partial<ChatState>]: [None] where the property is
    absent. *)
Record ChatInput := {
  userMessage_opt : option string;
  conversationHistory_opt : option (list Message);
  currentResponse_opt : option (option string);
  retryCount_opt : option number;
  status_opt : option string
}.

(** [{ ...state, status }] and [{ ...state, retryCount }] *)
Definition withStatus (status' : string) (state : ChatState) : ChatState :=
  {| userMessage := userMessage state; conversationHistory := conversationHistory state;
     currentResponse := currentResponse state; retryCount := retryCount state;
     status := status' |}.

Definition withRetryCount (retryCount' : number) (state : ChatState) : ChatState :=
  {| userMessage := userMessage state; conversationHistory := conversationHistory state;
     currentResponse := currentResponse state; retryCount := retryCount';
     status := status state |}.

Section Workflow.

(** [String.prototype.trim]: the platform's. *)
Variable trim : string -> string.

(** [validateInput.execute] *)
Definition validateInput (input : ChatInput) : ChatState :=
  let userMessage :=
    match userMessage_opt input with Some message => trim message | None => "" end in
  if bool_decide (String.length userMessage = 0) then
    {| userMessage := "";
       conversationHistory := default [] (conversationHistory_opt input);
       currentResponse := None;
       retryCount := Finite 0;
       status := "failed" |}
  else
    {| userMessage := userMessage;
       conversationHistory := default [] (conversationHistory_opt input);
       currentResponse := None;
       retryCount := match retryCount_opt input with
                     | Some count => if truthy count then count else Finite 0
                     | None => Finite 0
                     end;
       status := "validating" |}.

(** The [while] loop of [callLLMStep.execute]; [rounds] bounds the
    iterations, and [None] is a loop still running after that many. *)
Fixpoint callLoop (rounds : nat) (success : bool) (state : ChatState) (model : Model)
  : option (bool * ChatState * Model) :=
  if negb success && lt (retryCount state) MAX_LLM_RETRIES then
    match rounds with
    | O => None
    | S rounds' =>
        let attempt := add (retryCount state) (Finite 1) in
        let updatedHistory :=
          conversationHistory state ++ [{| role := "user"; content := userMessage state |}] in
        let '(answer, model') := callLLM updatedHistory model in
        match answer with
        | Normal response =>
            callLoop rounds' true
              {| userMessage := userMessage state;
                 conversationHistory :=
                   updatedHistory ++ [{| role := "assistant"; content := response |}];
                 currentResponse := Some response;
                 retryCount := retryCount state;
                 status := "success" |} model'
        | Throw _ => callLoop rounds' false (withRetryCount attempt state) model'
        end
    end
  else Some (success, state, model).

(** [callLLMStep.execute] *)
Definition callLLMStep (rounds : nat) (inputData : ChatState) (model : Model)
  : option (ChatState * Model) :=
  if bool_decide (status inputData = "failed") then Some (inputData, model)
  else
    match callLoop rounds false (withStatus "processing" inputData) model with
    | Some (success, state, model') =>
        Some (if negb success then withStatus "failed" state else state, model')
    | None => None
    end.

(** [displayResponse.execute] *)
Definition displayResponse (inputData : ChatState) : ChatState := inputData.

(** [chatWorkflow]: the three steps, each fed the result of the one
    before. *)
Definition chatWorkflow (rounds : nat) (inputData : ChatInput) (model : Model)
  : option (ChatState * Model) :=
  match callLLMStep rounds (validateInput inputData) model with
  | Some (state, model') => Some (displayResponse state, model')
  | None => None
  end.

End Workflow.

(** The input built by [runMastraChatbot] for a message. *)
Definition inputData (message : string) (conversationHistory : list Message) : ChatInput :=
  {| userMessage_opt := Some message;
     conversationHistory_opt := Some conversationHistory;
     currentResponse_opt := None;
     retryCount_opt := Some (Finite 0);
     status_opt := None |}.

End ChatbotMastra.

(** ** 02-xstate-examples: the fetch machine ([fetch-example.ts]) *)

Module FetchExample.
Import Js Statechart.

Record User := {
  id : number;
  name : string;
  email : string
}.

Record FetchContext := {
  data : option User;
  error : option string;
  retryCount : number
}.

Definition MAX_RETRIES : number := Finite 3.

(** The events of the demonstration, [FETCH] and [RETRY], and the two
    events by which the promise invoked in [loading] reports back. *)
Inductive FetchEvent :=
  | FETCH
  | RETRY
  | DoneInvoke (output : User)
  | ErrorInvoke (message : string).

Definition eventType (e : FetchEvent) : string :=
  match e with
  | FETCH => "FETCH"
  | RETRY => "RETRY"
  | DoneInvoke _ => "xstate.done.actor"
  | ErrorInvoke _ => "xstate.error.actor"
  end.

(** The world of the fetch machine: how many times [fetchUser] was
    called. *)
Definition Fetches := nat.

Definition eventOutput (event : Event FetchEvent) : option User :=
  match event with
  | Sent (DoneInvoke output) => Some output
  | _ => None
  end.

Definition eventMessage (event : Event FetchEvent) : option string :=
  match event with
  | Sent (ErrorInvoke message) => Some message
  | _ => None
  end.

(** [invoke: { src: fromPromise(async () => await fetchUser(USER_ID)) }] *)
Definition invokeFetchUser : Action FetchContext FetchEvent Fetches :=
  fun ctx _ fetches => (ctx, S fetches).

(** [failure.on.RETRY], first candidate *)
Definition retryFetch : Transition string FetchContext FetchEvent Fetches :=
  {| source := "failure"; trigger := On "RETRY";
     guard := Some (pure (fun ctx _ => lt (retryCount ctx) MAX_RETRIES));
     target := Some "loading"; actions := [] |}.

(** [failure.on.RETRY], second candidate *)
Definition giveUp : Transition string FetchContext FetchEvent Fetches :=
  {| source := "failure"; trigger := On "RETRY"; guard := None;
     target := Some "error"; actions := [] |}.

Definition fetchMachine : Machine string FetchContext FetchEvent Fetches := {|
  initial := "idle";
  initialContext := {| data := None; error := None; retryCount := Finite 0 |};
  states := ["idle"; "loading"; "success"; "failure"; "error"];
  final := [];
  entry := fun s => if decide (s = "loading") then [invokeFetchUser] else [];
  exit := fun _ => [];
  typeOf := eventType;
  transitions := [
    (* idle.on.FETCH *)
    {| source := "idle"; trigger := On "FETCH"; guard := None;
       target := Some "loading"; actions := [] |};
    (* loading.invoke.onDone *)
    {| source := "loading"; trigger := On "xstate.done.actor"; guard := None;
       target := Some "success";
       actions := [assign (fun ctx event =>
         {| data := eventOutput event; error := None; retryCount := Finite 0 |})] |};
    (* loading.invoke.onError *)
    {| source := "loading"; trigger := On "xstate.error.actor"; guard := None;
       target := Some "failure";
       actions := [assign (fun ctx event =>
         {| data := data ctx; error := eventMessage event;
            retryCount := add (retryCount ctx) (Finite 1) |})] |};
    (* success.on.FETCH *)
    {| source := "success"; trigger := On "FETCH"; guard := None;
       target := Some "loading"; actions := [] |};
    retryFetch;
    giveUp;
    (* failure.on.FETCH *)
    {| source := "failure"; trigger := On "FETCH"; guard := None;
       target := Some "loading"; actions := [] |};
    (* error.on.FETCH *)
    {| source := "error"; trigger := On "FETCH"; guard := None;
       target := Some "loading";
       actions := [assign (fun ctx _ =>
         {| data := data ctx; error := None; retryCount := Finite 0 |})] |}
  ]
|}.

End FetchExample.

(** ** 03-workflow-comparison: the chatbot machine ([chatbot-xstate.ts]) *)

Module ChatbotXState.
Import Js Statechart Llm.

Definition LLM_CALL_DELAY_MS : N := 1000.
Definition MAX_LLM_RETRIES : number := Finite 3.
Definition RETRY_DELAY_MS : N := 1500.

Record ChatContext := {
  userMessage : string;
  conversationHistory : list Message;
  currentResponse : option string;
  error : option string;
  retryCount : number
}.

(** [ChatEvent], and the two events by which the promise invoked in
    [calling_llm] reports back; the output of the promise is the response
    and the history it was asked with. *)
Inductive ChatEvent :=
  | SEND_MESSAGE (message : string)
  | RETRY
  | RESET
  | DoneInvoke (response : string) (updatedHistory : list Message)
  | ErrorInvoke (error : string).

Definition eventType (e : ChatEvent) : string :=
  match e with
  | SEND_MESSAGE _ => "SEND_MESSAGE"
  | RETRY => "RETRY"
  | RESET => "RESET"
  | DoneInvoke _ _ => "xstate.done.actor"
  | ErrorInvoke _ => "xstate.error.actor"
  end.

(** The world of the chatbot machine: the histories handed to [callLLM],
    one per invocation. *)
Definition Asked := list (list Message).

Definition eventMessage (event : Event ChatEvent) : string :=
  match event with
  | Sent (SEND_MESSAGE m) => m
  | _ => ""
  end.

Definition eventResponse (event : Event ChatEvent) : option string :=
  match event with
  | Sent (DoneInvoke response _) => Some response
  | _ => None
  end.

Definition eventHistory (event : Event ChatEvent) : list Message :=
  match event with
  | Sent (DoneInvoke response updatedHistory) =>
      updatedHistory ++ [{| role := "assistant"; content := response |}]
  | _ => []
  end.

Definition eventError (event : Event ChatEvent) : option string :=
  match event with
  | Sent (ErrorInvoke e) => Some e
  | _ => None
  end.

(** [invoke: { src: fromPromise(... callLLM(updatedHistory)), input: context }] *)
Definition invokeCallLLM : Action ChatContext ChatEvent Asked :=
  fun ctx _ asked =>
    (ctx, asked ++ [conversationHistory ctx
                    ++ [{| role := "user"; content := userMessage ctx |}]]).

(** The assigner of [RESET]. *)
Definition reset : Action ChatContext ChatEvent Asked :=
  assign (fun _ _ =>
    {| userMessage := ""; conversationHistory := []; currentResponse := None;
       error := None; retryCount := Finite 0 |}).

(** The assigner of the retries. *)
Definition countRetry : Action ChatContext ChatEvent Asked :=
  assign (fun ctx _ =>
    {| userMessage := userMessage ctx; conversationHistory := conversationHistory ctx;
       currentResponse := currentResponse ctx; error := None;
       retryCount := add (retryCount ctx) (Finite 1) |}).

Section Machine.

(** [String.prototype.trim]: the platform's. *)
Variable trim : string -> string.

(** [validating.always], first candidate *)
Definition refuseBlank : Transition string ChatContext ChatEvent Asked :=
  {| source := "validating"; trigger := Always;
     guard := Some (pure (fun ctx _ =>
                bool_decide (String.length (trim (userMessage ctx)) = 0)));
     target := Some "waiting_input"; actions := [] |}.

(** [validating.always], second candidate *)
Definition accept : Transition string ChatContext ChatEvent Asked :=
  {| source := "validating"; trigger := Always; guard := None;
     target := Some "calling_llm"; actions := [] |}.

(** [error.after[RETRY_DELAY_MS]], first candidate *)
Definition retryLater : Transition string ChatContext ChatEvent Asked :=
  {| source := "error"; trigger := After RETRY_DELAY_MS;
     guard := Some (pure (fun ctx _ => lt (retryCount ctx) MAX_LLM_RETRIES));
     target := Some "calling_llm"; actions := [countRetry] |}.

(** [error.after[RETRY_DELAY_MS]], second candidate *)
Definition giveUp : Transition string ChatContext ChatEvent Asked :=
  {| source := "error"; trigger := After RETRY_DELAY_MS; guard := None;
     target := Some "failed"; actions := [] |}.

Definition chatbotMachine : Machine string ChatContext ChatEvent Asked := {|
  initial := "waiting_input";
  initialContext :=
    {| userMessage := ""; conversationHistory := []; currentResponse := None;
       error := None; retryCount := Finite 0 |};
  states := ["waiting_input"; "validating"; "calling_llm"; "response_ready"; "error";
             "failed"];
  final := ["failed"];
  entry := fun s => if decide (s = "calling_llm") then [invokeCallLLM] else [];
  exit := fun _ => [];
  typeOf := eventType;
  transitions := [
    (* waiting_input.on.SEND_MESSAGE *)
    {| source := "waiting_input"; trigger := On "SEND_MESSAGE"; guard := None;
       target := Some "validating";
       actions := [assign (fun ctx event =>
         {| userMessage := eventMessage event;
            conversationHistory := conversationHistory ctx;
            currentResponse := currentResponse ctx; error := None;
            retryCount := Finite 0 |})] |};
    refuseBlank;
    accept;
    (* calling_llm.invoke.onDone *)
    {| source := "calling_llm"; trigger := On "xstate.done.actor"; guard := None;
       target := Some "response_ready";
       actions := [assign (fun ctx event =>
         {| userMessage := userMessage ctx;
            conversationHistory := eventHistory event;
            currentResponse := eventResponse event; error := error ctx;
            retryCount := retryCount ctx |})] |};
    (* calling_llm.invoke.onError *)
    {| source := "calling_llm"; trigger := On "xstate.error.actor"; guard := None;
       target := Some "error";
       actions := [assign (fun ctx event =>
         {| userMessage := userMessage ctx;
            conversationHistory := conversationHistory ctx;
            currentResponse := currentResponse ctx; error := eventError event;
            retryCount := retryCount ctx |})] |};
    (* response_ready.on.SEND_MESSAGE *)
    {| source := "response_ready"; trigger := On "SEND_MESSAGE"; guard := None;
       target := Some "validating";
       actions := [assign (fun ctx event =>
         {| userMessage := eventMessage event;
            conversationHistory := conversationHistory ctx;
            currentResponse := None; error := None; retryCount := Finite 0 |})] |};
    (* response_ready.on.RESET *)
    {| source := "response_ready"; trigger := On "RESET"; guard := None;
       target := Some "waiting_input"; actions := [reset] |};
    retryLater;
    giveUp;
    (* error.on.RETRY *)
    {| source := "error"; trigger := On "RETRY"; guard := None;
       target := Some "calling_llm"; actions := [countRetry] |};
    (* failed.on.RESET *)
    {| source := "failed"; trigger := On "RESET"; guard := None;
       target := Some "waiting_input"; actions := [reset] |}
  ]
|}.

End Machine.

End ChatbotXState.

(** ** 02-xstate-examples: the toggle machine ([basic-machine.ts]) *)

Module BasicMachine.
Import Js Statechart.

Inductive ToggleEvent := TOGGLE.

Definition toggleMachine : Machine string unit ToggleEvent unit := {|
  initial := "inactive";
  initialContext := tt;
  states := ["inactive"; "active"];
  final := [];
  entry := fun _ => [];
  exit := fun _ => [];
  typeOf := fun _ => "TOGGLE";
  transitions := [
    {| source := "inactive"; trigger := On "TOGGLE"; guard := None;
       target := Some "active"; actions := [] |};
    {| source := "active"; trigger := On "TOGGLE"; guard := None;
       target := Some "inactive"; actions := [] |}
  ]
|}.

End BasicMachine.

(** * Predicates and scenarios used by the properties *)

(** ** The hand-written machines *)

(** The invariant of the traffic light: the table is the one the
    constructor built, and the current state is one of its keys. *)
Definition trafficInvariant (fsm : TrafficLight.TrafficLightFSM) : Prop :=
  TrafficLight.transitions fsm = TrafficLight.transitionTable /\
  exists s, TrafficLight.currentState fsm = Some s /\ s ∈ TrafficLight.declaredStates.

(** ** The machine core *)

(** A definition is well formed when its initial state and the target of
    every transition are declared states. *)
Definition wellFormed {State Context Payload World : Type}
    (machine : Statechart.Machine State Context Payload World) : Prop :=
  Statechart.initial machine ∈ Statechart.states machine
  /\ forall t s, t ∈ Statechart.transitions machine ->
                 Statechart.target t = Some s -> s ∈ Statechart.states machine.

(** ** The timer scheduler *)

Section Timers.

Import Statechart.

Context {State Context : Type}.

(** Every pending timer was armed by the current state, in the current
    generation or an earlier one. *)
Definition wellTimed (actor : Statechart.Actor State Context) : Prop :=
  forall tm, tm ∈ pending actor ->
    owner tm = value actor /\ (armedAt tm <= generation actor)%N.

(** The timer [tm], armed no later than generation [since], can only be
    pending while the actor is still in that generation, that is, while the
    state that armed it has not been left. *)
Definition tracked (tm : Statechart.Timer State) (since : N)
    (actor : Statechart.Actor State Context) : Prop :=
  wellTimed actor
  /\ (since <= generation actor)%N
  /\ (armedAt tm <= since)%N
  /\ (tm ∈ pending actor -> generation actor = since).

End Timers.

(** ** The resolver *)

Section Candidates.

Import Statechart.

Context {State Context Payload World : Type}.

Abbreviation Transition := (Statechart.Transition State Context Payload World).
Abbreviation Event := (Statechart.Event Payload).

(** Every transition of [skipped] has a guard, and each guard, evaluated
    in turn from [world], is false; the world the evaluations leave. *)
Fixpoint rejected (skipped : list Transition) (ctx : Context) (event : Event)
    (world : World) : option World :=
  match skipped with
  | [] => Some world
  | t :: rest =>
      match guard t with
      | None => None
      | Some g =>
          let '(holds, world') := g ctx event world in
          if holds then None else rejected rest ctx event world'
      end
  end.

(** The guard of [t] is absent, or evaluates true in [world]; the world
    the evaluation leaves. *)
Definition accepted (t : Transition) (ctx : Context) (event : Event) (world : World)
  : option World :=
  match guard t with
  | None => Some world
  | Some g => let '(holds, world') := g ctx event world in
              if holds then Some world' else None
  end.

End Candidates.

(** ** Scenarios of the resolver *)

(** The order machine in [processing_payment], its payment timer about to
    expire. *)
Definition awaitingPayment : Statechart.Actor string OrderXState.OrderContext :=
  {| Statechart.status := Statechart.Running;
     Statechart.value := "processing_payment";
     Statechart.context := Statechart.initialContext OrderXState.orderMachine;
     Statechart.clock := 1000; Statechart.generation := 2; Statechart.pending := [] |}.

(** A generator whose draws are all 9/10, [taken] of them being taken. *)
Definition nines (taken : nat) : OrderXState.Random :=
  {| OrderXState.draws := fun _ => (9 # 10)%Q; OrderXState.taken := taken |}.

(** ** Scenarios of the timer scheduler *)

(** The chat machine, half a second into the [error] state: a message was
    sent, the call failed, and 500 ms passed. *)
Definition chatHistory : list (Statechart.Step string LlmChat.ChatEvent) :=
  [Statechart.DoSend (LlmChat.SEND_MESSAGE "hello");
   Statechart.DoSend (LlmChat.ErrorInvoke "timeout");
   Statechart.DoElapse 500].

Definition chatInError : Statechart.Actor string LlmChat.ChatContext * LlmChat.Calls :=
  Statechart.run LlmChat.chatMachine chatHistory (Statechart.start LlmChat.chatMachine []).

(** The retry timer armed on entering [error]. *)
Definition retryTimer : Statechart.Timer string :=
  {| Statechart.owner := "error"; Statechart.delay := 1500;
     Statechart.due := 1500; Statechart.armedAt := 2 |}.

(** The game machine, half a second into [savingFromPlaying]. *)
Definition gameHistory : list (Statechart.Step string GamePersistence.GameEvent) :=
  [Statechart.DoSend GamePersistence.NEW_GAME;
   Statechart.DoSend GamePersistence.SAVE;
   Statechart.DoElapse 500].

Definition emptyDisk : GamePersistence.Disk :=
  {| GamePersistence.saveFile := None; GamePersistence.writable := true;
     GamePersistence.today := "2026-01-01T00:00:00.000Z" |}.

Definition gameSaving : Statechart.Actor string GamePersistence.GameContext * GamePersistence.Disk :=
  Statechart.run GamePersistence.gameMachine gameHistory
    (Statechart.start GamePersistence.gameMachine emptyDisk).

(** The timer armed on entering [savingFromPlaying]. *)
Definition savingTimer : Statechart.Timer string :=
  {| Statechart.owner := "savingFromPlaying"; Statechart.delay := 1000;
     Statechart.due := 1000; Statechart.armedAt := 2 |}.

(** ** Scenarios of the retry logic *)

(** How many times [process_payment] ran. *)
Definition attempts (ran : list string) : nat :=
  length (filter (fun node => node = "process_payment") ran).

(** The two results of [processPaymentNode]. *)
Definition paid (state : OrderLangGraph.OrderGraphState) : OrderLangGraph.OrderGraphState :=
  {| OrderLangGraph.orderId := OrderLangGraph.orderId state;
     OrderLangGraph.items := OrderLangGraph.items state;
     OrderLangGraph.total := OrderLangGraph.total state;
     OrderLangGraph.orderStatus := "paid";
     OrderLangGraph.retryCount := OrderLangGraph.retryCount state;
     OrderLangGraph.messages := OrderLangGraph.messages state ++ ["결제 완료 (Paid)"] |}.

Definition declined (state : OrderLangGraph.OrderGraphState) : OrderLangGraph.OrderGraphState :=
  {| OrderLangGraph.orderId := OrderLangGraph.orderId state;
     OrderLangGraph.items := OrderLangGraph.items state;
     OrderLangGraph.total := OrderLangGraph.total state;
     OrderLangGraph.orderStatus := "pending";
     OrderLangGraph.retryCount := Js.add (OrderLangGraph.retryCount state) (Js.Finite 1);
     OrderLangGraph.messages := OrderLangGraph.messages state ++
       ["결제 실패 (시도 "
        +:+ Js.toString (Js.add (OrderLangGraph.retryCount state) (Js.Finite 1)) +:+ ")"] |}.

(** A draw of [Math.random()] for which the payment fails. *)
Definition declines (random : Q) : Prop :=
  Qle_bool OrderLangGraph.PAYMENT_SUCCESS_RATE random = true.

(** The next three draws of the generator all make the payment fail. *)
Definition threeDeclined (rng : OrderLangGraph.Random) : Prop :=
  declines (OrderLangGraph.draws rng (OrderLangGraph.taken rng))
  /\ declines (OrderLangGraph.draws rng (S (OrderLangGraph.taken rng)))
  /\ declines (OrderLangGraph.draws rng (S (S (OrderLangGraph.taken rng)))).

(** A generator whose draws are all 9/10. *)
Definition unlucky : OrderLangGraph.Random :=
  {| OrderLangGraph.draws := fun _ => (9 # 10)%Q; OrderLangGraph.taken := 0 |}.

(** The chat machine waiting for the answer to its first call, and waiting
    in [error] after the failure of that call. *)
Definition chatCalling : Statechart.Actor string LlmChat.ChatContext * LlmChat.Calls :=
  LlmChat.failures 0.

Definition chatWaiting : Statechart.Actor string LlmChat.ChatContext * LlmChat.Calls :=
  Statechart.send LlmChat.chatMachine (LlmChat.ErrorInvoke "timeout")
    (fst chatCalling) (snd chatCalling).

(** A message whose every failure is answered at once with the [RETRY]
    event, four times. *)
Definition manualRetries : list (Statechart.Step string LlmChat.ChatEvent) :=
  [Statechart.DoSend (LlmChat.SEND_MESSAGE "hello");
   Statechart.DoSend (LlmChat.ErrorInvoke "timeout"); Statechart.DoSend LlmChat.RETRY;
   Statechart.DoSend (LlmChat.ErrorInvoke "timeout"); Statechart.DoSend LlmChat.RETRY;
   Statechart.DoSend (LlmChat.ErrorInvoke "timeout"); Statechart.DoSend LlmChat.RETRY;
   Statechart.DoSend (LlmChat.ErrorInvoke "timeout"); Statechart.DoSend LlmChat.RETRY].

(** An order whose payment is started, and ten seconds of waiting. *)
Definition orderHistory : list (Statechart.Step string OrderXState.OrderEvent) :=
  [Statechart.DoSend OrderXState.CONFIRM_ORDER;
   Statechart.DoSend OrderXState.PROCESS_PAYMENT;
   Statechart.DoElapse 10000].

(** ** The persisted game *)

(** The saved data [data] is valid and carries the context [ctx]: [data] is
    an object (so neither [null] nor a primitive value) that has a [level],
    a [score] and a [lives] property holding numbers and a [playerName]
    property holding a string, and these are the values of [ctx].  This is
    said of the value itself, without the tests the code makes. *)
Definition validSave (data : Js.Value) (ctx : GamePersistence.GameContext) : Prop :=
  exists fields,
    data = Js.Object fields
    /\ fields !! "level" = Some (Js.Number (GamePersistence.level ctx))
    /\ fields !! "score" = Some (Js.Number (GamePersistence.score ctx))
    /\ fields !! "lives" = Some (Js.Number (GamePersistence.lives ctx))
    /\ fields !! "playerName" = Some (Js.String (GamePersistence.playerName ctx)).

(** The numbers of a context that JSON can carry. *)
Definition finiteContext (ctx : GamePersistence.GameContext) : Prop :=
  Js.isFinite (GamePersistence.level ctx) = true
  /\ Js.isFinite (GamePersistence.score ctx) = true
  /\ Js.isFinite (GamePersistence.lives ctx) = true.

(** The invariant of the game machine: its state is a declared one, and it
    is not [playing] with [lives <= 0]. *)
Definition gameInvariant (actor : Statechart.Actor string GamePersistence.GameContext) : Prop :=
  Statechart.value actor ∈ Statechart.states GamePersistence.gameMachine
  /\ (Statechart.value actor = "playing" ->
      Js.le (GamePersistence.lives (Statechart.context actor)) (Js.Finite 0) = false).

(** A game with an unbounded score, and a saved state without lives. *)
Definition highScore : GamePersistence.GameContext :=
  {| GamePersistence.level := Js.Finite 1; GamePersistence.score := Js.PosInfinity;
     GamePersistence.lives := Js.Finite 3; GamePersistence.playerName := "Player" |}.

Definition livesUnknown : GamePersistence.PartialGameContext :=
  {| GamePersistence.level_opt := None; GamePersistence.score_opt := None;
     GamePersistence.lives_opt := Some Js.NaN; GamePersistence.playerName_opt := None |}.

(** A disk whose save file is not JSON. *)
Definition corruptDisk : GamePersistence.Disk :=
  {| GamePersistence.saveFile := Some (Js.Malformed "{ level: ");
     GamePersistence.writable := true;
     GamePersistence.today := "2026-01-01T00:00:00.000Z" |}.

(** * Further predicates and scenarios *)

(** ** The hand-written machines *)

(** How many of the events are [TOGGLE], and how many are [NEXT]. *)
Definition toggles (events : list string) : nat :=
  length (filter (fun event => event = "TOGGLE") events).

Definition nexts (events : list string) : nat :=
  length (filter (fun event => event = "NEXT") events).

(** The light after one [NEXT]. *)
Definition advance (fsm : TrafficLight.TrafficLightFSM) : TrafficLight.TrafficLightFSM :=
  fst (TrafficLight.transition "NEXT" fsm).

(** ** The persisted game *)

(** The properties [parseSavedGame] reads. *)
Definition savedProperties : list string := ["level"; "score"; "lives"; "playerName"].

(** Whether the three numbers of a context are finite. *)
Definition allFinite (ctx : GamePersistence.GameContext) : bool :=
  Js.isFinite (GamePersistence.level ctx)
  && Js.isFinite (GamePersistence.score ctx)
  && Js.isFinite (GamePersistence.lives ctx).

(** A saved game with a property the game does not know. *)
Definition annotatedSave : gmap string Js.Value :=
  <["level" := Js.Number (Js.Finite 2)]>
  (<["score" := Js.Number (Js.Finite 550)]>
  (<["lives" := Js.Number (Js.Finite 4)]>
  (<["playerName" := Js.String "Player"]> ∅))).

(** ** The order workflows *)

(** An input of the Mastra workflow that claims to be paid already, with no
    items. *)
Definition paidSeed : OrderMastra.OrderSeed :=
  {| OrderMastra.orderId_opt := Some "ORD-042"; OrderMastra.items_opt := Some [];
     OrderMastra.total_opt := Some (Js.Finite 0);
     OrderMastra.orderStatus_opt := Some "paid";
     OrderMastra.retryCount_opt := Some (Js.Finite 3) |}.

(** ** The chatbot workflows *)

(** The history put to the model for a message: the conversation so far,
    and the message. *)
Definition question (conversationHistory : list Llm.Message) (message : string)
  : list Llm.Message :=
  conversationHistory ++ [{| Llm.role := "user"; Llm.content := message |}].

(** The history after an answer. *)
Definition answered (conversationHistory : list Llm.Message) (message response : string)
  : list Llm.Message :=
  question conversationHistory message
  ++ [{| Llm.role := "assistant"; Llm.content := response |}].

(** A model whose every call fails, a model that answers every call, and a
    [trim] that removes nothing. *)
Definition unavailable : Llm.Model :=
  {| Llm.answers := fun _ _ => Js.Throw "Rate limit exceeded"; Llm.asked := [] |}.

Definition helpful : Llm.Model :=
  {| Llm.answers := fun _ _ => Js.Normal "hello"; Llm.asked := [] |}.

Definition keep (text : string) : string := text.

(** A state of the LangGraph chatbot, read as a state of the Mastra
    chatbot. *)
Definition asChatState (state : ChatbotLangGraph.ChatGraphState) : ChatbotMastra.ChatState :=
  {| ChatbotMastra.userMessage := ChatbotLangGraph.userMessage state;
     ChatbotMastra.conversationHistory := ChatbotLangGraph.conversationHistory state;
     ChatbotMastra.currentResponse := ChatbotLangGraph.currentResponse state;
     ChatbotMastra.retryCount := ChatbotLangGraph.retryCount state;
     ChatbotMastra.status := ChatbotLangGraph.status state |}.

(** ** The game machine, more scenarios *)

(** The game machine in [state], running, with the context [ctx]. *)
Definition gameIn (state : string) (ctx : GamePersistence.GameContext) (clock generation : N)
    (pending : list (Statechart.Timer string))
  : Statechart.Actor string GamePersistence.GameContext :=
  {| Statechart.status := Statechart.Running; Statechart.value := state;
     Statechart.context := ctx; Statechart.clock := clock;
     Statechart.generation := generation; Statechart.pending := pending |}.

(** The numbers that stand for a double exactly: the whole numbers from
    [-2^53] to [2^53], which a double holds without rounding, [NaN] and the
    two infinities.  The sum or difference of two such numbers is computed
    by JavaScript without rounding whenever it is in this range again. *)
Definition representable (n : Js.number) : Prop :=
  match n with
  | Js.Finite z => (- 2 ^ 53 <= z <= 2 ^ 53)%Z
  | _ => True
  end.

(** A game at level 4 with one life left. *)
Definition lastLife : GamePersistence.GameContext :=
  {| GamePersistence.level := Js.Finite 4; GamePersistence.score := Js.Finite 1200;
     GamePersistence.lives := Js.Finite 1; GamePersistence.playerName := "Ada" |}.

(** A game in [origin], no timer pending, is sent [SAVE]: it moves to
    [saving], its context is written to the save file, it stays there for
    less than a second whatever time passes, and after one second it is
    back in [origin], its context unchanged. *)
Definition savesAndReturns (origin saving : string) (ctx : GamePersistence.GameContext)
    (clock generation : N) (disk : GamePersistence.Disk) : Prop :=
  let saved :=
    Statechart.send GamePersistence.gameMachine GamePersistence.SAVE
      (gameIn origin ctx clock generation []) disk in
  Statechart.value (fst saved) = saving
  /\ Statechart.context (fst saved) = ctx
  /\ snd saved = GamePersistence.saveGame ctx disk
  /\ (forall ms, (ms < 1000)%N ->
        Statechart.value
          (fst (Statechart.elapse GamePersistence.gameMachine ms (fst saved) (snd saved)))
        = saving)
  /\ let back :=
       Statechart.elapse GamePersistence.gameMachine 1000 (fst saved) (snd saved) in
     Statechart.value (fst back) = origin
     /\ Statechart.context (fst back) = ctx
     /\ snd back = GamePersistence.saveGame ctx disk
     /\ Statechart.pending (fst back) = [].

(** ** The chat machine, more scenarios *)

(** The chat machine in [state], running, no timer pending. *)
Definition chatIn (state : string) (ctx : LlmChat.ChatContext) (clock generation : N)
  : Statechart.Actor string LlmChat.ChatContext :=
  {| Statechart.status := Statechart.Running; Statechart.value := state;
     Statechart.context := ctx; Statechart.clock := clock;
     Statechart.generation := generation; Statechart.pending := [] |}.

(** The context after an answer that took three retries. *)
Definition answeredAtLast : LlmChat.ChatContext :=
  {| LlmChat.message := "hello"; LlmChat.response := Some "hi";
     LlmChat.error := None; LlmChat.retryCount := Js.Finite 3 |}.

(** ** The form machine *)

(** The invariant of the form machine: its state is a declared one other
    than the transient [validating], and in [submitting] and [success] the
    context passes the validation and records no error. *)
Definition formInvariant (EMAIL_REGEX_test : string -> bool)
    (actor : Statechart.Actor string FormValidation.FormContext) : Prop :=
  Statechart.value actor ∈ ["editing"; "submitting"; "success"; "error"]
  /\ (Statechart.value actor ∈ ["submitting"; "success"] ->
      FormValidation.validate EMAIL_REGEX_test (Statechart.context actor) = []
      /\ FormValidation.errors (Statechart.context actor) = []).

(** A regular expression test that asks for an [@]. *)
Fixpoint hasAt (text : string) : bool :=
  match text with
  | EmptyString => false
  | String.String a rest => Ascii.eqb a (Ascii.ascii_of_nat 64) || hasAt rest
  end.

(** A filled form, and the events that fill and submit it. *)
Definition filledForm : FormValidation.FormContext :=
  {| FormValidation.email := "user@example.com";
     FormValidation.password := "password123";
     FormValidation.errors := [] |}.

Definition fillAndSubmit : list (Statechart.Step string FormValidation.FormEvent) :=
  [Statechart.DoSend (FormValidation.INPUT_EMAIL "user@example.com");
   Statechart.DoSend (FormValidation.INPUT_PASSWORD "password123");
   Statechart.DoSend FormValidation.SUBMIT].

(** ** The fetch machine *)

(** The invariant of the fetch machine between two [FETCH] events: no
    timer is pending, [fetchUser] was called at most three times, and
    [retryCount] holds the number of calls that failed. *)
Definition fetchInvariant
    (now : Statechart.Actor string FetchExample.FetchContext * FetchExample.Fetches) : Prop :=
  Statechart.pending (fst now) = []
  /\ snd now <= 3
  /\ ((Statechart.value (fst now) = "idle" /\ snd now = 0)
      \/ (Statechart.value (fst now) = "loading" /\ 1 <= snd now
          /\ FetchExample.retryCount (Statechart.context (fst now))
             = Js.Finite (Z.of_nat (snd now) - 1))
      \/ (Statechart.value (fst now) = "failure" /\ 1 <= snd now
          /\ FetchExample.retryCount (Statechart.context (fst now))
             = Js.Finite (Z.of_nat (snd now)))
      \/ (Statechart.value (fst now) = "error" /\ snd now = 3)
      \/ (Statechart.value (fst now) = "success" /\ 1 <= snd now)).

(** Three failed fetches, each answered with [RETRY]. *)
Definition threeFailures : list (Statechart.Step string FetchExample.FetchEvent) :=
  [Statechart.DoSend (FetchExample.ErrorInvoke "Network error");
   Statechart.DoSend FetchExample.RETRY;
   Statechart.DoSend (FetchExample.ErrorInvoke "Network error");
   Statechart.DoSend FetchExample.RETRY;
   Statechart.DoSend (FetchExample.ErrorInvoke "Network error");
   Statechart.DoSend FetchExample.RETRY;
   Statechart.DoSend FetchExample.RETRY].

(** The fetch machine in [state], running. *)
Definition fetchIn (state : string) (ctx : FetchExample.FetchContext) (clock generation : N)
    (pending : list (Statechart.Timer string))
  : Statechart.Actor string FetchExample.FetchContext :=
  {| Statechart.status := Statechart.Running; Statechart.value := state;
     Statechart.context := ctx; Statechart.clock := clock;
     Statechart.generation := generation; Statechart.pending := pending |}.

(** A context after five failures. *)
Definition fiveFailures : FetchExample.FetchContext :=
  {| FetchExample.data := None; FetchExample.error := Some "Network error";
     FetchExample.retryCount := Js.Finite 5 |}.

(** ** The chatbot machine *)

(** The chatbot machine in [state], running, no timer pending. *)
Definition chatbotIn (state : string) (ctx : ChatbotXState.ChatContext) (clock generation : N)
  : Statechart.Actor string ChatbotXState.ChatContext :=
  {| Statechart.status := Statechart.Running; Statechart.value := state;
     Statechart.context := ctx; Statechart.clock := clock;
     Statechart.generation := generation; Statechart.pending := [] |}.

(** A message whose every call fails, the retry delay passing each time. *)
Definition fourFailures : list (Statechart.Step string ChatbotXState.ChatEvent) :=
  [Statechart.DoSend (ChatbotXState.SEND_MESSAGE "Hello!");
   Statechart.DoSend (ChatbotXState.ErrorInvoke "Rate limit exceeded");
   Statechart.DoElapse 1500;
   Statechart.DoSend (ChatbotXState.ErrorInvoke "Rate limit exceeded");
   Statechart.DoElapse 1500;
   Statechart.DoSend (ChatbotXState.ErrorInvoke "Rate limit exceeded");
   Statechart.DoElapse 1500;
   Statechart.DoSend (ChatbotXState.ErrorInvoke "Rate limit exceeded");
   Statechart.DoElapse 1500].

(** A machine in a final state is not running. *)
Definition haltedWhenFinal {State Context Payload World : Type} `{EqDecision State}
    (machine : Statechart.Machine State Context Payload World)
    (actor : Statechart.Actor State Context) : Prop :=
  Statechart.value actor ∈ Statechart.final machine ->
  Statechart.status actor <> Statechart.Running.

(** ** The toggle machine and the toggle class *)

(** The state of the toggle machine that stands for a state of the
    hand-written toggle. *)
Definition asMachineState (state : string) : string :=
  if bool_decide (state = "ON") then "active" else "inactive".

(** ** The order machine *)

(** The first [n] draws taken after [rng0] all make the payment fail. *)
Definition allDeclined (rng0 : OrderXState.Random) (n : nat) : Prop :=
  forall i, i < n ->
    Qle_bool OrderXState.PAYMENT_SUCCESS_RATE
      (OrderXState.draws rng0 (OrderXState.taken rng0 + i)) = true.

(** The invariant of the order machine started with the generator [rng0]:
    [n] draws were taken, at most three; while the payment is processed or
    has failed they all declined and [retryCount] is [n]; once paid, the
    last one accepted; and a canceled order was canceled before any
    payment, or after three declined. *)
Definition orderInvariant (rng0 : OrderXState.Random)
    (now : Statechart.Actor string OrderXState.OrderContext * OrderXState.Random) : Prop :=
  OrderXState.draws (snd now) = OrderXState.draws rng0
  /\ exists n : nat,
       OrderXState.taken (snd now) = OrderXState.taken rng0 + n
       /\ n <= 3
       /\ ((Statechart.value (fst now) ∈ ["pending"; "confirmed"] /\ n = 0
            /\ OrderXState.retryCount (Statechart.context (fst now)) = Js.Finite 0)
           \/ (Statechart.value (fst now) = "processing_payment" /\ n < 3
               /\ OrderXState.retryCount (Statechart.context (fst now))
                  = Js.Finite (Z.of_nat n)
               /\ allDeclined rng0 n)
           \/ (Statechart.value (fst now) = "payment_failed" /\ 1 <= n
               /\ OrderXState.retryCount (Statechart.context (fst now))
                  = Js.Finite (Z.of_nat n)
               /\ allDeclined rng0 n)
           \/ (Statechart.value (fst now) ∈ ["paid"; "shipping"; "delivered"] /\ 1 <= n
               /\ allDeclined rng0 (n - 1)
               /\ Qle_bool OrderXState.PAYMENT_SUCCESS_RATE
                    (OrderXState.draws rng0 (OrderXState.taken rng0 + (n - 1))) = false)
           \/ (Statechart.value (fst now) = "canceled"
               /\ (n = 0 \/ (n = 3 /\ allDeclined rng0 3)))).
(** * Properties *)

(** ** The hand-written machines *)

Section BasicMachines.

Lemma toggle_transition_declared event (fsm : Toggle.ToggleFSM) :
  Toggle.currentState fsm ∈ Toggle.declaredStates ->
  Toggle.currentState (fst (Toggle.transition event fsm)) ∈ Toggle.declaredStates.
Proof.
  intros Hin. unfold Toggle.transition.
  case_bool_decide; simpl; [|exact Hin].
  case_bool_decide; apply list_elem_of_In; simpl; auto.
Qed.

Lemma toggle_sendAll_declared events : forall fsm : Toggle.ToggleFSM,
  Toggle.currentState fsm ∈ Toggle.declaredStates ->
  Toggle.currentState (Toggle.sendAll events fsm) ∈ Toggle.declaredStates.
Proof.
  induction events as [|event rest IH]; intros fsm Hin; simpl; [exact Hin|].
  apply IH, toggle_transition_declared, Hin.
Qed.


Lemma traffic_table_closed s :
  s ∈ TrafficLight.declaredStates ->
  exists s', TrafficLight.transitionTable !! s = Some s' /\
             s' ∈ TrafficLight.declaredStates.
Proof.
  intros Hin. apply list_elem_of_In in Hin. simpl in Hin.
  destruct Hin as [<- | [<- | [<- | []]]];
    [ exists "GREEN" | exists "RED" | exists "YELLOW" ];
    (split; [reflexivity | apply list_elem_of_In; simpl; auto]).
Qed.

Lemma traffic_transition_invariant event fsm :
  trafficInvariant fsm -> trafficInvariant (fst (TrafficLight.transition event fsm)).
Proof.
  intros [Htable (s & Hcur & Hin)]. unfold TrafficLight.transition.
  case_bool_decide; simpl; [|by split; [|exists s]].
  split; [exact Htable|]. simpl.
  rewrite Htable, Hcur. simpl.
  destruct (traffic_table_closed s Hin) as (s' & Hlook & Hin').
  exists s'. by split.
Qed.

Lemma traffic_sendAll_invariant events : forall fsm,
  trafficInvariant fsm -> trafficInvariant (TrafficLight.sendAll events fsm).
Proof.
  induction events as [|event rest IH]; intros fsm Hinv; simpl; [exact Hinv|].
  apply IH, traffic_transition_invariant, Hinv.
Qed.

End BasicMachines.

(** C3. Whatever events are sent to a toggle or to a traffic light created
    in one of its declared states (or in its default state), the current
    state after the whole sequence, and after each of its prefixes, is one
    of the declared states. *)
Theorem current_state_always_declared
    (toggleInitial lightInitial : option string) (events : list string) (n : nat) :
  (forall s, toggleInitial = Some s -> s ∈ Toggle.declaredStates) ->
  (forall s, lightInitial = Some s -> s ∈ TrafficLight.declaredStates) ->
  Toggle.getState (Toggle.sendAll (take n events) (Toggle.new toggleInitial))
    ∈ Toggle.declaredStates
  /\ exists s,
       TrafficLight.getState
         (TrafficLight.sendAll (take n events) (TrafficLight.new lightInitial)) = Some s
       /\ s ∈ TrafficLight.declaredStates.
Proof.
  intros Htoggle Hlight. split.
  - apply toggle_sendAll_declared. simpl.
    destruct toggleInitial as [s|]; simpl; [by apply Htoggle|].
    apply list_elem_of_In; simpl; auto.
  - apply (traffic_sendAll_invariant (take n events) (TrafficLight.new lightInitial)).
    split; [reflexivity|]. simpl.
    destruct lightInitial as [s|]; simpl.
    + exists s. split; [reflexivity | by apply Hlight].
    + exists "RED". split; [reflexivity|]. apply list_elem_of_In; simpl; auto.
Qed.

Lemma current_state_always_declared_witness :
  Toggle.getState
    (Toggle.sendAll (take 2 ["TOGGLE"; "BLINK"; "TOGGLE"]) (Toggle.new (Some "ON")))
    ∈ Toggle.declaredStates
  /\ exists s,
       TrafficLight.getState
         (TrafficLight.sendAll (take 2 ["TOGGLE"; "BLINK"; "TOGGLE"])
            (TrafficLight.new None)) = Some s
       /\ s ∈ TrafficLight.declaredStates.
Proof.
  apply (current_state_always_declared (Some "ON") None ["TOGGLE"; "BLINK"; "TOGGLE"] 2).
  - intros s [= <-]. apply list_elem_of_In; simpl; auto.
  - intros s [=].
Defined.

(** C5. An event other than the one the machine declares ([TOGGLE] for the
    toggle, [NEXT] for the traffic light) leaves the machine as it was: the
    call returns normally, with a warning on the console, and the current
    state is the one before the call. *)
Theorem unmatched_event_changes_nothing
    (toggleEvent lightEvent : string)
    (toggle : Toggle.ToggleFSM) (light : TrafficLight.TrafficLightFSM) :
  toggleEvent <> "TOGGLE" ->
  lightEvent <> "NEXT" ->
  Toggle.transition toggleEvent toggle = (toggle, Toggle.Warn toggleEvent)
  /\ Toggle.getState (fst (Toggle.transition toggleEvent toggle)) = Toggle.getState toggle
  /\ TrafficLight.transition lightEvent light = (light, TrafficLight.Warn lightEvent)
  /\ TrafficLight.getState (fst (TrafficLight.transition lightEvent light))
     = TrafficLight.getState light.
Proof.
  intros Htoggle Hlight.
  unfold Toggle.transition, TrafficLight.transition.
  rewrite !bool_decide_eq_false_2 by assumption. auto.
Qed.

Lemma unmatched_event_changes_nothing_witness :
  Toggle.transition "NEXT" (Toggle.new None) = (Toggle.new None, Toggle.Warn "NEXT")
  /\ Toggle.getState (fst (Toggle.transition "NEXT" (Toggle.new None)))
     = Toggle.getState (Toggle.new None)
  /\ TrafficLight.transition "TOGGLE" (TrafficLight.new None)
     = (TrafficLight.new None, TrafficLight.Warn "TOGGLE")
  /\ TrafficLight.getState (fst (TrafficLight.transition "TOGGLE" (TrafficLight.new None)))
     = TrafficLight.getState (TrafficLight.new None).
Proof.
  apply (unmatched_event_changes_nothing "NEXT" "TOGGLE"
           (Toggle.new None) (TrafficLight.new None)).
  - discriminate.
  - discriminate.
Defined.

(** C6. A toggle created in its default state [OFF] and sent [TOGGLE] three
    times is seen in the states [ON], [OFF], [ON], in that order, and ends
    in [ON]. *)
Theorem toggle_three_times :
  Toggle.getState (Toggle.new None) = "OFF"
  /\ Toggle.observe ["TOGGLE"; "TOGGLE"; "TOGGLE"] (Toggle.new None) = ["ON"; "OFF"; "ON"]
  /\ Toggle.getState (Toggle.sendAll ["TOGGLE"; "TOGGLE"; "TOGGLE"] (Toggle.new None)) = "ON".
Proof. repeat split; reflexivity. Qed.

(** C7. The traffic light created in its default state [RED] and sent
    [NEXT] four times is seen in the states [GREEN], [YELLOW], [RED],
    [GREEN], in that order. *)
Theorem traffic_light_four_times :
  TrafficLight.getState (TrafficLight.new None) = Some "RED"
  /\ TrafficLight.observe ["NEXT"; "NEXT"; "NEXT"; "NEXT"] (TrafficLight.new None)
     = [Some "GREEN"; Some "YELLOW"; Some "RED"; Some "GREEN"].
Proof. split; vm_compute; reflexivity. Qed.

(** ** The transition table resolver *)

Section Resolver.

Import Statechart.

Context {State Context Payload World : Type} `{EqDecision State}.

Abbreviation Transition := (Statechart.Transition State Context Payload World).
Abbreviation Event := (Statechart.Event Payload).

Lemma firstEnabled_complete (skipped rest : list Transition) t ctx event :
  forall world world1 world2,
    rejected skipped ctx event world = Some world1 ->
    accepted t ctx event world1 = Some world2 ->
    firstEnabled (skipped ++ t :: rest) ctx event world = (Some t, world2).
Proof.
  induction skipped as [|s skipped IH]; intros world world1 world2 Hrej Hacc; simpl in *.
  - injection Hrej as <-. unfold accepted in Hacc.
    destruct (guard t) as [g|]; [|congruence].
    destruct (g ctx event world) as [[] w]; congruence.
  - destruct (guard s) as [g|]; [|discriminate].
    destruct (g ctx event world) as [[] w]; [discriminate|].
    eapply IH; eassumption.
Qed.

Lemma firstEnabled_sound (declared : list Transition) ctx event :
  forall world t world2,
    firstEnabled declared ctx event world = (Some t, world2) ->
    exists skipped rest world1,
      declared = skipped ++ t :: rest
      /\ rejected skipped ctx event world = Some world1
      /\ accepted t ctx event world1 = Some world2.
Proof.
  induction declared as [|d declared IH]; intros world t world2 Hsel; simpl in Hsel.
  - discriminate.
  - destruct (guard d) as [g|] eqn:Hg.
    + destruct (g ctx event world) as [[] w] eqn:Hgw.
      * injection Hsel as <- <-. exists [], declared, world.
        repeat split. unfold accepted. by rewrite Hg, Hgw.
      * destruct (IH _ _ _ Hsel) as (skipped & rest & world1 & -> & Hrej & Hacc).
        exists (d :: skipped), rest, world1. repeat split; [|exact Hacc].
        simpl. by rewrite Hg, Hgw.
    + injection Hsel as <- <-. exists [], declared, world.
      repeat split. unfold accepted. by rewrite Hg.
Qed.

Lemma firstEnabled_none (declared : list Transition) ctx event :
  forall world world',
    firstEnabled declared ctx event world = (None, world') <->
    rejected declared ctx event world = Some world'.
Proof.
  induction declared as [|d declared IH]; intros world world'; simpl.
  - split; congruence.
  - destruct (guard d) as [g|]; [|split; discriminate].
    destruct (g ctx event world) as [[] w]; [split; discriminate|]. apply IH.
Qed.

End Resolver.

(** The machine takes the transition the resolver returns. *)
Lemma deliver_first_enabled
    {State Context Payload World : Type} `{EqDecision State}
    (machine : Statechart.Machine State Context Payload World)
    (event : Statechart.Event Payload)
    (actor : Statechart.Actor State Context) (world world1 world2 : World)
    (skipped rest : list (Statechart.Transition State Context Payload World))
    (t : Statechart.Transition State Context Payload World) :
  Statechart.status actor = Statechart.Running ->
  Statechart.candidates machine (Statechart.value actor) (Statechart.triggerOf machine event)
    = skipped ++ t :: rest ->
  rejected skipped (Statechart.context actor) event world = Some world1 ->
  accepted t (Statechart.context actor) event world1 = Some world2 ->
  Statechart.resolve machine (Statechart.triggerOf machine event) event actor world
    = (Some t, world2)
  /\ Statechart.deliver machine event actor world
     = (let '(actor', world') := Statechart.take machine t event actor world2 in
        Statechart.settle machine (Statechart.patience machine) event actor' world').
Proof.
  intros Hrun Hcands Hrej Hacc.
  assert (Hres : Statechart.resolve machine (Statechart.triggerOf machine event)
                   event actor world = (Some t, world2)).
  { unfold Statechart.resolve. rewrite Hcands.
    eapply firstEnabled_complete; eassumption. }
  split; [exact Hres|].
  unfold Statechart.deliver. rewrite Hres.
  destruct (decide (Statechart.status actor = Statechart.Running)); [reflexivity|contradiction].
Qed.

(** When the guard of the first candidate is false and that of the second
    is true, the resolver returns the second. *)
Lemma second_candidate_when_first_guard_false
    {State Context Payload World : Type} `{EqDecision State}
    (machine : Statechart.Machine State Context Payload World)
    (occurred : Statechart.Trigger) (event : Statechart.Event Payload)
    (actor : Statechart.Actor State Context) (world world1 world2 : World)
    (first second : Statechart.Transition State Context Payload World)
    (rest : list (Statechart.Transition State Context Payload World))
    (g1 g2 : Statechart.Guard Context Payload World) :
  Statechart.candidates machine (Statechart.value actor) occurred
    = first :: second :: rest ->
  Statechart.guard first = Some g1 ->
  g1 (Statechart.context actor) event world = (false, world1) ->
  Statechart.guard second = Some g2 ->
  g2 (Statechart.context actor) event world1 = (true, world2) ->
  Statechart.resolve machine occurred event actor world = (Some second, world2).
Proof.
  intros Hcands Hg1 Hfalse Hg2 Htrue.
  unfold Statechart.resolve. rewrite Hcands.
  apply (firstEnabled_complete [first] rest second _ _ world world1 world2).
  - simpl. by rewrite Hg1, Hfalse.
  - unfold accepted. by rewrite Hg2, Htrue.
Qed.

(** C2. Among the transitions declared for the current state and the
    trigger that occurred, taken in declaration order, the resolver returns
    the first one whose guard is absent or evaluates true, every earlier
    candidate having a guard that evaluated false; the machine then takes
    that transition.  In particular, when the first candidate's guard is
    false and the second's is true, the second is taken. *)
Theorem first_satisfied_guard_wins
    {State Context Payload World : Type} `{EqDecision State}
    (machine : Statechart.Machine State Context Payload World)
    (event : Statechart.Event Payload)
    (actor : Statechart.Actor State Context) (world world1 world2 : World)
    (skipped rest : list (Statechart.Transition State Context Payload World))
    (t : Statechart.Transition State Context Payload World) :
  Statechart.status actor = Statechart.Running ->
  Statechart.candidates machine (Statechart.value actor) (Statechart.triggerOf machine event)
    = skipped ++ t :: rest ->
  rejected skipped (Statechart.context actor) event world = Some world1 ->
  accepted t (Statechart.context actor) event world1 = Some world2 ->
  Statechart.resolve machine (Statechart.triggerOf machine event) event actor world
    = (Some t, world2)
  /\ Statechart.deliver machine event actor world
     = (let '(actor', world') := Statechart.take machine t event actor world2 in
        Statechart.settle machine (Statechart.patience machine) event actor' world').
Proof. apply deliver_first_enabled. Qed.


Lemma first_satisfied_guard_wins_witness :
  Statechart.resolve OrderXState.orderMachine
    (Statechart.triggerOf OrderXState.orderMachine (Statechart.Elapsed 1000))
    (Statechart.Elapsed 1000) awaitingPayment (nines 0)
  = (Some OrderXState.paymentDeclined, nines 1)
  /\ Statechart.deliver OrderXState.orderMachine (Statechart.Elapsed 1000)
       awaitingPayment (nines 0)
     = (let '(actor', world') :=
          Statechart.take OrderXState.orderMachine OrderXState.paymentDeclined
            (Statechart.Elapsed 1000) awaitingPayment (nines 1) in
        Statechart.settle OrderXState.orderMachine
          (Statechart.patience OrderXState.orderMachine) (Statechart.Elapsed 1000)
          actor' world').
Proof.
  apply (first_satisfied_guard_wins OrderXState.orderMachine (Statechart.Elapsed 1000)
           awaitingPayment (nines 0) (nines 1) (nines 1)
           [OrderXState.paymentAccepted] [] OrderXState.paymentDeclined).
  - reflexivity.
  - reflexivity.
  - reflexivity.
  - reflexivity.
Defined.

(** The two candidates of [validating.always] in the form machine: the
    machine goes to [submitting] when there are no errors, and to [error]
    otherwise. *)
Lemma validating_routes_by_errors (EMAIL_REGEX_test : string -> bool)
    (event : Statechart.Event FormValidation.FormEvent)
    (ctx : FormValidation.FormContext) (c g : N) (p : list (Statechart.Timer string)) :
  Statechart.resolve (FormValidation.formMachine EMAIL_REGEX_test) Statechart.Always event
    {| Statechart.status := Statechart.Running; Statechart.value := "validating";
       Statechart.context := ctx; Statechart.clock := c; Statechart.generation := g;
       Statechart.pending := p |} tt
  = (Some (if bool_decide (length (FormValidation.errors ctx) = 0)
           then FormValidation.whenValid else FormValidation.otherwise), tt).
Proof.
  unfold Statechart.resolve. cbn [Statechart.value Statechart.context].
  replace (Statechart.candidates (FormValidation.formMachine EMAIL_REGEX_test)
             "validating" Statechart.Always)
    with [FormValidation.whenValid; FormValidation.otherwise]
    by (vm_compute; reflexivity).
  cbn [Statechart.firstEnabled Statechart.guard FormValidation.whenValid
       FormValidation.otherwise].
  unfold Statechart.pure. by destruct (bool_decide _).
Qed.

(** The two candidates of [processing_payment.after] in the order machine:
    the draw decides between [paid] and [payment_failed]. *)
Lemma payment_routes_by_draw
    (ctx : OrderXState.OrderContext) (c g : N) (p : list (Statechart.Timer string))
    (rng : OrderXState.Random) :
  Statechart.resolve OrderXState.orderMachine (Statechart.After 1000)
    (Statechart.Elapsed 1000)
    {| Statechart.status := Statechart.Running; Statechart.value := "processing_payment";
       Statechart.context := ctx; Statechart.clock := c; Statechart.generation := g;
       Statechart.pending := p |} rng
  = (Some (if Qle_bool OrderXState.PAYMENT_SUCCESS_RATE
                (OrderXState.draws rng (OrderXState.taken rng))
           then OrderXState.paymentDeclined else OrderXState.paymentAccepted),
     {| OrderXState.draws := OrderXState.draws rng;
        OrderXState.taken := S (OrderXState.taken rng) |}).
Proof.
  unfold Statechart.resolve. cbn [Statechart.value Statechart.context].
  replace (Statechart.candidates OrderXState.orderMachine "processing_payment"
             (Statechart.After 1000))
    with [OrderXState.paymentAccepted; OrderXState.paymentDeclined]
    by (vm_compute; reflexivity).
  cbn [Statechart.firstEnabled Statechart.guard OrderXState.paymentAccepted
       OrderXState.paymentDeclined].
  unfold OrderXState.paymentSucceeds, OrderXState.Math_random.
  by destruct (Qle_bool _ _).
Qed.

(** ** The timer scheduler *)

Section TakeLifts.

Import Statechart.

Context {State Context Payload World : Type} `{EqDecision State}.

Variable machine : Statechart.Machine State Context Payload World.

(** A property of actors that taking a transition keeps. *)
Variable P : Statechart.Actor State Context -> Prop.

Hypothesis keeps_take : forall t event actor world,
  P actor -> P (fst (take machine t event actor world)).

Lemma settle_keeps fuel : forall event actor world,
  P actor -> P (fst (settle machine fuel event actor world)).
Proof.
  induction fuel as [|fuel IH]; intros event actor world HP; simpl; [exact HP|].
  destruct (decide (status actor = Running)); [|exact HP].
  destruct (resolve machine Always event actor world) as [[t|] world'] eqn:Hres;
    [|exact HP].
  pose proof (keeps_take t event actor world' HP) as HP'.
  destruct (take machine t event actor world') as [actor' world''].
  apply IH, HP'.
Qed.

Lemma deliver_keeps event actor world :
  P actor -> P (fst (deliver machine event actor world)).
Proof.
  intros HP. unfold deliver.
  destruct (decide (status actor = Running)); [|exact HP].
  destruct (resolve machine (triggerOf machine event) event actor world)
    as [[t|] world'] eqn:Hres.
  - pose proof (keeps_take t event actor world' HP) as HP'.
    destruct (take machine t event actor world') as [actor' world''].
    apply settle_keeps, HP'.
  - apply settle_keeps, HP.
Qed.

End TakeLifts.

Section DeliverLifts.

Import Statechart.

Context {State Context Payload World : Type} `{EqDecision State}.

Variable machine : Statechart.Machine State Context Payload World.

(** A property of actors that every change made by the host keeps. *)
Variable P : Statechart.Actor State Context -> Prop.

Hypothesis keeps_deliver : forall event actor world,
  P actor -> P (fst (deliver machine event actor world)).

Hypothesis keeps_drop : forall tm actor,
  P actor ->
  P {| status := status actor; value := value actor; context := context actor;
       clock := clock actor; generation := generation actor;
       pending := filter (fun other => other <> tm) (pending actor) |}.

Hypothesis keeps_clock : forall actor,
  P actor ->
  P {| status := status actor; value := value actor; context := context actor;
       clock := (clock actor + 1)%N; generation := generation actor;
       pending := pending actor |}.

Hypothesis keeps_stop : forall actor, P actor -> P (stop actor).

Lemma fire_keeps tm actor world :
  P actor -> P (fst (fire machine tm actor world)).
Proof.
  intros HP. unfold fire.
  destruct (decide (tm ∈ pending actor)); [|exact HP].
  apply keeps_deliver, keeps_drop, HP.
Qed.

Lemma tick_keeps now : P (fst now) -> P (fst (tick machine now)).
Proof.
  intros HP. unfold tick.
  set (due := filter _ _). clearbody due.
  apply keeps_clock in HP. revert HP.
  generalize (snd now). 
  set (a := {| status := _ |}). clearbody a. intros w HP.
  change a with (fst (a, w)) in HP. generalize dependent (a, w). clear a w.
  induction due as [|tm due IH]; intros aw HP; simpl; [exact HP|].
  apply IH, fire_keeps, HP.
Qed.

Lemma elapse_keeps ms actor world :
  P actor -> P (fst (elapse machine ms actor world)).
Proof.
  intros HP. unfold elapse.
  apply (N.iter_invariant ms _ (tick machine) (fun now => P (fst now))).
  - intros now Hnow. apply tick_keeps, Hnow.
  - exact HP.
Qed.

Lemma step_keeps now s : P (fst now) -> P (fst (step machine now s)).
Proof.
  intros HP. destruct s; simpl.
  - apply keeps_deliver, HP.
  - apply elapse_keeps, HP.
  - apply fire_keeps, HP.
  - apply keeps_stop, HP.
Qed.

Lemma run_keeps steps : forall now, P (fst now) -> P (fst (run machine steps now)).
Proof.
  induction steps as [|s steps IH]; intros now HP; simpl; [exact HP|].
  apply IH, step_keeps, HP.
Qed.

End DeliverLifts.

Section TimerInvariants.

Import Statechart.

Context {State Context Payload World : Type} `{EqDecision State}.

Variable machine : Statechart.Machine State Context Payload World.

Lemma take_wellTimed t event (actor : Statechart.Actor State Context) (world : World) :
  wellTimed actor -> wellTimed (fst (take machine t event actor world)).
Proof.
  intros Hwell. unfold take.
  destruct (target t) as [s|].
  - destruct (runActions _ _ _ _) as [ctx1 world1].
    destruct (runActions _ _ _ _) as [ctx2 world2].
    unfold enter. simpl.
    destruct (runActions _ _ _ _) as [ctx3 world3]. simpl.
    intros tm Htm. simpl in *.
    apply elem_of_app in Htm as [Htm | Htm].
    + apply list_elem_of_filter in Htm as [Hne Hin].
      destruct (Hwell tm Hin) as [Hown _]. contradiction.
    + apply list_elem_of_fmap in Htm as (d & -> & _). simpl. split; [reflexivity | lia].
  - destruct (runActions _ _ _ _) as [ctx1 world1]. exact Hwell.
Qed.

Lemma take_generation t event (actor : Statechart.Actor State Context) (world : World) :
  generation (fst (take machine t event actor world)) = generation actor
  \/ generation (fst (take machine t event actor world)) = (generation actor + 1)%N.
Proof.
  unfold take. destruct (target t) as [s|].
  - destruct (runActions _ _ _ _) as [ctx1 world1].
    destruct (runActions _ _ _ _) as [ctx2 world2].
    unfold enter. simpl. destruct (runActions _ _ _ _) as [ctx3 world3]. by right.
  - destruct (runActions _ _ _ _) as [ctx1 world1]. by left.
Qed.

Lemma take_tracked tm since t event (actor : Statechart.Actor State Context) (world : World) :
  tracked tm since actor -> tracked tm since (fst (take machine t event actor world)).
Proof.
  intros (Hwell & Hsince & Harmed & Hpending).
  split; [by apply take_wellTimed|].
  split; [destruct (take_generation t event actor world) as [-> | ->]; lia|].
  split; [exact Harmed|].
  revert Hpending. unfold take. destruct (target t) as [s|].
  - destruct (runActions _ _ _ _) as [ctx1 world1].
    destruct (runActions _ _ _ _) as [ctx2 world2].
    unfold enter. simpl. destruct (runActions _ _ _ _) as [ctx3 world3]. simpl.
    intros _ Htm. exfalso.
    apply elem_of_app in Htm as [Htm | Htm].
    + apply list_elem_of_filter in Htm as [Hne Hin].
      destruct (Hwell tm Hin) as [Hown _]. contradiction.
    + apply list_elem_of_fmap in Htm as (d & -> & _). simpl in Harmed. lia.
  - destruct (runActions _ _ _ _) as [ctx1 world1]. simpl. auto.
Qed.

Lemma start_wellTimed (world : World) : wellTimed (fst (start machine world)).
Proof.
  unfold start.
  destruct (enter _ _ _ _ _) as [actor world'] eqn:Henter.
  apply (settle_keeps machine wellTimed take_wellTimed).
  unfold enter in Henter.
  destruct (runActions _ _ _ _) as [ctx world''].
  injection Henter as <- _.
  intros tm Htm. simpl in *.
  apply list_elem_of_fmap in Htm as (d & -> & _). simpl. split; [reflexivity | lia].
Qed.

Lemma run_wellTimed steps (now : Statechart.Actor State Context * World) :
  wellTimed (fst now) -> wellTimed (fst (run machine steps now)).
Proof.
  apply (run_keeps machine wellTimed (deliver_keeps machine wellTimed take_wellTimed)).
  - intros tm actor Hwell other Hin. simpl in *.
    apply list_elem_of_filter in Hin as [_ Hin]. by apply Hwell.
  - intros actor Hwell other Hin. by apply Hwell.
  - intros actor _ other Hin. simpl in Hin. by apply elem_of_nil in Hin.
Qed.

Lemma stop_tracked tm since (actor : Statechart.Actor State Context) :
  tracked tm since actor -> tracked tm since (stop actor).
Proof.
  intros (Hwell & Hsince & Harmed & Hpending).
  split; [|split; [|split]]; simpl; try assumption.
  - intros other Hin. simpl in Hin. by apply elem_of_nil in Hin.
  - intros Hin. by apply elem_of_nil in Hin.
Qed.

Lemma run_tracked tm since steps (now : Statechart.Actor State Context * World) :
  tracked tm since (fst now) -> tracked tm since (fst (run machine steps now)).
Proof.
  apply (run_keeps machine (tracked tm since)
           (deliver_keeps machine (tracked tm since) (take_tracked tm since))).
  - intros other actor (Hwell & Hsince & Harmed & Hpending).
    split; [|split; [|split]]; simpl; try assumption.
    + intros tm' Hin. simpl in Hin.
      apply list_elem_of_filter in Hin as [_ Hin]. by apply Hwell.
    + intros Hin. apply list_elem_of_filter in Hin as [_ Hin]. by apply Hpending.
  - intros actor (Hwell & Hsince & Harmed & Hpending).
    split; [|split; [|split]]; simpl; assumption.
  - apply stop_tracked.
Qed.

Lemma run_generation (floor : N) steps (now : Statechart.Actor State Context * World) :
  (floor <= generation (fst now))%N ->
  (floor <= generation (fst (run machine steps now)))%N.
Proof.
  apply (run_keeps machine (fun actor => (floor <= generation actor)%N)).
  - apply (deliver_keeps machine (fun actor => (floor <= generation actor)%N)).
    intros t event actor world Hle.
    destruct (take_generation t event actor world) as [-> | ->]; lia.
  - intros tm actor Hle. exact Hle.
  - intros actor Hle. exact Hle.
  - intros actor Hle. exact Hle.
Qed.

(** An actor that is stopped, or has reached a final state, is inert once
    its timers are gone: whatever the host does, only its clock moves. *)
Lemma halted_inert steps : forall (actor : Statechart.Actor State Context) (world : World),
  status actor <> Running -> pending actor = [] ->
  let now := run machine steps (actor, world) in
  status (fst now) <> Running /\ pending (fst now) = []
  /\ value (fst now) = value actor /\ context (fst now) = context actor
  /\ snd now = world.
Proof.
  induction steps as [|s steps IH]; intros actor world Hstatus Hpending; simpl; [auto|].
  assert (Hstep : exists st c, st <> Running /\
    step machine (actor, world) s =
      ({| status := st; value := value actor; context := context actor;
          clock := c; generation := generation actor; pending := [] |}, world)).
  { destruct actor as [st v ctx c g p]. simpl in *. subst p.
    destruct s as [payload | ms | tm | ]; simpl.
    - exists st, c. split; [exact Hstatus|].
      unfold send, deliver. simpl. by destruct (decide (st = Running)).
    - exists st. unfold elapse.
      apply (N.iter_invariant ms _ (tick machine)
               (fun now => exists c', st <> Running /\ now =
                  ({| status := st; value := v; context := ctx; clock := c';
                      generation := g; pending := [] |}, world))).
      + intros now (c' & _ & ->). exists (c' + 1)%N. split; [exact Hstatus|]. reflexivity.
      + exists c. split; [exact Hstatus|]. reflexivity.
    - exists st, c. split; [exact Hstatus|]. reflexivity.
    - exists Stopped, c. split; [discriminate|]. reflexivity. }
  destruct Hstep as (st & c & Hst & ->).
  exact (IH {| status := st; value := value actor; context := context actor;
               clock := c; generation := generation actor; pending := [] |}
            world Hst eq_refl).
Qed.

End TimerInvariants.

(** An actor without pending timers only sees its clock move as time
    passes. *)
Lemma elapse_idle {State Context Payload World : Type} `{EqDecision State}
    (machine : Statechart.Machine State Context Payload World)
    (ms : N) (actor : Statechart.Actor State Context) (world : World) :
  Statechart.pending actor = [] ->
  Statechart.elapse machine ms actor world
  = ({| Statechart.status := Statechart.status actor;
        Statechart.value := Statechart.value actor;
        Statechart.context := Statechart.context actor;
        Statechart.clock := (Statechart.clock actor + ms)%N;
        Statechart.generation := Statechart.generation actor;
        Statechart.pending := [] |}, world).
Proof.
  intros Hidle. unfold Statechart.elapse.
  apply (N.iter_ind _ (Statechart.tick machine) (actor, world)
           (fun n now => now =
              ({| Statechart.status := Statechart.status actor;
                  Statechart.value := Statechart.value actor;
                  Statechart.context := Statechart.context actor;
                  Statechart.clock := (Statechart.clock actor + n)%N;
                  Statechart.generation := Statechart.generation actor;
                  Statechart.pending := [] |}, world))).
  - destruct actor; simpl in *; subst. by rewrite N.add_0_r.
  - intros n now ->. unfold Statechart.tick. simpl.
    by rewrite N.add_succ_r, N.add_1_r.
Qed.

(** A timer that was pending when its state was left, or the machine
    stopped, is not pending afterwards, and its callback applies nothing. *)
Lemma cancelled_timer_stays_cancelled
    {State Context Payload World : Type} `{EqDecision State}
    (machine : Statechart.Machine State Context Payload World)
    (history later : list (Statechart.Step State Payload))
    (leave : Statechart.Step State Payload)
    (world0 world : World) (actor : Statechart.Actor State Context)
    (tm : Statechart.Timer State) :
  Statechart.run machine history (Statechart.start machine world0) = (actor, world) ->
  tm ∈ Statechart.pending actor ->
  (leave = Statechart.DoStop
   \/ exists payload,
        leave = Statechart.DoSend payload
        /\ Statechart.generation (fst (Statechart.step machine (actor, world) leave))
           <> Statechart.generation actor) ->
  let now := Statechart.run machine later (Statechart.step machine (actor, world) leave) in
  (tm ∉ Statechart.pending (fst now))
  /\ Statechart.fire machine tm (fst now) (snd now) = now
  /\ (leave = Statechart.DoStop ->
      Statechart.value (fst now) = Statechart.value actor
      /\ Statechart.context (fst now) = Statechart.context actor
      /\ snd now = world).
Proof.
  intros Hhistory Hpending Hleave now.
  assert (Hwell : wellTimed actor).
  { pose proof (run_wellTimed machine history (Statechart.start machine world0)
                  (start_wellTimed machine world0)) as Hw.
    by rewrite Hhistory in Hw. }
  assert (Hgone : tm ∉ Statechart.pending (fst now)).
  { destruct Hleave as [-> | (payload & -> & Hexit)].
    - destruct (halted_inert machine later (Statechart.stop actor) world
                  ltac:(discriminate) eq_refl) as (_ & Hnil & _).
      subst now. simpl. rewrite Hnil. apply not_elem_of_nil.
    - assert (Htracked : tracked tm (Statechart.generation actor) actor).
      { split; [exact Hwell|]. split; [lia|].
        split; [by apply Hwell|]. auto. }
      remember (Statechart.step machine (actor, world) (Statechart.DoSend payload))
        as after eqn:Hafter.
      assert (Hleft : tracked tm (Statechart.generation actor) (fst after)).
      { subst after.
        apply (run_tracked machine tm _ [Statechart.DoSend payload] (actor, world)).
        exact Htracked. }
      pose proof (run_tracked machine tm _ later after Hleft) as (_ & _ & _ & Hstill).
      pose proof (run_generation machine (Statechart.generation (fst after)) later after
                    (N.le_refl _)) as Hmono.
      destruct Hleft as (_ & Hfloor & _ & _).
      intros Hin. subst now. apply Hstill in Hin. lia. }
  split; [exact Hgone|]. split.
  - unfold Statechart.fire.
    destruct (decide (tm ∈ Statechart.pending (fst now))); [contradiction|].
    by destruct now.
  - intros ->.
    destruct (halted_inert machine later (Statechart.stop actor) world
                ltac:(discriminate) eq_refl) as (_ & _ & Hvalue & Hcontext & Hworld).
    auto.
Qed.

(** C4. A timer armed by a state and still pending when that state is left,
    by an event that changes the state or by [stop()], is cancelled: whatever
    the host does afterwards, it is never pending again, and running its
    callback applies nothing.  After [stop()] the actor is inert: no
    transition occurs at all. *)
Theorem exited_state_timer_never_applies
    {State Context Payload World : Type} `{EqDecision State}
    (machine : Statechart.Machine State Context Payload World)
    (history later : list (Statechart.Step State Payload))
    (leave : Statechart.Step State Payload)
    (world0 world : World) (actor : Statechart.Actor State Context)
    (tm : Statechart.Timer State) :
  Statechart.run machine history (Statechart.start machine world0) = (actor, world) ->
  tm ∈ Statechart.pending actor ->
  (leave = Statechart.DoStop
   \/ exists payload,
        leave = Statechart.DoSend payload
        /\ Statechart.generation (fst (Statechart.step machine (actor, world) leave))
           <> Statechart.generation actor) ->
  let now := Statechart.run machine later (Statechart.step machine (actor, world) leave) in
  (tm ∉ Statechart.pending (fst now))
  /\ Statechart.fire machine tm (fst now) (snd now) = now
  /\ (leave = Statechart.DoStop ->
      Statechart.value (fst now) = Statechart.value actor
      /\ Statechart.context (fst now) = Statechart.context actor
      /\ snd now = world).
Proof. apply cancelled_timer_stays_cancelled. Qed.

Lemma exited_state_timer_never_applies_witness :
  let now :=
    Statechart.run LlmChat.chatMachine [Statechart.DoElapse 1000]
      (Statechart.step LlmChat.chatMachine (fst chatInError, snd chatInError)
         (Statechart.DoSend LlmChat.RETRY)) in
  (retryTimer ∉ Statechart.pending (fst now))
  /\ Statechart.fire LlmChat.chatMachine retryTimer (fst now) (snd now) = now
  /\ (@Statechart.DoSend string LlmChat.ChatEvent LlmChat.RETRY = Statechart.DoStop ->
      Statechart.value (fst now) = Statechart.value (fst chatInError)
      /\ Statechart.context (fst now) = Statechart.context (fst chatInError)
      /\ snd now = snd chatInError).
Proof.
  apply (exited_state_timer_never_applies LlmChat.chatMachine chatHistory
           [Statechart.DoElapse 1000] (Statechart.DoSend LlmChat.RETRY)
           [] (snd chatInError) (fst chatInError) retryTimer).
  - vm_compute. reflexivity.
  - apply list_elem_of_In. vm_compute. left. reflexivity.
  - right. exists LlmChat.RETRY. split; [reflexivity|]. vm_compute. discriminate.
Defined.

(** The scenario of the specification on the chat machine: the [error]
    state arms a timer of 1500 ms; [RETRY] is sent 500 ms later and moves the
    machine to [calling_llm]; however long one waits then, the machine stays
    there, the retry count is the one [RETRY] set, and the call started by
    [RETRY] is the last one. *)
Lemma retry_event_cancels_retry_timer (ms : N) :
  let '(actor, calls) :=
    Statechart.send LlmChat.chatMachine LlmChat.RETRY (fst chatInError) (snd chatInError) in
  let later := Statechart.elapse LlmChat.chatMachine ms actor calls in
  Statechart.value (fst later) = "calling_llm"
  /\ LlmChat.retryCount (Statechart.context (fst later)) = Js.Finite 1
  /\ snd later = ["hello"; "hello"].
Proof.
  destruct (Statechart.send _ _ _ _) as [actor calls] eqn:Hsend.
  vm_compute in Hsend. injection Hsend as <- <-.
  rewrite elapse_idle by reflexivity. auto.
Qed.

(** The same for [stop()], on the game machine: stopped half a second into
    [savingFromPlaying], it never returns to [playing]. *)
Lemma stop_cancels_saving_timer (later : list (Statechart.Step string GamePersistence.GameEvent)) :
  let now :=
    Statechart.run GamePersistence.gameMachine later
      (Statechart.step GamePersistence.gameMachine (fst gameSaving, snd gameSaving)
         Statechart.DoStop) in
  Statechart.value (fst now) = "savingFromPlaying"
  /\ Statechart.fire GamePersistence.gameMachine savingTimer (fst now) (snd now) = now.
Proof.
  destruct (cancelled_timer_stays_cancelled GamePersistence.gameMachine gameHistory
              later Statechart.DoStop emptyDisk (snd gameSaving) (fst gameSaving)
              savingTimer) as (_ & Hfire & Hinert).
  - vm_compute. reflexivity.
  - apply list_elem_of_In. vm_compute. left. reflexivity.
  - by left.
  - destruct (Hinert eq_refl) as (Hvalue & _).
    split; [|exact Hfire]. rewrite Hvalue. vm_compute. reflexivity.
Qed.

(** ** The machine core: delivering an event *)

(** A running machine resolves the event, takes the transition found, if
    any, and settles. *)
Lemma deliver_running {State Context Payload World : Type} `{EqDecision State}
    (machine : Statechart.Machine State Context Payload World) event actor world :
  Statechart.status actor = Statechart.Running ->
  Statechart.deliver machine event actor world
  = (let '(chosen, world1) :=
       Statechart.resolve machine (Statechart.triggerOf machine event) event actor world in
     let '(actor1, world2) :=
       match chosen with
       | Some t => Statechart.take machine t event actor world1
       | None => (actor, world1)
       end in
     Statechart.settle machine (Statechart.patience machine) event actor1 world2).
Proof.
  intros Hrun. unfold Statechart.deliver.
  destruct (decide (Statechart.status actor = Statechart.Running)); [|contradiction].
  destruct (Statechart.resolve _ _ _ _ _) as [[t|] world1]; [|reflexivity].
  by destruct (Statechart.take _ _ _ _ _).
Qed.

(** The resolver only returns declared transitions. *)
Lemma resolve_declared {State Context Payload World : Type} `{EqDecision State}
    (machine : Statechart.Machine State Context Payload World)
    occurred event actor world t world' :
  Statechart.resolve machine occurred event actor world = (Some t, world') ->
  t ∈ Statechart.transitions machine.
Proof.
  unfold Statechart.resolve, Statechart.candidates. intros Hres.
  apply firstEnabled_sound in Hres as (skipped & rest & world1 & Hsplit & _).
  assert (Hin : t ∈ skipped ++ t :: rest) by (apply elem_of_app; right; left).
  rewrite <- Hsplit in Hin. by apply list_elem_of_filter in Hin as [_ Hin].
Qed.

(** ** The machine core: the current state is a declared one *)

Section DeclaredStates.

Import Statechart.

Context {State Context Payload World : Type} `{EqDecision State}.

Variable machine : Statechart.Machine State Context Payload World.

Hypothesis well_formed : wellFormed machine.

Lemma take_declared t event (actor : Statechart.Actor State Context) (world : World) :
  t ∈ transitions machine ->
  value actor ∈ states machine ->
  value (fst (take machine t event actor world)) ∈ states machine.
Proof.
  intros Ht Hin. unfold take.
  destruct (target t) as [s|] eqn:Htarget.
  - destruct (runActions _ _ _ _) as [ctx1 world1].
    destruct (runActions _ _ _ _) as [ctx2 world2].
    unfold enter. simpl. destruct (runActions _ _ _ _) as [ctx3 world3]. simpl.
    by apply (proj2 well_formed t s).
  - by destruct (runActions _ _ _ _) as [ctx1 world1].
Qed.

Lemma settle_declared fuel : forall event (actor : Statechart.Actor State Context) world,
  value actor ∈ states machine ->
  value (fst (settle machine fuel event actor world)) ∈ states machine.
Proof.
  induction fuel as [|fuel IH]; intros event actor world Hin; simpl; [exact Hin|].
  destruct (decide (status actor = Running)); [|exact Hin].
  destruct (resolve machine Always event actor world) as [[t|] world'] eqn:Hres;
    [|exact Hin].
  apply resolve_declared in Hres.
  pose proof (take_declared t event actor world' Hres Hin) as Hin'.
  destruct (take machine t event actor world') as [actor' world''].
  apply IH, Hin'.
Qed.

Lemma deliver_declared event (actor : Statechart.Actor State Context) world :
  value actor ∈ states machine ->
  value (fst (deliver machine event actor world)) ∈ states machine.
Proof.
  intros Hin. unfold deliver.
  destruct (decide (status actor = Running)); [|exact Hin].
  destruct (resolve machine (triggerOf machine event) event actor world)
    as [[t|] world'] eqn:Hres.
  - apply resolve_declared in Hres.
    pose proof (take_declared t event actor world' Hres Hin) as Hin'.
    destruct (take machine t event actor world') as [actor' world''].
    apply settle_declared, Hin'.
  - apply settle_declared, Hin.
Qed.

(** Whatever the host does with a machine whose definition is well formed,
    its current state is one of the declared states. *)
Lemma executor_state_declared (history : list (Statechart.Step State Payload))
    (world : World) :
  value (fst (run machine history (start machine world))) ∈ states machine.
Proof.
  apply (run_keeps machine (fun actor => value actor ∈ states machine)).
  - apply deliver_declared.
  - intros tm actor Hin. exact Hin.
  - intros actor Hin. exact Hin.
  - intros actor Hin. exact Hin.
  - unfold start.
    destruct (enter _ _ _ _ _) as [actor world'] eqn:Henter.
    apply settle_declared.
    unfold enter in Henter. destruct (runActions _ _ _ _) as [ctx world''].
    injection Henter as <- _. simpl. apply well_formed.
Qed.

End DeclaredStates.

Ltac check_well_formed :=
  split;
  [ apply list_elem_of_In; simpl; tauto
  | intros t s Ht Htarget; apply list_elem_of_In in Ht; simpl in Ht;
    repeat (destruct Ht as [<- | Ht];
            [ simpl in Htarget; first [discriminate | injection Htarget as <-];
              apply list_elem_of_In; simpl; tauto |]);
    destruct Ht ].

Lemma chatMachine_well_formed : wellFormed LlmChat.chatMachine.
Proof. check_well_formed. Qed.

Lemma orderMachine_well_formed : wellFormed OrderXState.orderMachine.
Proof. check_well_formed. Qed.

Lemma formMachine_well_formed EMAIL_REGEX_test :
  wellFormed (FormValidation.formMachine EMAIL_REGEX_test).
Proof. check_well_formed. Qed.

Lemma gameMachine_well_formed : wellFormed GamePersistence.gameMachine.
Proof. check_well_formed. Qed.

(** ** Bounded retries *)

Section OrderWorkflow.

Import Js OrderLangGraph.

Lemma walk_create n state rng ran :
  walk (S n) "create_order" state rng ran
  = walk n "confirm_order" (createOrderNode state) rng (ran ++ ["create_order"]).
Proof. reflexivity. Qed.

Lemma walk_confirm n state rng ran :
  walk (S n) "confirm_order" state rng ran
  = walk n "process_payment" (confirmOrderNode state) rng (ran ++ ["confirm_order"]).
Proof. reflexivity. Qed.

Lemma walk_payment n state rng ran :
  walk (S n) "process_payment" state rng ran
  = walk n (shouldRetryPayment (processPaymentNode (draws rng (taken rng)) state))
      (processPaymentNode (draws rng (taken rng)) state)
      {| draws := draws rng; taken := S (taken rng) |} (ran ++ ["process_payment"]).
Proof. reflexivity. Qed.

Lemma walk_ship n state rng ran :
  walk (S n) "ship_order" state rng ran
  = walk n "deliver_order" (shipOrderNode state) rng (ran ++ ["ship_order"]).
Proof. reflexivity. Qed.

Lemma walk_deliver n state rng ran :
  walk (S n) "deliver_order" state rng ran
  = walk n END (deliverOrderNode state) rng (ran ++ ["deliver_order"]).
Proof. reflexivity. Qed.

Lemma walk_end n state rng ran : walk n END state rng ran = Normal (state, ran).
Proof. destruct n; reflexivity. Qed.

Lemma payment_cases random state :
  (Qle_bool PAYMENT_SUCCESS_RATE random = false
   /\ processPaymentNode random state = paid state)
  \/ (declines random /\ processPaymentNode random state = declined state).
Proof.
  unfold declines, processPaymentNode.
  destruct (Qle_bool _ _); simpl; auto.
Qed.

Lemma router_retries_below_maximum state :
  orderStatus state = "pending" ->
  (shouldRetryPayment state = "process_payment" <->
   lt (retryCount state) MAX_PAYMENT_RETRIES = true)
  /\ (shouldRetryPayment state = END <->
      lt (retryCount state) MAX_PAYMENT_RETRIES = false
      /\ ge (retryCount state) MAX_PAYMENT_RETRIES = true).
Proof.
  intros Hpending. unfold shouldRetryPayment, END. rewrite Hpending.
  generalize (lt (retryCount state) MAX_PAYMENT_RETRIES)
             (ge (retryCount state) MAX_PAYMENT_RETRIES).
  intros [] []; simpl;
    (split; split; intros Hroute;
     try reflexivity; try discriminate Hroute;
     try (destruct Hroute; discriminate); auto).
Qed.

Ltac route :=
  match goal with
  | |- context [shouldRetryPayment ?s] =>
      let v := eval vm_compute in (shouldRetryPayment s) in
      change (shouldRetryPayment s) with v
  end.

Ltac pay :=
  rewrite walk_payment;
  match goal with
  | |- context [processPaymentNode ?d ?s] =>
      destruct (payment_cases d s) as [[? ->] | [? ->]]; route
  end.

Lemma invoke_attempts_at_most_three rng :
  exists final ran, invoke initialState rng = Normal (final, ran) /\ attempts ran <= 3.
Proof.
  unfold invoke, recursionLimit.
  change (nextNode "__start__" initialState) with "create_order".
  rewrite walk_create, walk_confirm.
  pay; [|pay; [|pay]];
    rewrite ?walk_ship, ?walk_deliver, walk_end;
    (eexists _, _; split; [reflexivity|]; vm_compute; lia).
Qed.

Lemma invoke_three_declined rng :
  threeDeclined rng ->
  exists final,
    invoke initialState rng
    = Normal (final, ["create_order"; "confirm_order"; "process_payment";
                      "process_payment"; "process_payment"])
    /\ retryCount final = Finite 3 /\ orderStatus final = "pending".
Proof.
  intros (H0 & H1 & H2). unfold declines in *.
  unfold invoke, recursionLimit.
  change (nextNode "__start__" initialState) with "create_order".
  rewrite walk_create, walk_confirm.
  pay; [simpl in *; congruence|].
  pay; [simpl in *; congruence|].
  pay; [simpl in *; congruence|].
  rewrite walk_end. eexists. split; [reflexivity|]. split; reflexivity.
Qed.

End OrderWorkflow.

Section ChatRetries.

Import Js Statechart LlmChat.

Lemma chat_failure_keeps_count (calling : Statechart.Actor string ChatContext)
    (calls : Calls) (oops : string) :
  status calling = Running -> value calling = "calling_llm" ->
  let after := send chatMachine (ErrorInvoke oops) calling calls in
  value (fst after) = "error"
  /\ retryCount (context (fst after)) = retryCount (context calling)
  /\ snd after = calls.
Proof.
  destruct calling as [st v ctx c g p]. simpl. intros -> ->.
  vm_compute. auto.
Qed.

Lemma chat_timer_retries (waiting : Statechart.Actor string ChatContext) (calls : Calls) :
  status waiting = Running -> value waiting = "error" ->
  lt (retryCount (context waiting)) (Finite 3) = true ->
  let after := deliver chatMachine (Elapsed 1500) waiting calls in
  value (fst after) = "calling_llm"
  /\ retryCount (context (fst after)) = add (retryCount (context waiting)) (Finite 1)
  /\ snd after = calls ++ [message (context waiting)].
Proof.
  intros Hrun Hvalue Hlt after. subst after.
  destruct (deliver_first_enabled chatMachine (Elapsed 1500) waiting calls calls calls
              [] [giveUp] retryLater Hrun) as [_ ->].
  - rewrite Hvalue. reflexivity.
  - reflexivity.
  - unfold accepted. simpl. unfold pure. by rewrite Hlt.
  - destruct waiting as [st v ctx c g p]. simpl in *. subst.
    vm_compute. auto.
Qed.

Lemma chat_timer_gives_up (waiting : Statechart.Actor string ChatContext) (calls : Calls) :
  status waiting = Running -> value waiting = "error" ->
  lt (retryCount (context waiting)) (Finite 3) = false ->
  let after := deliver chatMachine (Elapsed 1500) waiting calls in
  value (fst after) = "failed"
  /\ status (fst after) = Done
  /\ retryCount (context (fst after)) = retryCount (context waiting)
  /\ snd after = calls.
Proof.
  intros Hrun Hvalue Hlt after. subst after.
  destruct (deliver_first_enabled chatMachine (Elapsed 1500) waiting calls calls calls
              [retryLater] [] giveUp Hrun) as [_ ->].
  - rewrite Hvalue. reflexivity.
  - simpl. unfold pure. by rewrite Hlt.
  - reflexivity.
  - destruct waiting as [st v ctx c g p]. simpl in *. subst.
    vm_compute. auto.
Qed.

End ChatRetries.

(** C1, as the code has it.  With a maximum of 3:

    - in the LangGraph order workflow a failed payment increments
      [retryCount], the router returns to [process_payment] exactly when the
      order is pending and [retryCount < 3], and ends the workflow when
      [retryCount >= 3]; the third consecutive failure ends it, and
      [process_payment] runs at most three times whatever the draws;

    - in the chat machine [retryCount] counts the retries, not the
      failures: a failed call leaves it unchanged, and the retry timer
      re-enters [calling_llm], incrementing it and calling again, exactly
      when [retryCount < 3]; otherwise the timer moves the machine to the
      final state [failed].  So with timer-driven retries the fourth call
      follows the third failure, the fourth failure ends in [failed], and no
      further call is ever made. *)
Theorem retry_is_bounded
    (rng : OrderLangGraph.Random) (state : OrderLangGraph.OrderGraphState) (random : Q)
    (calling waiting : Statechart.Actor string LlmChat.ChatContext)
    (calls : LlmChat.Calls) (oops : string)
    (later : list (Statechart.Step string LlmChat.ChatEvent)) :
  declines random ->
  OrderLangGraph.orderStatus state = "pending" ->
  Statechart.status calling = Statechart.Running ->
  Statechart.value calling = "calling_llm" ->
  Statechart.status waiting = Statechart.Running ->
  Statechart.value waiting = "error" ->
  (* the order workflow *)
  OrderLangGraph.retryCount (OrderLangGraph.processPaymentNode random state)
    = Js.add (OrderLangGraph.retryCount state) (Js.Finite 1)
  /\ (OrderLangGraph.shouldRetryPayment state = "process_payment" <->
      Js.lt (OrderLangGraph.retryCount state) (Js.Finite 3) = true)
  /\ (Js.ge (OrderLangGraph.retryCount state) (Js.Finite 3) = true ->
      OrderLangGraph.shouldRetryPayment state = OrderLangGraph.END)
  /\ (exists final ran,
        OrderLangGraph.invoke OrderLangGraph.initialState rng = Js.Normal (final, ran)
        /\ attempts ran <= 3)
  /\ (threeDeclined rng ->
      exists final,
        OrderLangGraph.invoke OrderLangGraph.initialState rng
        = Js.Normal (final, ["create_order"; "confirm_order"; "process_payment";
                             "process_payment"; "process_payment"])
        /\ OrderLangGraph.retryCount final = Js.Finite 3)
  (* the chat machine *)
  /\ (let after :=
        Statechart.send LlmChat.chatMachine (LlmChat.ErrorInvoke oops) calling calls in
      Statechart.value (fst after) = "error"
      /\ LlmChat.retryCount (Statechart.context (fst after))
         = LlmChat.retryCount (Statechart.context calling)
      /\ snd after = calls)
  /\ (let after :=
        Statechart.deliver LlmChat.chatMachine (Statechart.Elapsed 1500) waiting calls in
      if Js.lt (LlmChat.retryCount (Statechart.context waiting)) (Js.Finite 3)
      then Statechart.value (fst after) = "calling_llm"
           /\ LlmChat.retryCount (Statechart.context (fst after))
              = Js.add (LlmChat.retryCount (Statechart.context waiting)) (Js.Finite 1)
           /\ snd after = calls ++ [LlmChat.message (Statechart.context waiting)]
      else Statechart.value (fst after) = "failed"
           /\ Statechart.status (fst after) = Statechart.Done
           /\ snd after = calls)
  /\ (Statechart.value (fst (LlmChat.failures 3)) = "calling_llm"
      /\ length (snd (LlmChat.failures 3)) = 4)
  /\ (Statechart.value (fst (LlmChat.failures 4)) = "failed"
      /\ length (snd (Statechart.run LlmChat.chatMachine later (LlmChat.failures 4))) = 4).
Proof.
  intros Hdeclines Hpending Hcalling Hcall Hwaiting Hwait.
  split.
  { destruct (payment_cases random state) as [[Hok _] | [_ ->]]; [|reflexivity].
    unfold declines in Hdeclines. congruence. }
  split; [apply (router_retries_below_maximum state Hpending)|].
  split.
  { intros Hge. apply (router_retries_below_maximum state Hpending). split; [|exact Hge].
    destruct (OrderLangGraph.retryCount state) as [z| | |]; try done.
    simpl in *. unfold Js.ge, Js.le in Hge. simpl in Hge.
    apply bool_decide_eq_false. apply orb_prop in Hge as [Hge | Hge].
    - apply bool_decide_eq_true in Hge. lia.
    - apply bool_decide_eq_true in Hge. injection Hge as <-. lia. }
  split; [apply invoke_attempts_at_most_three|].
  split.
  { intros Hthree. destruct (invoke_three_declined rng Hthree) as (final & Hrun & Hcount & _).
    exists final. by split. }
  split; [by apply chat_failure_keeps_count|].
  split.
  { destruct (Js.lt _ _) eqn:Hlt.
    - by apply chat_timer_retries.
    - destruct (chat_timer_gives_up waiting calls Hwaiting Hwait Hlt) as (? & ? & _ & ?).
      auto. }
  split; [split; vm_compute; reflexivity|].
  split; [vm_compute; reflexivity|].
  assert (Hdone : Statechart.status (fst (LlmChat.failures 4)) <> Statechart.Running)
    by (vm_compute; discriminate).
  assert (Hidle : Statechart.pending (fst (LlmChat.failures 4)) = [])
    by (vm_compute; reflexivity).
  assert (Hfour : length (snd (LlmChat.failures 4)) = 4) by (vm_compute; reflexivity).
  generalize dependent (LlmChat.failures 4). intros [actor calls'] Hdone Hidle Hfour.
  destruct (halted_inert LlmChat.chatMachine later actor calls' Hdone Hidle)
    as (_ & _ & _ & _ & ->).
  exact Hfour.
Qed.

(** C1 as stated fails on the chat machine: a failed call does not change
    [retryCount], and after the third consecutive failure the machine is
    not in [failed] but calling the model a fourth time. *)
Lemma third_chat_failure_starts_fourth_call :
  LlmChat.retryCount (Statechart.context (fst chatWaiting)) = Js.Finite 0
  /\ Statechart.value (fst (LlmChat.failures 3)) <> "failed"
  /\ Statechart.status (fst (LlmChat.failures 3)) = Statechart.Running
  /\ snd (LlmChat.failures 3) = ["hello"; "hello"; "hello"; "hello"].
Proof.
  split; [vm_compute; reflexivity|].
  split; [vm_compute; discriminate|].
  split; vm_compute; reflexivity.
Qed.

Lemma retry_is_bounded_witness :
  OrderLangGraph.retryCount
    (OrderLangGraph.processPaymentNode (9 # 10)%Q OrderLangGraph.initialState)
  = Js.Finite 1
  /\ (exists final,
        OrderLangGraph.invoke OrderLangGraph.initialState unlucky
        = Js.Normal (final, ["create_order"; "confirm_order"; "process_payment";
                             "process_payment"; "process_payment"])
        /\ OrderLangGraph.retryCount final = Js.Finite 3)
  /\ Statechart.value
       (fst (Statechart.send LlmChat.chatMachine (LlmChat.ErrorInvoke "timeout")
               (fst chatCalling) (snd chatWaiting))) = "error"
  /\ Statechart.value
       (fst (Statechart.deliver LlmChat.chatMachine (Statechart.Elapsed 1500)
               (fst chatWaiting) (snd chatWaiting))) = "calling_llm".
Proof.
  destruct (retry_is_bounded unlucky OrderLangGraph.initialState (9 # 10)%Q
              (fst chatCalling) (fst chatWaiting) (snd chatWaiting) "timeout" [])
    as (Hcount & _ & _ & _ & Hthree & Hfailure & Htimer & _).
  - reflexivity.
  - reflexivity.
  - vm_compute. reflexivity.
  - vm_compute. reflexivity.
  - vm_compute. reflexivity.
  - vm_compute. reflexivity.
  - split; [exact Hcount|].
    split; [apply Hthree; repeat split; reflexivity|].
    split.
    + cbv zeta in Hfailure. destruct Hfailure as (Hvalue & _). exact Hvalue.
    + cbv zeta in Htimer.
      replace (Js.lt (LlmChat.retryCount (Statechart.context (fst chatWaiting)))
                 (Js.Finite 3)) with true in Htimer by (vm_compute; reflexivity).
      destruct Htimer as (Hvalue & _). exact Hvalue.
Defined.

(** The [RETRY] event of the chat machine has no guard: answered with it
    four times, the failures of one message lead to a fifth call. *)
Lemma retry_event_is_not_guarded :
  let now :=
    Statechart.run LlmChat.chatMachine manualRetries
      (Statechart.start LlmChat.chatMachine []) in
  Statechart.value (fst now) = "calling_llm"
  /\ LlmChat.retryCount (Statechart.context (fst now)) = Js.Finite 4
  /\ length (snd now) = 5.
Proof. repeat split; vm_compute; reflexivity. Qed.

(** The order machine of the xstate example counts failures, as the order
    workflow does: when every draw fails, the third failure cancels the
    order, after three draws. *)
Lemma order_machine_cancels_on_third_failure :
  let now :=
    Statechart.run OrderXState.orderMachine orderHistory
      (Statechart.start OrderXState.orderMachine (nines 0)) in
  Statechart.value (fst now) = "canceled"
  /\ Statechart.status (fst now) = Statechart.Done
  /\ OrderXState.retryCount (Statechart.context (fst now)) = Js.Finite 3
  /\ OrderXState.taken (snd now) = 3.
Proof. repeat split; vm_compute; reflexivity. Qed.

(** ** The persisted game *)

Section GameMachine.

Import Js Statechart GamePersistence.

Lemma game_take_declared t event (actor : Statechart.Actor string GameContext) disk :
  t ∈ transitions gameMachine ->
  value actor ∈ states gameMachine ->
  status (fst (take gameMachine t event actor disk)) = status actor
  /\ value (fst (take gameMachine t event actor disk)) ∈ states gameMachine.
Proof.
  intros Ht Hin. destruct actor as [st v ctx c g p].
  apply list_elem_of_In in Ht. simpl in Ht.
  repeat (destruct Ht as [<- | Ht]; [vm_compute; split; [reflexivity|];
    first [exact Hin | apply list_elem_of_In; simpl; tauto] |]).
  destruct Ht.
Qed.

Lemma settle_playing event ctx c g p (disk : Disk) :
  let settled :=
    settle gameMachine (patience gameMachine) event
      {| status := Running; value := "playing"; context := ctx;
         clock := c; generation := g; pending := p |} disk in
  value (fst settled) = (if le (lives ctx) (Finite 0) then "gameOver" else "playing")
  /\ context (fst settled) = ctx
  /\ status (fst settled) = Running
  /\ snd settled = disk.
Proof.
  change (patience gameMachine) with 7.
  cbn [settle status].
  destruct (decide (Running = Running)); [|contradiction].
  unfold resolve. cbn [value context].
  replace (candidates gameMachine "playing" Always) with [outOfLives]
    by (vm_compute; reflexivity).
  cbn [firstEnabled guard outOfLives]. unfold pure.
  destruct (le (lives ctx) (Finite 0)); [vm_compute|]; auto.
Qed.

Lemma settle_elsewhere event (actor : Statechart.Actor string GameContext) (disk : Disk) :
  value actor ∈ states gameMachine ->
  value actor <> "playing" ->
  settle gameMachine (patience gameMachine) event actor disk = (actor, disk).
Proof.
  intros Hin Hne. destruct actor as [st v ctx c g p]. simpl in *.
  apply list_elem_of_In in Hin. simpl in Hin.
  destruct st;
    repeat (destruct Hin as [<- | Hin]; [first [contradiction | vm_compute; reflexivity]|]);
    destruct Hin.
Qed.

Lemma game_settle_invariant event (actor : Statechart.Actor string GameContext) disk :
  status actor = Running ->
  value actor ∈ states gameMachine ->
  gameInvariant (fst (settle gameMachine (patience gameMachine) event actor disk)).
Proof.
  intros Hrun Hin.
  destruct (decide (value actor = "playing")) as [Hplaying | Hother].
  - destruct actor as [st v ctx c g p]. simpl in Hrun, Hplaying. subst st v.
    pose proof (settle_playing event ctx c g p disk) as Hsettled.
    cbv zeta in Hsettled. destruct Hsettled as (Hvalue & Hctx & _ & _).
    unfold gameInvariant. rewrite Hvalue, Hctx.
    destruct (le (lives ctx) (Finite 0)) eqn:Hlives; split;
      first [apply list_elem_of_In; simpl; tauto | discriminate | reflexivity].
  - rewrite settle_elsewhere by assumption. split; [exact Hin | contradiction].
Qed.

Lemma game_deliver_invariant event (actor : Statechart.Actor string GameContext) disk :
  gameInvariant actor -> gameInvariant (fst (deliver gameMachine event actor disk)).
Proof.
  intros [Hin Hplay].
  destruct (decide (status actor = Running)) as [Hrun | Hhalted].
  - rewrite deliver_running by exact Hrun.
    destruct (resolve _ _ _ _ _) as [[t|] disk1] eqn:Hres.
    + apply resolve_declared in Hres.
      destruct (game_take_declared t event actor disk1 Hres Hin) as [Hstatus Hvalue].
      destruct (take _ _ _ _ _) as [actor1 disk2]. simpl in *.
      apply game_settle_invariant; [congruence | exact Hvalue].
    + by apply game_settle_invariant.
  - unfold deliver. destruct (decide (status actor = Running)); [contradiction|].
    by split.
Qed.

Lemma game_run_invariant history (disk : Disk) :
  gameInvariant (fst (run gameMachine history (start gameMachine disk))).
Proof.
  apply (run_keeps gameMachine gameInvariant).
  - apply game_deliver_invariant.
  - intros tm actor Hinv. exact Hinv.
  - intros actor Hinv. exact Hinv.
  - intros actor Hinv. exact Hinv.
  - vm_compute. split; [apply list_elem_of_In; simpl; tauto | discriminate].
Qed.

End GameMachine.

Section SavedGames.

Import Js Statechart GamePersistence.

Lemma typeof_number v : typeof v = "number" -> exists n, v = Number n.
Proof. destruct v; try discriminate. eauto. Qed.

Lemma typeof_string v : typeof v = "string" -> exists s, v = String s.
Proof. destruct v; try discriminate. eauto. Qed.

(** Reading a property of a non-null object does not throw. *)
Lemma getProperty_of_record data key :
  isRecord data = true -> exists v, getProperty data key = Normal v.
Proof. destruct data; try discriminate; simpl; eauto. Qed.

Lemma parseSavedGame_returns data : exists result, parseSavedGame data = Normal result.
Proof.
  unfold parseSavedGame.
  destruct (isRecord data) eqn:Hrecord; simpl; [|eauto].
  destruct (getProperty_of_record data "level" Hrecord) as [level ->].
  destruct (getProperty_of_record data "score" Hrecord) as [score ->].
  destruct (getProperty_of_record data "lives" Hrecord) as [lives ->].
  destruct (getProperty_of_record data "playerName" Hrecord) as [playerName ->].
  simpl. destruct (_ || _); eauto.
Qed.

Lemma parseSavedGame_valid data ctx :
  parseSavedGame data = Normal (Some ctx) <-> validSave data ctx.
Proof.
  unfold validSave. split.
  - intros Hparse.
    destruct data as [| | b | n | s | items | fields |].
    1-6, 8: (vm_compute in Hparse; discriminate Hparse).
    exists fields. split; [reflexivity|].
    unfold parseSavedGame in Hparse.
    change (isRecord (Object fields)) with true in Hparse.
    unfold getProperty in Hparse. cbn [negb bind] in Hparse.
    destruct (bool_decide (typeof (default Undefined (fields !! "level")) = "number"))
      eqn:H1; [|discriminate].
    destruct (bool_decide (typeof (default Undefined (fields !! "score")) = "number"))
      eqn:H2; [|discriminate].
    destruct (bool_decide (typeof (default Undefined (fields !! "lives")) = "number"))
      eqn:H3; [|discriminate].
    destruct (bool_decide (typeof (default Undefined (fields !! "playerName")) = "string"))
      eqn:H4; [|discriminate].
    apply bool_decide_eq_true in H1, H2, H3, H4.
    apply typeof_number in H1 as [n1 H1], H2 as [n2 H2], H3 as [n3 H3].
    apply typeof_string in H4 as [s4 H4].
    rewrite H1, H2, H3, H4 in Hparse. simpl in Hparse. injection Hparse as <-.
    destruct (fields !! "level"); [|discriminate H1].
    destruct (fields !! "score"); [|discriminate H2].
    destruct (fields !! "lives"); [|discriminate H3].
    destruct (fields !! "playerName"); [|discriminate H4].
    simpl in H1, H2, H3, H4. subst. auto.
  - intros (fields & -> & Hlevel & Hscore & Hlives & Hname).
    unfold parseSavedGame.
    change (isRecord (Object fields)) with true.
    unfold getProperty. rewrite Hlevel, Hscore, Hlives, Hname. simpl.
    by destruct ctx.
Qed.

Lemma game_start (disk : Disk) :
  start gameMachine disk
  = ({| status := Running; value := "menu"; context := initialContext gameMachine;
        clock := 0; generation := 0; pending := [] |}, disk).
Proof. reflexivity. Qed.

Lemma resume_without_save (disk : Disk) :
  loadSavedGame disk = None -> resume disk = start gameMachine disk.
Proof. intros Hnone. unfold resume. rewrite game_start. by rewrite Hnone. Qed.

(** Delivering [LOAD_GAME] to a machine that was just started. *)
Lemma load_into_new_actor (saved : PartialGameContext) (disk : Disk) :
  let loaded :=
    send gameMachine (LOAD_GAME (Some saved)) (fst (start gameMachine disk)) disk in
  context (fst loaded) = merge (initialContext gameMachine) (Some saved)
  /\ value (fst loaded)
     = (if le (lives (merge (initialContext gameMachine) (Some saved))) (Finite 0)
        then "gameOver" else "playing")
  /\ snd loaded = disk.
Proof.
  rewrite game_start. unfold send. rewrite deliver_running by reflexivity.
  match goal with
  | |- context [resolve ?m ?o ?e ?a ?w] =>
      let v := eval vm_compute in (resolve m o e a w) in
      replace (resolve m o e a w) with v by (vm_compute; reflexivity)
  end.
  cbv beta iota zeta.
  match goal with
  | |- context [take ?m ?t ?e ?a ?w] =>
      replace (take m t e a w)
        with ({| status := Running; value := "playing";
                 context := merge (initialContext gameMachine) (Some saved);
                 clock := 0; generation := 1; pending := [] |}, disk)
        by (vm_compute; reflexivity)
  end.
  cbv beta iota zeta.
  match goal with
  | |- context [settle gameMachine (patience gameMachine) ?e
                  {| status := Running; value := "playing"; context := ?ctx;
                     clock := ?c; generation := ?g; pending := ?p |} ?w] =>
      pose proof (settle_playing e ctx c g p w) as Hsettled
  end.
  cbv zeta in Hsettled. destruct Hsettled as (Hvalue & Hctx & _ & Hdisk).
  auto.
Qed.

Lemma save_then_load (ctx : GameContext) (disk : Disk) :
  writable disk = true -> finiteContext ctx ->
  loadSavedGame (saveGame ctx disk) = Some ctx.
Proof.
  intros Hwritable (Hlevel & Hscore & Hlives).
  destruct ctx as [[l| | |] [s| | |] [v| | |] name]; try discriminate.
  destruct disk as [file w day]. simpl in Hwritable. subst w.
  vm_compute. reflexivity.
Qed.

End SavedGames.

Lemma not_le_zero_is_positive (n : Js.number) :
  Js.le n (Js.Finite 0) = false -> n <> Js.NaN -> Js.gt n (Js.Finite 0) = true.
Proof.
  destruct n as [z| | |]; simpl; intros Hle Hnan; try done.
  unfold Js.le, Js.gt, Js.lt in *.
  apply orb_false_iff in Hle as [Hlt Heq].
  apply bool_decide_eq_false in Hlt, Heq. apply bool_decide_eq_true.
  assert (z <> 0%Z) by congruence. lia.
Qed.

(** C8, as the code has it.  A context whose [level], [score] and [lives]
    are finite numbers, written by [saveGame] to a writable disk, is read
    back by [loadSavedGame] as the same context, and delivering it with
    [LOAD_GAME] to a newly started machine leaves that machine with a
    context equal to the original.  The machine itself saves its context on
    [SAVE]. *)
Theorem saved_game_round_trip
    (ctx : GamePersistence.GameContext) (disk : GamePersistence.Disk)
    (c g : N) (p : list (Statechart.Timer string)) :
  GamePersistence.writable disk = true ->
  finiteContext ctx ->
  GamePersistence.loadSavedGame (GamePersistence.saveGame ctx disk) = Some ctx
  /\ Statechart.context
       (fst (GamePersistence.resume (GamePersistence.saveGame ctx disk))) = ctx
  /\ snd (Statechart.send GamePersistence.gameMachine GamePersistence.SAVE
            {| Statechart.status := Statechart.Running; Statechart.value := "playing";
               Statechart.context := ctx; Statechart.clock := c;
               Statechart.generation := g; Statechart.pending := p |} disk)
     = GamePersistence.saveGame ctx disk.
Proof.
  intros Hwritable Hfinite.
  pose proof (save_then_load ctx disk Hwritable Hfinite) as Hload.
  split; [exact Hload|]. split.
  - unfold GamePersistence.resume. rewrite game_start, Hload.
    pose proof (load_into_new_actor (GamePersistence.asPartial ctx)
                  (GamePersistence.saveGame ctx disk)) as Hloaded.
    rewrite game_start in Hloaded. cbv zeta in Hloaded. cbn [fst] in Hloaded.
    destruct Hloaded as (Hcontext & _). rewrite Hcontext. by destruct ctx.
  - destruct ctx, disk. vm_compute. reflexivity.
Qed.

Lemma saved_game_round_trip_witness :
  GamePersistence.loadSavedGame
    (GamePersistence.saveGame (Statechart.initialContext GamePersistence.gameMachine)
       emptyDisk)
  = Some (Statechart.initialContext GamePersistence.gameMachine)
  /\ Statechart.context
       (fst (GamePersistence.resume
               (GamePersistence.saveGame
                  (Statechart.initialContext GamePersistence.gameMachine) emptyDisk)))
     = Statechart.initialContext GamePersistence.gameMachine
  /\ snd (Statechart.send GamePersistence.gameMachine GamePersistence.SAVE
            {| Statechart.status := Statechart.Running; Statechart.value := "playing";
               Statechart.context := Statechart.initialContext GamePersistence.gameMachine;
               Statechart.clock := 0; Statechart.generation := 1;
               Statechart.pending := [] |} emptyDisk)
     = GamePersistence.saveGame (Statechart.initialContext GamePersistence.gameMachine)
         emptyDisk.
Proof.
  apply (saved_game_round_trip (Statechart.initialContext GamePersistence.gameMachine)
           emptyDisk 0 1 []).
  - reflexivity.
  - repeat split; reflexivity.
Defined.

(** C8 as stated fails: a score of [Infinity], which the machine reaches
    with [EARN_POINTS], is written as [null]; the saved game is then
    rejected, and the new machine keeps its initial context. *)
Lemma unbounded_score_is_not_restored :
  Statechart.context
    (fst (Statechart.sendAll GamePersistence.gameMachine
            [GamePersistence.NEW_GAME; GamePersistence.EARN_POINTS Js.PosInfinity]
            (fst (Statechart.start GamePersistence.gameMachine emptyDisk)) emptyDisk))
  = highScore
  /\ GamePersistence.loadSavedGame (GamePersistence.saveGame highScore emptyDisk) = None
  /\ Statechart.context
       (fst (GamePersistence.resume (GamePersistence.saveGame highScore emptyDisk)))
     <> highScore.
Proof.
  split; [vm_compute; reflexivity|].
  split; [vm_compute; reflexivity|].
  vm_compute. discriminate.
Qed.

(** C9, as the code has it.  Whatever the host has done since the game
    machine was started, if the machine is in [playing] then [lives <= 0] is
    false, so [lives > 0] unless [lives] is [NaN]; and a machine in
    [playing] whose [lives <= 0] holds is moved to [gameOver] by the
    eventless transition before it settles. *)
Theorem playing_has_lives_left
    (history : list (Statechart.Step string GamePersistence.GameEvent))
    (disk disk' : GamePersistence.Disk)
    (event : Statechart.Event GamePersistence.GameEvent)
    (ctx : GamePersistence.GameContext)
    (c g : N) (p : list (Statechart.Timer string)) :
  Statechart.value
    (fst (Statechart.run GamePersistence.gameMachine history
            (Statechart.start GamePersistence.gameMachine disk))) = "playing" ->
  Js.le (GamePersistence.lives ctx) (Js.Finite 0) = true ->
  let now :=
    Statechart.run GamePersistence.gameMachine history
      (Statechart.start GamePersistence.gameMachine disk) in
  let lives := GamePersistence.lives (Statechart.context (fst now)) in
  Js.le lives (Js.Finite 0) = false
  /\ (lives <> Js.NaN -> Js.gt lives (Js.Finite 0) = true)
  /\ Statechart.value
       (fst (Statechart.settle GamePersistence.gameMachine
               (Statechart.patience GamePersistence.gameMachine) event
               {| Statechart.status := Statechart.Running; Statechart.value := "playing";
                  Statechart.context := ctx; Statechart.clock := c;
                  Statechart.generation := g; Statechart.pending := p |} disk'))
     = "gameOver".
Proof.
  intros Hplaying Hdead now lives.
  destruct (game_run_invariant history disk) as [_ Hinv].
  specialize (Hinv Hplaying). fold now in Hinv. fold lives in Hinv.
  split; [exact Hinv|]. split.
  - by apply not_le_zero_is_positive.
  - destruct (settle_playing event ctx c g p disk') as (-> & _). by rewrite Hdead.
Qed.

Lemma playing_has_lives_left_witness :
  let now :=
    Statechart.run GamePersistence.gameMachine
      [Statechart.DoSend GamePersistence.NEW_GAME; Statechart.DoSend GamePersistence.LOSE_LIFE]
      (Statechart.start GamePersistence.gameMachine emptyDisk) in
  let lives := GamePersistence.lives (Statechart.context (fst now)) in
  Js.le lives (Js.Finite 0) = false
  /\ (lives <> Js.NaN -> Js.gt lives (Js.Finite 0) = true)
  /\ Statechart.value
       (fst (Statechart.settle GamePersistence.gameMachine
               (Statechart.patience GamePersistence.gameMachine)
               (Statechart.Sent GamePersistence.LOSE_LIFE)
               {| Statechart.status := Statechart.Running; Statechart.value := "playing";
                  Statechart.context :=
                    {| GamePersistence.level := Js.Finite 1;
                       GamePersistence.score := Js.Finite 0;
                       GamePersistence.lives := Js.Finite 0;
                       GamePersistence.playerName := "Player" |};
                  Statechart.clock := 0; Statechart.generation := 1;
                  Statechart.pending := [] |} emptyDisk))
     = "gameOver".
Proof.
  apply (playing_has_lives_left
           [Statechart.DoSend GamePersistence.NEW_GAME;
            Statechart.DoSend GamePersistence.LOSE_LIFE]
           emptyDisk emptyDisk (Statechart.Sent GamePersistence.LOSE_LIFE)
           {| GamePersistence.level := Js.Finite 1; GamePersistence.score := Js.Finite 0;
              GamePersistence.lives := Js.Finite 0;
              GamePersistence.playerName := "Player" |} 0 1 []).
  - vm_compute. reflexivity.
  - vm_compute. reflexivity.
Defined.

(** C9 as stated fails where [lives] is [NaN]: a saved state with such
    lives, delivered by [LOAD_GAME], leaves the machine in [playing], where
    [lives > 0] is false. *)
Lemma playing_with_lives_unknown :
  let now :=
    Statechart.run GamePersistence.gameMachine
      [Statechart.DoSend (GamePersistence.LOAD_GAME (Some livesUnknown))]
      (Statechart.start GamePersistence.gameMachine emptyDisk) in
  Statechart.value (fst now) = "playing"
  /\ Js.gt (GamePersistence.lives (Statechart.context (fst now))) (Js.Finite 0) = false.
Proof. split; vm_compute; reflexivity. Qed.

(** C10. [parseSavedGame] never throws; it returns a context exactly when
    its argument is a non-null object whose [level], [score] and [lives]
    are numbers and whose [playerName] is a string, and then the context
    holds those values; for every other argument it returns [null].
    [loadSavedGame] never throws either: a save file that is not JSON, or
    whose document is not a valid save, gives [null], and the new machine
    is then started without a loaded game, in [menu] with its initial
    context. *)
Theorem parseSavedGame_total_and_exact
    (data : Js.Value) (ctx : GamePersistence.GameContext) (disk : GamePersistence.Disk) :
  (exists result, GamePersistence.parseSavedGame data = Js.Normal result)
  /\ (GamePersistence.parseSavedGame data = Js.Normal (Some ctx) <-> validSave data ctx)
  /\ ((forall ctx', ~ validSave data ctx') ->
      GamePersistence.parseSavedGame data = Js.Normal None)
  /\ (GamePersistence.loadSavedGame disk = None
      \/ exists document loaded,
           GamePersistence.saveFile disk = Some (Js.JsonText document)
           /\ validSave document loaded
           /\ GamePersistence.loadSavedGame disk = Some loaded)
  /\ ((exists raw, GamePersistence.saveFile disk = Some (Js.Malformed raw))
      \/ (exists document,
            GamePersistence.saveFile disk = Some (Js.JsonText document)
            /\ forall ctx', ~ validSave document ctx') ->
      GamePersistence.loadSavedGame disk = None
      /\ GamePersistence.resume disk = Statechart.start GamePersistence.gameMachine disk
      /\ Statechart.value (fst (GamePersistence.resume disk)) = "menu"
      /\ Statechart.context (fst (GamePersistence.resume disk))
         = Statechart.initialContext GamePersistence.gameMachine).
Proof.
  assert (Hnone : forall d, (forall ctx', ~ validSave d ctx') ->
                            GamePersistence.parseSavedGame d = Js.Normal None).
  { intros d Hinvalid.
    destruct (parseSavedGame_returns d) as [[found|] Hparse]; [|exact Hparse].
    apply parseSavedGame_valid in Hparse. by apply Hinvalid in Hparse. }
  split; [apply parseSavedGame_returns|].
  split; [apply parseSavedGame_valid|].
  split; [apply Hnone|].
  split.
  - unfold GamePersistence.loadSavedGame.
    destruct (GamePersistence.saveFile disk) as [[document|raw]|] eqn:Hfile; simpl; auto.
    destruct (parseSavedGame_returns document) as [[found|] Hparse];
      rewrite Hparse; simpl; auto.
    right. exists document, found.
    split; [reflexivity|]. split; [by apply parseSavedGame_valid | reflexivity].
  - intros Hcorrupt.
    assert (Hload : GamePersistence.loadSavedGame disk = None).
    { unfold GamePersistence.loadSavedGame.
      destruct Hcorrupt as [[raw ->] | (document & -> & Hinvalid)]; simpl; [reflexivity|].
      by rewrite (Hnone document Hinvalid). }
    split; [exact Hload|].
    rewrite (resume_without_save disk Hload), game_start. auto.
Qed.

Lemma parseSavedGame_total_and_exact_witness :
  GamePersistence.parseSavedGame
    (GamePersistence.saveData (Statechart.initialContext GamePersistence.gameMachine)
       emptyDisk)
  = Js.Normal (Some (Statechart.initialContext GamePersistence.gameMachine))
  /\ GamePersistence.parseSavedGame (Js.String "level") = Js.Normal None
  /\ GamePersistence.loadSavedGame corruptDisk = None
  /\ GamePersistence.resume corruptDisk
     = Statechart.start GamePersistence.gameMachine corruptDisk
  /\ Statechart.value (fst (GamePersistence.resume corruptDisk)) = "menu"
  /\ Statechart.context (fst (GamePersistence.resume corruptDisk))
     = Statechart.initialContext GamePersistence.gameMachine.
Proof.
  split; [|split].
  - destruct (parseSavedGame_total_and_exact
                (GamePersistence.saveData
                   (Statechart.initialContext GamePersistence.gameMachine) emptyDisk)
                (Statechart.initialContext GamePersistence.gameMachine) corruptDisk)
      as (_ & Hexact & _).
    apply Hexact. eexists. split; [reflexivity|].
    repeat split; vm_compute; reflexivity.
  - destruct (parseSavedGame_total_and_exact (Js.String "level")
                (Statechart.initialContext GamePersistence.gameMachine) corruptDisk)
      as (_ & _ & Hother & _).
    apply Hother. intros ctx' (fields & Hobject & _). discriminate Hobject.
  - apply (parseSavedGame_total_and_exact Js.Null
             (Statechart.initialContext GamePersistence.gameMachine) corruptDisk).
    left. exists "{ level: ". reflexivity.
Defined.

(** * Further properties *)

(** ** The hand-written machines *)

Section MoreBasicMachines.

Lemma toggles_cons event events :
  toggles (event :: events)
  = if bool_decide (event = "TOGGLE") then S (toggles events) else toggles events.
Proof.
  unfold toggles. rewrite filter_cons.
  case_bool_decide; destruct (decide (event = "TOGGLE")); try contradiction; reflexivity.
Qed.

Lemma nexts_cons event events :
  nexts (event :: events)
  = if bool_decide (event = "NEXT") then S (nexts events) else nexts events.
Proof.
  unfold nexts. rewrite filter_cons.
  case_bool_decide; destruct (decide (event = "NEXT")); try contradiction; reflexivity.
Qed.

Lemma toggle_sendAll_cons event events fsm :
  Toggle.sendAll (event :: events) fsm
  = Toggle.sendAll events (fst (Toggle.transition event fsm)).
Proof. reflexivity. Qed.

Lemma toggle_sendAll_parity events : forall state,
  state ∈ Toggle.declaredStates ->
  Toggle.getState (Toggle.sendAll events {| Toggle.currentState := state |})
  = if Nat.even (toggles events) then state
    else if bool_decide (state = "OFF") then "ON" else "OFF".
Proof.
  induction events as [|event events IH]; intros state Hin; [reflexivity|].
  rewrite toggles_cons, toggle_sendAll_cons. unfold Toggle.transition.
  destruct (bool_decide (event = "TOGGLE")); cbn [fst]; [|by apply IH].
  rewrite Nat.even_succ, <- Nat.negb_even.
  apply list_elem_of_In in Hin. simpl in Hin.
  destruct Hin as [<- | [<- | []]]; simpl;
    (rewrite IH by (apply list_elem_of_In; simpl; auto));
    by destruct (Nat.even _).
Qed.

End MoreBasicMachines.

(** X1. The state of a toggle depends only on the state it was created in
    and on how many of the events sent to it were [TOGGLE]: with none, it is
    the state given to the constructor, whatever that string is; otherwise
    it is [OFF] when the toggle was created in [OFF] and the number is even,
    or created in any other state and the number is odd, and [ON] in the
    remaining cases.  Events other than [TOGGLE] do not count. *)
Theorem toggle_state_is_parity (initialState : option string) (events : list string) :
  Toggle.getState (Toggle.sendAll events (Toggle.new initialState))
  = match toggles events with
    | O => default "OFF" initialState
    | S _ =>
        if Bool.eqb (bool_decide (default "OFF" initialState = "OFF"))
                    (Nat.even (toggles events))
        then "OFF" else "ON"
    end.
Proof.
  unfold Toggle.new. generalize (default "OFF" initialState). intros state.
  induction events as [|event events IH]; [reflexivity|].
  rewrite toggles_cons, toggle_sendAll_cons. unfold Toggle.transition at 1.
  destruct (bool_decide (event = "TOGGLE")); cbn [fst]; [|exact IH]. clear IH.
  cbn [Toggle.currentState].
  rewrite toggle_sendAll_parity by (case_bool_decide; apply list_elem_of_In; simpl; auto).
  rewrite Nat.even_succ, <- Nat.negb_even.
  case_bool_decide; destruct (Nat.even _); reflexivity.
Qed.

Section TrafficLightCycle.

Import TrafficLight.

Lemma traffic_sendAll_cons event events fsm :
  sendAll (event :: events) fsm = sendAll events (fst (transition event fsm)).
Proof. reflexivity. Qed.

(** Sending events amounts to sending as many [NEXT] as they contain. *)
Lemma traffic_sendAll_nexts events : forall fsm,
  sendAll events fsm = Nat.iter (nexts events) advance fsm.
Proof.
  induction events as [|event events IH]; intros fsm; [reflexivity|].
  rewrite nexts_cons, traffic_sendAll_cons, IH.
  case_bool_decide as Hevent.
  - subst event. by rewrite Nat.iter_succ_r.
  - unfold transition. by rewrite bool_decide_eq_false_2.
Qed.

(** Three [NEXT] bring the light back to where it was. *)
Lemma traffic_three_nexts fsm :
  trafficInvariant fsm ->
  advance (advance (advance fsm)) = fsm.
Proof.
  intros [Htable (s & Hcur & Hin)]. destruct fsm as [cur table]. simpl in *. subst.
  apply list_elem_of_In in Hin. simpl in Hin.
  destruct Hin as [<- | [<- | [<- | []]]]; vm_compute; reflexivity.
Qed.

Lemma traffic_iter_invariant n fsm :
  trafficInvariant fsm ->
  trafficInvariant (Nat.iter n advance fsm).
Proof.
  intros Hinv. induction n as [|n IH]; [exact Hinv|].
  rewrite Nat.iter_succ. by apply traffic_transition_invariant.
Qed.

Lemma traffic_iter_period q r fsm :
  trafficInvariant fsm ->
  Nat.iter (3 * q + r) advance fsm
  = Nat.iter r advance fsm.
Proof.
  intros Hinv. induction q as [|q IH]; [reflexivity|].
  replace (3 * S q + r) with (3 + (3 * q + r)) by lia.
  rewrite Nat.iter_add, IH.
  change (Nat.iter 3 advance ?f) with (advance (advance (advance f))).
  apply traffic_three_nexts, traffic_iter_invariant, Hinv.
Qed.

Lemma traffic_new_invariant initialState :
  (forall s, initialState = Some s -> s ∈ declaredStates) ->
  trafficInvariant (new initialState).
Proof.
  intros Hdeclared. split; [reflexivity|]. simpl.
  destruct initialState as [s|]; simpl.
  - exists s. split; [reflexivity | by apply Hdeclared].
  - exists "RED". split; [reflexivity|]. apply list_elem_of_In; simpl; auto.
Qed.

End TrafficLightCycle.

(** X2. The traffic light is a cycle of length three: a light created in a
    declared state (or in its default state) is, after any sequence of
    events, where it is after the number of [NEXT] in that sequence taken
    modulo 3; events other than [NEXT] do not count.  So three [NEXT] bring
    the light back to the state it was in, and two sequences with the same
    number of [NEXT] modulo 3 leave it in the same state. *)
Theorem traffic_light_counts_modulo_three
    (initialState : option string) (events : list string) :
  (forall s, initialState = Some s -> s ∈ TrafficLight.declaredStates) ->
  TrafficLight.sendAll events (TrafficLight.new initialState)
  = TrafficLight.sendAll (replicate (nexts events mod 3) "NEXT")
      (TrafficLight.new initialState).
Proof.
  intros Hdeclared.
  rewrite !traffic_sendAll_nexts.
  assert (Hcount : nexts (replicate (nexts events mod 3) "NEXT") = nexts events mod 3).
  { generalize (nexts events mod 3). intros n.
    induction n as [|n IH]; [reflexivity|].
    change (replicate (S n) "NEXT") with ("NEXT" :: replicate n "NEXT").
    rewrite nexts_cons, IH. reflexivity. }
  rewrite Hcount.
  replace (Nat.iter (nexts events) advance (TrafficLight.new initialState))
    with (Nat.iter (3 * (nexts events / 3) + nexts events mod 3) advance
            (TrafficLight.new initialState))
    by (f_equal; symmetry; apply Nat.div_mod_eq).
  apply traffic_iter_period, traffic_new_invariant, Hdeclared.
Qed.

Lemma traffic_light_counts_modulo_three_witness :
  TrafficLight.sendAll ["NEXT"; "STOP"; "NEXT"; "NEXT"; "NEXT"] (TrafficLight.new (Some "GREEN"))
  = TrafficLight.sendAll (replicate (nexts ["NEXT"; "STOP"; "NEXT"; "NEXT"; "NEXT"] mod 3) "NEXT")
      (TrafficLight.new (Some "GREEN")).
Proof.
  apply (traffic_light_counts_modulo_three (Some "GREEN")
           ["NEXT"; "STOP"; "NEXT"; "NEXT"; "NEXT"]).
  intros s [= <-]. apply list_elem_of_In. simpl. auto.
Defined.

(** X3. [getAction] is defined wherever the light can be: for a light
    created in a declared state (or in its default state), after any
    sequence of events, the state and the action are one of the pairs
    [RED]/정지, [YELLOW]/주의, [GREEN]/진행; the action is never
    [undefined]. *)
Theorem traffic_light_action_defined
    (initialState : option string) (events : list string) :
  (forall s, initialState = Some s -> s ∈ TrafficLight.declaredStates) ->
  let light := TrafficLight.sendAll events (TrafficLight.new initialState) in
  (TrafficLight.getState light = Some "RED" /\ TrafficLight.getAction light = Some "정지")
  \/ (TrafficLight.getState light = Some "YELLOW"
      /\ TrafficLight.getAction light = Some "주의")
  \/ (TrafficLight.getState light = Some "GREEN"
      /\ TrafficLight.getAction light = Some "진행").
Proof.
  intros Hdeclared light.
  destruct (traffic_sendAll_invariant events (TrafficLight.new initialState)
              (traffic_new_invariant initialState Hdeclared)) as [_ (s & Hcur & Hin)].
  fold light in Hcur. unfold TrafficLight.getState, TrafficLight.getAction.
  rewrite Hcur. apply list_elem_of_In in Hin. simpl in Hin.
  destruct Hin as [<- | [<- | [<- | []]]]; auto.
Qed.

Lemma traffic_light_action_defined_witness :
  let light := TrafficLight.sendAll ["NEXT"; "NEXT"] (TrafficLight.new None) in
  (TrafficLight.getState light = Some "RED" /\ TrafficLight.getAction light = Some "정지")
  \/ (TrafficLight.getState light = Some "YELLOW"
      /\ TrafficLight.getAction light = Some "주의")
  \/ (TrafficLight.getState light = Some "GREEN"
      /\ TrafficLight.getAction light = Some "진행").
Proof.
  apply (traffic_light_action_defined None ["NEXT"; "NEXT"]).
  intros s [=].
Defined.

(** ** The save file *)

(** X4. [parseSavedGame] reads the properties [level], [score], [lives] and
    [playerName] of the saved object and nothing else: adding any other
    property to the object, or changing one (the [savedAt] stamp written by
    [saveGame], for instance), does not change what it returns. *)
Theorem parseSavedGame_ignores_other_properties
    (fields : gmap string Js.Value) (key : string) (value : Js.Value) :
  key ∉ savedProperties ->
  GamePersistence.parseSavedGame (Js.Object (<[key := value]> fields))
  = GamePersistence.parseSavedGame (Js.Object fields).
Proof.
  intros Hother. unfold GamePersistence.parseSavedGame, Js.getProperty.
  change (GamePersistence.isRecord (Js.Object ?f)) with true. simpl.
  rewrite !lookup_insert_ne; [reflexivity|..];
    (intros ->; apply Hother, list_elem_of_In; simpl; auto).
Qed.

Lemma parseSavedGame_ignores_other_properties_witness :
  GamePersistence.parseSavedGame
    (Js.Object (<["savedAt" := Js.Number Js.NaN]> annotatedSave))
  = GamePersistence.parseSavedGame (Js.Object annotatedSave).
Proof.
  apply (parseSavedGame_ignores_other_properties annotatedSave "savedAt" (Js.Number Js.NaN)).
  intros Hin. apply list_elem_of_In in Hin. simpl in Hin.
  destruct Hin as [H | [H | [H | [H | []]]]]; discriminate H.
Defined.

(** X5. Loading after saving gives all or nothing.  On a disk that can be
    written, [loadSavedGame] after [saveGame context] returns exactly
    [context] when its three numbers are finite, and [null] otherwise (a
    number that is not finite is written as [null], and the file is then
    rejected); it never returns another context.  On a disk that cannot be
    written, the failure is caught, and what is loaded is what was there
    before. *)
Theorem save_then_load_all_or_nothing
    (ctx : GamePersistence.GameContext) (disk : GamePersistence.Disk) :
  GamePersistence.loadSavedGame (GamePersistence.saveGame ctx disk)
  = if GamePersistence.writable disk
    then (if allFinite ctx then Some ctx else None)
    else GamePersistence.loadSavedGame disk.
Proof.
  destruct disk as [file [] day]; [|reflexivity].
  destruct ctx as [[l| | |] [s| | |] [v| | |] name]; vm_compute; reflexivity.
Qed.

(** ** The order workflow (LangGraph) *)

(** X6. The router [shouldRetryPayment] returns one of three nodes, and it
    returns [ship_order] exactly when the order is not pending, or is
    pending with a retry count that is [NaN] (for which both comparisons
    with the maximum are false): a pending order with any other count is
    either retried or ended. *)
Theorem router_ships_unless_pending_with_a_count (state : OrderLangGraph.OrderGraphState) :
  (OrderLangGraph.shouldRetryPayment state = "process_payment"
   \/ OrderLangGraph.shouldRetryPayment state = OrderLangGraph.END
   \/ OrderLangGraph.shouldRetryPayment state = "ship_order")
  /\ (OrderLangGraph.shouldRetryPayment state = "ship_order" <->
      OrderLangGraph.orderStatus state <> "pending"
      \/ OrderLangGraph.retryCount state = Js.NaN).
Proof.
  unfold OrderLangGraph.shouldRetryPayment, OrderLangGraph.END,
    OrderLangGraph.MAX_PAYMENT_RETRIES.
  destruct (bool_decide (OrderLangGraph.orderStatus state = "pending")) eqn:Hpending.
  - apply bool_decide_eq_true in Hpending.
    destruct (OrderLangGraph.retryCount state) as [z| | |]; simpl.
    + unfold Js.ge, Js.le, Js.lt.
      destruct (bool_decide (z < 3)%Z) eqn:Hlt; simpl.
      * split; [auto|]. split; [discriminate | intros [? | ?]; [contradiction | discriminate]].
      * apply bool_decide_eq_false in Hlt.
        destruct (bool_decide (3 < z)%Z) eqn:Hgt; simpl.
        -- split; [auto|].
           split; [discriminate | intros [? | ?]; [contradiction | discriminate]].
        -- apply bool_decide_eq_false in Hgt.
           rewrite bool_decide_eq_true_2 by (f_equal; lia).
           split; [auto|].
           split; [discriminate | intros [? | ?]; [contradiction | discriminate]].
    + split; [auto|]. split; auto.
    + split; [auto|]. split; [discriminate | intros [? | ?]; [contradiction | discriminate]].
    + split; [auto|]. split; [discriminate | intros [? | ?]; [contradiction | discriminate]].
  - apply bool_decide_eq_false in Hpending. simpl. split; [auto|]. split; auto.
Qed.

Section MoreOrderWorkflow.

Import Js OrderLangGraph.

Ltac route_payment :=
  match goal with
  | |- context [shouldRetryPayment ?s] =>
      let v := eval vm_compute in (shouldRetryPayment s) in
      change (shouldRetryPayment s) with v
  end.

Ltac pay_once :=
  rewrite walk_payment;
  match goal with
  | |- context [processPaymentNode ?d ?s] =>
      destruct (payment_cases d s) as [[? ->] | [? ->]]; route_payment
  end.

Lemma invoke_outcome state rng :
  exists final ran,
    invoke state rng = Normal (final, ran)
    /\ length (messages final) = length (messages state) + length ran
    /\ (threeDeclined rng ->
        orderStatus final = "pending" /\ retryCount final = Finite 3
        /\ ran = ["create_order"; "confirm_order"]
                 ++ replicate 3 "process_payment")
    /\ (~ threeDeclined rng ->
        orderStatus final = "delivered"
        /\ exists failed : nat,
             failed < 3 /\ retryCount final = Finite (Z.of_nat failed)
             /\ ran = ["create_order"; "confirm_order"]
                      ++ replicate (S failed) "process_payment"
                      ++ ["ship_order"; "deliver_order"]).
Proof.
  unfold invoke, recursionLimit, threeDeclined, declines.
  change (nextNode "__start__" state) with "create_order".
  rewrite walk_create, walk_confirm.
  pay_once; [|pay_once; [|pay_once]];
    rewrite ?walk_ship, ?walk_deliver, walk_end;
    (eexists _, _; split; [reflexivity|]; split;
     [simpl; rewrite !length_app; simpl; lia|]).
  - split; [intros (? & _); simpl in *; congruence|].
    intros _. split; [reflexivity|]. exists 0. split; [lia|]. split; reflexivity.
  - split; [intros (_ & ? & _); simpl in *; congruence|].
    intros _. split; [reflexivity|]. exists 1. split; [lia|]. split; reflexivity.
  - split; [intros (_ & _ & ?); simpl in *; congruence|].
    intros _. split; [reflexivity|]. exists 2. split; [lia|]. split; reflexivity.
  - split; [intros _; repeat split; reflexivity|].
    intros Hnot. exfalso. apply Hnot. simpl in *. auto.
Qed.

End MoreOrderWorkflow.

(** X7. The order workflow, invoked on any state and with any draws of
    [Math.random()], ends without error, and every node that ran added
    exactly one message to the history.  If the next three draws all make
    the payment fail, the payment is tried three times and the workflow ends
    there, the order still [pending] (no node ever sets [canceled]) with a
    retry count of 3.  Otherwise the order is [delivered], after one more
    payment attempt than there were failures. *)
Theorem invoke_delivers_unless_three_declined
    (state : OrderLangGraph.OrderGraphState) (rng : OrderLangGraph.Random) :
  exists final ran,
    OrderLangGraph.invoke state rng = Js.Normal (final, ran)
    /\ length (OrderLangGraph.messages final)
       = length (OrderLangGraph.messages state) + length ran
    /\ (threeDeclined rng ->
        OrderLangGraph.orderStatus final = "pending"
        /\ OrderLangGraph.retryCount final = Js.Finite 3
        /\ ran = ["create_order"; "confirm_order"]
                 ++ replicate 3 "process_payment")
    /\ (~ threeDeclined rng ->
        OrderLangGraph.orderStatus final = "delivered"
        /\ exists failed : nat,
             failed < 3
             /\ OrderLangGraph.retryCount final = Js.Finite (Z.of_nat failed)
             /\ ran = ["create_order"; "confirm_order"]
                      ++ replicate (S failed) "process_payment"
                      ++ ["ship_order"; "deliver_order"]).
Proof. apply invoke_outcome. Qed.

Lemma invoke_delivers_unless_three_declined_witness :
  exists final ran,
    OrderLangGraph.invoke OrderLangGraph.initialState unlucky = Js.Normal (final, ran)
    /\ OrderLangGraph.orderStatus final = "pending"
    /\ OrderLangGraph.retryCount final = Js.Finite 3.
Proof.
  destruct (invoke_delivers_unless_three_declined OrderLangGraph.initialState unlucky)
    as (final & ran & Hrun & _ & Hthree & _).
  exists final, ran. split; [exact Hrun|].
  destruct Hthree as (Hstatus & Hcount & _); [repeat split; reflexivity|].
  split; [exact Hstatus | exact Hcount].
Defined.

(** ** The order workflow (Mastra) *)

Section MastraOrder.

Import Js OrderMastra.

Lemma paymentLoop_unfold rounds state (rng : Random) :
  paymentLoop (S rounds) state rng
  = if negb (bool_decide (orderStatus state = "paid"))
       && lt (retryCount state) MAX_PAYMENT_RETRIES
    then
      if negb (Qle_bool PAYMENT_SUCCESS_RATE
                 (OrderLangGraph.draws rng (OrderLangGraph.taken rng)))
      then Some (withOrderStatus "paid" (withOrderStatus "processing_payment" state),
                 {| OrderLangGraph.draws := OrderLangGraph.draws rng;
                    OrderLangGraph.taken := S (OrderLangGraph.taken rng) |})
      else paymentLoop rounds
             (withRetryCount (add (retryCount state) (Finite 1))
                (withOrderStatus "processing_payment" state))
             {| OrderLangGraph.draws := OrderLangGraph.draws rng;
                OrderLangGraph.taken := S (OrderLangGraph.taken rng) |}
    else Some (state, rng).
Proof. reflexivity. Qed.

Lemma paymentLoop_exit rounds state (rng : Random) :
  negb (bool_decide (orderStatus state = "paid"))
  && lt (retryCount state) MAX_PAYMENT_RETRIES = false ->
  paymentLoop rounds state rng = Some (state, rng).
Proof. intros Hexit. destruct rounds; simpl; by rewrite Hexit. Qed.

(** The loop ends within [3 - retryCount] rounds, each round taking one
    draw; it leaves the order paid, or unpaid with every one of these
    rounds used and declined. *)
Lemma paymentLoop_ends rounds : forall state (rng : Random) (z : Z),
  retryCount state = Finite z ->
  Z.to_nat (3 - z) <= rounds ->
  exists state' rng',
    paymentLoop rounds state rng = Some (state', rng')
    /\ OrderLangGraph.draws rng' = OrderLangGraph.draws rng
    /\ OrderLangGraph.taken rng <= OrderLangGraph.taken rng'
       <= OrderLangGraph.taken rng + Z.to_nat (3 - z)
    /\ orderId state' = orderId state /\ items state' = items state
    /\ total state' = total state
    /\ (orderStatus state' = "paid"
        \/ (orderStatus state' <> "paid"
            /\ OrderLangGraph.taken rng' = OrderLangGraph.taken rng + Z.to_nat (3 - z)
            /\ retryCount state' = Finite (Z.max z 3)
            /\ forall i, OrderLangGraph.taken rng <= i < OrderLangGraph.taken rng' ->
                         declines (OrderLangGraph.draws rng i))).
Proof.
  induction rounds as [|rounds IH]; intros state rng z Hcount Hrounds.
  - assert (Hz : (3 <= z)%Z) by lia.
    simpl. rewrite Hcount. simpl.
    rewrite (bool_decide_eq_false_2 (z < 3)%Z) by lia. rewrite andb_false_r.
    exists state, rng. replace (Z.to_nat (3 - z)) with 0 by lia.
    repeat split; try lia.
    destruct (decide (orderStatus state = "paid")) as [Hpaid | Hunpaid]; [by left|].
    right. repeat split; try done; try lia. rewrite Hcount. f_equal. lia.
  - rewrite paymentLoop_unfold.
    destruct (decide (orderStatus state = "paid")) as [Hpaid | Hunpaid].
    { rewrite (bool_decide_eq_true_2 _ Hpaid). simpl.
      exists state, rng. repeat split; try lia. by left. }
    rewrite (bool_decide_eq_false_2 _ Hunpaid). simpl. rewrite Hcount. simpl.
    destruct (decide (z < 3)%Z) as [Hlt | Hge].
    + rewrite (bool_decide_eq_true_2 _ Hlt).
      destruct (Qle_bool PAYMENT_SUCCESS_RATE _) eqn:Hdraw; simpl.
      * destruct (IH (withRetryCount (Finite (z + 1))
                        (withOrderStatus "processing_payment" state))
                     {| OrderLangGraph.draws := OrderLangGraph.draws rng;
                        OrderLangGraph.taken := S (OrderLangGraph.taken rng) |}
                     (z + 1)%Z eq_refl ltac:(lia))
          as (state' & rng' & -> & Hdraws & Htaken & Hid & Hitems & Htotal & Hend).
        simpl in *. exists state', rng'.
        split; [reflexivity|]. split; [exact Hdraws|]. split; [lia|].
        split; [exact Hid|]. split; [exact Hitems|]. split; [exact Htotal|].
        destruct Hend as [Hpaid | (Hunpaid' & Hall & Hfinal & Hdeclined)]; [by left|].
        right. split; [exact Hunpaid'|]. split; [lia|].
        split; [rewrite Hfinal; f_equal; lia|].
        intros i Hi. destruct (decide (i = OrderLangGraph.taken rng)) as [-> | Hne].
        -- exact Hdraw.
        -- apply Hdeclined. lia.
      * eexists _, _. split; [reflexivity|]. simpl.
        repeat split; try lia. by left.
    + rewrite (bool_decide_eq_false_2 _ Hge).
      exists state, rng. replace (Z.to_nat (3 - z)) with 0 by lia.
      repeat split; try lia. right. repeat split; try done; try lia.
      rewrite Hcount. f_equal. lia.
Qed.

End MastraOrder.

(** X8. The retry loop of the [processPayment] step ends.  For an order
    whose retry count is a whole number [z >= 0], the loop makes at most
    [3 - z] rounds (none if [z >= 3]), each round taking one draw of
    [Math.random()]; the step returns the order with its id, items and total
    untouched and its status either [paid] or [canceled], and it is
    [canceled] only when every one of these rounds was used and declined. *)
Theorem processPayment_ends_paid_or_canceled
    (rounds : nat) (state : OrderMastra.OrderState) (rng : OrderMastra.Random) (z : Z) :
  OrderMastra.retryCount state = Js.Finite z ->
  (0 <= z)%Z ->
  3 <= rounds ->
  exists final rng',
    OrderMastra.processPayment rounds state rng = Some (final, rng')
    /\ OrderLangGraph.taken rng <= OrderLangGraph.taken rng'
       <= OrderLangGraph.taken rng + Z.to_nat (3 - z)
    /\ OrderMastra.orderId final = OrderMastra.orderId state
    /\ OrderMastra.items final = OrderMastra.items state
    /\ OrderMastra.total final = OrderMastra.total state
    /\ (OrderMastra.orderStatus final = "paid"
        \/ (OrderMastra.orderStatus final = "canceled"
            /\ OrderLangGraph.taken rng' = OrderLangGraph.taken rng + Z.to_nat (3 - z)
            /\ forall i, OrderLangGraph.taken rng <= i < OrderLangGraph.taken rng' ->
                         declines (OrderLangGraph.draws rng i))).
Proof.
  intros Hcount Hwhole Hrounds.
  destruct (paymentLoop_ends rounds state rng z Hcount ltac:(lia))
    as (state' & rng' & Hloop & _ & Htaken & Hid & Hitems & Htotal & Hend).
  unfold OrderMastra.processPayment. rewrite Hloop.
  destruct Hend as [Hpaid | (Hunpaid & Hall & _ & Hdeclined)].
  - rewrite (bool_decide_eq_true_2 _ Hpaid). simpl.
    exists state', rng'. repeat split; try done; try lia. by left.
  - rewrite (bool_decide_eq_false_2 _ Hunpaid). simpl.
    eexists _, rng'. split; [reflexivity|]. simpl.
    repeat split; try done; try lia. right. repeat split; try done.
Qed.

Lemma processPayment_ends_paid_or_canceled_witness :
  exists final rng',
    OrderMastra.processPayment 3 (OrderMastra.createOrder OrderMastra.emptySeed) unlucky
    = Some (final, rng')
    /\ OrderLangGraph.taken rng' <= 3.
Proof.
  destruct (processPayment_ends_paid_or_canceled 3
              (OrderMastra.createOrder OrderMastra.emptySeed) unlucky 0)
    as (final & rng' & Hrun & Htaken & _).
  - reflexivity.
  - lia.
  - lia.
  - exists final, rng'. split; [exact Hrun|]. simpl in Htaken. lia.
Defined.

Section MastraWorkflow.

Import Js OrderMastra.

Ltac mastra_round :=
  rewrite paymentLoop_unfold;
  match goal with
  | |- context [negb (bool_decide (orderStatus ?s = "paid"))
                && lt (retryCount ?s) MAX_PAYMENT_RETRIES] =>
      let v := eval vm_compute in
        (negb (bool_decide (orderStatus s = "paid"))
         && lt (retryCount s) MAX_PAYMENT_RETRIES) in
      change (negb (bool_decide (orderStatus s = "paid"))
              && lt (retryCount s) MAX_PAYMENT_RETRIES) with v
  end;
  cbv iota; cbn [OrderLangGraph.draws OrderLangGraph.taken];
  change PAYMENT_SUCCESS_RATE with OrderLangGraph.PAYMENT_SUCCESS_RATE.

Ltac langgraph_pay :=
  rewrite walk_payment;
  match goal with
  | |- context [OrderLangGraph.processPaymentNode ?d ?s] =>
      destruct (payment_cases d s) as [[? ->] | [? ->]];
      match goal with
      | |- context [OrderLangGraph.shouldRetryPayment ?s'] =>
          let v := eval vm_compute in (OrderLangGraph.shouldRetryPayment s') in
          change (OrderLangGraph.shouldRetryPayment s') with v
      end
  end.

Ltac count_attempts :=
  cbn [OrderLangGraph.taken];
  match goal with
  | |- context [attempts ?ran] =>
      let v := eval vm_compute in (attempts ran) in change (attempts ran) with v
  end;
  lia.

Lemma workflows_agree (state : OrderLangGraph.OrderGraphState) (rng : Random) rounds :
  3 <= rounds ->
  exists final ran ordered rng',
    OrderLangGraph.invoke state rng = Normal (final, ran)
    /\ orderWorkflow rounds emptySeed rng = Some (ordered, rng')
    /\ OrderLangGraph.taken rng' = OrderLangGraph.taken rng + attempts ran
    /\ orderId ordered = OrderLangGraph.orderId final
    /\ items ordered = OrderLangGraph.items final
    /\ total ordered = OrderLangGraph.total final
    /\ retryCount ordered = OrderLangGraph.retryCount final
    /\ ((OrderLangGraph.orderStatus final = "delivered" /\ orderStatus ordered = "delivered")
        \/ (threeDeclined rng
            /\ OrderLangGraph.orderStatus final = "pending"
            /\ orderStatus ordered = "canceled")).
Proof.
  intros Hrounds.
  destruct rounds as [|[|[|rounds]]]; try lia. clear Hrounds.
  unfold OrderLangGraph.invoke, OrderLangGraph.recursionLimit.
  change (OrderLangGraph.nextNode "__start__" state) with "create_order".
  rewrite walk_create, walk_confirm.
  unfold orderWorkflow, processPayment, confirmOrder, threeDeclined.
  langgraph_pay; [|langgraph_pay; [|langgraph_pay]];
    rewrite ?walk_ship, ?walk_deliver, walk_end;
    unfold declines in *; cbn [OrderLangGraph.draws OrderLangGraph.taken] in *.
  - mastra_round. rewrite H. cbn [negb].
    eexists _, _, _, _. split; [reflexivity|]. split; [reflexivity|].
    split; [count_attempts|]. repeat (split; [reflexivity|]). left. split; reflexivity.
  - mastra_round. rewrite H. cbn [negb].
    mastra_round. rewrite H0. cbn [negb].
    eexists _, _, _, _. split; [reflexivity|]. split; [reflexivity|].
    split; [count_attempts|]. repeat (split; [reflexivity|]). left. split; reflexivity.
  - mastra_round. rewrite H. cbn [negb].
    mastra_round. rewrite H0. cbn [negb].
    mastra_round. rewrite H1. cbn [negb].
    eexists _, _, _, _. split; [reflexivity|]. split; [reflexivity|].
    split; [count_attempts|]. repeat (split; [reflexivity|]). left. split; reflexivity.
  - mastra_round. rewrite H. cbn [negb].
    mastra_round. rewrite H0. cbn [negb].
    mastra_round. rewrite H1. cbn [negb].
    rewrite paymentLoop_exit by reflexivity.
    eexists _, _, _, _. split; [reflexivity|]. split; [reflexivity|].
    split; [count_attempts|]. repeat (split; [reflexivity|]).
    right. repeat split; assumption || reflexivity.
Qed.

Lemma workflow_outcome (seed : OrderSeed) (rng : Random) rounds :
  3 <= rounds ->
  exists final rng',
    orderWorkflow rounds seed rng = Some (final, rng')
    /\ items final <> []
    /\ (forall item rest, items_opt seed = Some (item :: rest) -> items final = item :: rest)
    /\ orderId final = default "ORD-001" (orderId_opt seed)
    /\ total final = default (Finite 100) (total_opt seed)
    /\ (orderStatus final = "delivered" \/ orderStatus final = "canceled")
    /\ (orderStatus final = "canceled" <-> threeDeclined rng).
Proof.
  intros Hrounds.
  destruct rounds as [|[|[|rounds]]]; try lia. clear Hrounds.
  unfold orderWorkflow, processPayment, confirmOrder, threeDeclined, declines.
  assert (Hitems : items (createOrder seed) <> []
                   /\ forall item rest, items_opt seed = Some (item :: rest) ->
                                        items (createOrder seed) = item :: rest).
  { unfold createOrder. simpl. destruct (items_opt seed) as [[|item rest]|]; split; try done.
    intros item' rest' [= <- <-]. reflexivity. }
  destruct Hitems as [Hsome Hkept].
  mastra_round.
  destruct (Qle_bool OrderLangGraph.PAYMENT_SUCCESS_RATE
              (OrderLangGraph.draws rng (OrderLangGraph.taken rng))) eqn:H0; cbn [negb].
  2: { eexists _, _. split; [reflexivity|]. split; [exact Hsome|]. split; [exact Hkept|].
       split; [reflexivity|]. split; [reflexivity|].
       split; [by left|]. split; [discriminate | intros (? & _); congruence]. }
  mastra_round.
  destruct (Qle_bool OrderLangGraph.PAYMENT_SUCCESS_RATE
              (OrderLangGraph.draws rng (S (OrderLangGraph.taken rng)))) eqn:H1; cbn [negb].
  2: { eexists _, _. split; [reflexivity|]. split; [exact Hsome|]. split; [exact Hkept|].
       split; [reflexivity|]. split; [reflexivity|].
       split; [by left|]. split; [discriminate | intros (_ & ? & _); congruence]. }
  mastra_round.
  destruct (Qle_bool OrderLangGraph.PAYMENT_SUCCESS_RATE
              (OrderLangGraph.draws rng (S (S (OrderLangGraph.taken rng))))) eqn:H2;
    cbn [negb].
  2: { eexists _, _. split; [reflexivity|]. split; [exact Hsome|]. split; [exact Hkept|].
       split; [reflexivity|]. split; [reflexivity|].
       split; [by left|]. split; [discriminate | intros (_ & _ & ?); congruence]. }
  rewrite paymentLoop_exit by reflexivity.
  eexists _, _. split; [reflexivity|]. split; [exact Hsome|]. split; [exact Hkept|].
  split; [reflexivity|]. split; [reflexivity|].
  split; [by right|]. split; [auto | reflexivity].
Qed.

End MastraWorkflow.

(** X9. The Mastra workflow and the LangGraph workflow process an order
    alike.  Run on the same draws of [Math.random()], the Mastra workflow
    (started as the demonstration does, with an empty input, and allowed at
    least three rounds of its retry loop) and the LangGraph workflow both
    end, make the same number of payment attempts, and return the same
    order id, items, total and retry count.  Either both deliver the order,
    or the three draws all declined and they differ in the status they
    leave: the Mastra workflow says [canceled], the LangGraph workflow
    still says [pending]. *)
Theorem mastra_and_langgraph_orders_agree
    (state : OrderLangGraph.OrderGraphState) (rng : OrderLangGraph.Random) (rounds : nat) :
  3 <= rounds ->
  exists final ran ordered rng',
    OrderLangGraph.invoke state rng = Js.Normal (final, ran)
    /\ OrderMastra.orderWorkflow rounds OrderMastra.emptySeed rng = Some (ordered, rng')
    /\ OrderLangGraph.taken rng' = OrderLangGraph.taken rng + attempts ran
    /\ OrderMastra.orderId ordered = OrderLangGraph.orderId final
    /\ OrderMastra.items ordered = OrderLangGraph.items final
    /\ OrderMastra.total ordered = OrderLangGraph.total final
    /\ OrderMastra.retryCount ordered = OrderLangGraph.retryCount final
    /\ ((OrderLangGraph.orderStatus final = "delivered"
         /\ OrderMastra.orderStatus ordered = "delivered")
        \/ (threeDeclined rng
            /\ OrderLangGraph.orderStatus final = "pending"
            /\ OrderMastra.orderStatus ordered = "canceled")).
Proof. apply workflows_agree. Qed.

Lemma mastra_and_langgraph_orders_agree_witness :
  exists final ran ordered rng',
    OrderLangGraph.invoke OrderLangGraph.initialState unlucky = Js.Normal (final, ran)
    /\ OrderMastra.orderWorkflow 5 OrderMastra.emptySeed unlucky = Some (ordered, rng')
    /\ OrderMastra.retryCount ordered = OrderLangGraph.retryCount final.
Proof.
  destruct (mastra_and_langgraph_orders_agree OrderLangGraph.initialState unlucky 5)
    as (final & ran & ordered & rng' & Hinvoke & Hrun & _ & _ & _ & _ & Hcount & _).
  - lia.
  - exists final, ran, ordered, rng'. split; [exact Hinvoke|]. split; [exact Hrun | exact Hcount].
Defined.

(** X10. The Mastra workflow, given any input and at least three rounds for
    its retry loop, ends with an order that is [delivered] or [canceled],
    and is [canceled] exactly when the next three draws of [Math.random()]
    all declined.  [createOrder] takes the id, the items and the total from
    the input where they are given (an empty list of items counts as not
    given, so the order always has items) and ignores any status or retry
    count in it; [shipOrder] and [deliverOrder] pass a canceled order on
    untouched. *)
Theorem mastra_order_is_delivered_or_canceled
    (seed : OrderMastra.OrderSeed) (rng : OrderMastra.Random) (rounds : nat) :
  3 <= rounds ->
  exists final rng',
    OrderMastra.orderWorkflow rounds seed rng = Some (final, rng')
    /\ OrderMastra.items final <> []
    /\ (forall item rest, OrderMastra.items_opt seed = Some (item :: rest) ->
                          OrderMastra.items final = item :: rest)
    /\ OrderMastra.orderId final = default "ORD-001" (OrderMastra.orderId_opt seed)
    /\ OrderMastra.total final = default (Js.Finite 100) (OrderMastra.total_opt seed)
    /\ (OrderMastra.orderStatus final = "delivered"
        \/ OrderMastra.orderStatus final = "canceled")
    /\ (OrderMastra.orderStatus final = "canceled" <-> threeDeclined rng).
Proof. apply workflow_outcome. Qed.

Lemma mastra_order_is_delivered_or_canceled_witness :
  exists final rng',
    OrderMastra.orderWorkflow 3 paidSeed unlucky = Some (final, rng')
    /\ OrderMastra.items final <> []
    /\ OrderMastra.orderStatus final = "canceled".
Proof.
  destruct (mastra_order_is_delivered_or_canceled paidSeed unlucky 3)
    as (final & rng' & Hrun & Hitems & _ & _ & _ & _ & Hcanceled).
  - lia.
  - exists final, rng'. split; [exact Hrun|]. split; [exact Hitems|].
    apply Hcanceled. repeat split; reflexivity.
Defined.

(** ** The chatbot workflows *)

Section ChatbotGraph.

Import Js Llm ChatbotLangGraph.

Variable trim : string -> string.

Lemma chat_walk_validate n state model ran :
  walk trim (S n) "validate_input" state model ran
  = walk trim n (routeAfterValidation (validateInputNode trim state))
      (validateInputNode trim state) model (ran ++ ["validate_input"]).
Proof. reflexivity. Qed.

Lemma chat_walk_call n state model ran :
  walk trim (S n) "call_llm" state model ran
  = walk trim n (routeAfterLLMCall (fst (callLLMNode state model)))
      (fst (callLLMNode state model)) (snd (callLLMNode state model))
      (ran ++ ["call_llm"]).
Proof.
  change (walk trim (S n) "call_llm" state model ran)
    with (let '(state', model') := callLLMNode state model in
          walk trim n (routeAfterLLMCall state') state' model' (ran ++ ["call_llm"])).
  by destruct (callLLMNode state model).
Qed.

Lemma chat_walk_display n state model ran :
  walk trim (S n) "display_response" state model ran
  = walk trim n END state model (ran ++ ["display_response"]).
Proof. reflexivity. Qed.

Lemma chat_walk_failure n state model ran :
  walk trim (S n) "handle_failure" state model ran
  = walk trim n END (handleFailureNode state) model (ran ++ ["handle_failure"]).
Proof. reflexivity. Qed.

Lemma chat_walk_end n state model ran :
  walk trim n END state model ran = Normal (state, model, ran).
Proof. destruct n; reflexivity. Qed.

(** One call of the model: the answer is stored with the history, or the
    failure is counted. *)
Lemma callLLMNode_cases state model :
  callLLMNode state model
  = (match answers model (length (asked model))
             (question (conversationHistory state) (userMessage state)) with
     | Normal response =>
         {| userMessage := userMessage state;
            conversationHistory :=
              answered (conversationHistory state) (userMessage state) response;
            currentResponse := Some response;
            retryCount := retryCount state;
            status := "success" |}
     | Throw _ =>
         {| userMessage := userMessage state;
            conversationHistory := conversationHistory state;
            currentResponse := currentResponse state;
            retryCount := add (retryCount state) (Finite 1);
            status := "processing" |}
     end,
     {| answers := answers model;
        asked := asked model
                 ++ [question (conversationHistory state) (userMessage state)] |}).
Proof.
  unfold callLLMNode, callLLM, question, answered.
  by destruct (answers model _ _).
Qed.

Ltac call_model :=
  rewrite chat_walk_call, callLLMNode_cases;
  cbn [fst snd userMessage conversationHistory currentResponse retryCount status
       answers asked];
  match goal with
  | |- context [match answers ?m ?i ?q with _ => _ end] =>
      destruct (answers m i q) as [?response | ?oops]
  end;
  match goal with
  | |- context [routeAfterLLMCall ?s] =>
      let v := eval vm_compute in (routeAfterLLMCall s) in
      change (routeAfterLLMCall s) with v
  end.

Lemma chatbot_outcome message history model :
  exists final model' ran,
    invoke trim (initialState message history) model = Normal (final, model', ran)
    /\ userMessage final = message
    /\ (String.length (trim message) = 0 ->
        asked model' = asked model /\ status final = "failed"
        /\ conversationHistory final = history /\ currentResponse final = None
        /\ retryCount final = Finite 0 /\ ran = ["validate_input"])
    /\ (String.length (trim message) <> 0 ->
        exists calls,
          1 <= calls <= 3
          /\ asked model' = asked model ++ replicate calls (question history message)
          /\ ((status final = "success"
               /\ retryCount final = Finite (Z.of_nat calls - 1)
               /\ exists response,
                    currentResponse final = Some response
                    /\ conversationHistory final = answered history message response)
              \/ (status final = "failed" /\ calls = 3
                  /\ retryCount final = Finite 3
                  /\ currentResponse final = None
                  /\ conversationHistory final = history))).
Proof.
  unfold invoke, recursionLimit.
  change (nextNode "__start__" (initialState message history)) with "validate_input".
  rewrite chat_walk_validate. unfold validateInputNode.
  cbn [userMessage initialState].
  destruct (bool_decide (String.length (trim message) = 0)) eqn:Hblank.
  { apply bool_decide_eq_true in Hblank.
    change (routeAfterValidation _) with END. rewrite chat_walk_end.
    eexists _, _, _. split; [reflexivity|]. split; [reflexivity|].
    split; [intros _; repeat split; reflexivity | intros Hne; contradiction]. }
  apply bool_decide_eq_false in Hblank.
  change (routeAfterValidation _) with "call_llm".
  call_model.
  { rewrite chat_walk_display, chat_walk_end.
    eexists _, _, _. split; [reflexivity|]. split; [reflexivity|].
    split; [intros Heq; contradiction|]. intros _. exists 1. split; [lia|].
    split; [reflexivity|]. left. split; [reflexivity|]. split; [reflexivity|].
    eexists. split; reflexivity. }
  call_model.
  { rewrite chat_walk_display, chat_walk_end.
    eexists _, _, _. split; [reflexivity|]. split; [reflexivity|].
    split; [intros Heq; contradiction|]. intros _. exists 2. split; [lia|].
    split; [cbn [asked]; by rewrite <- app_assoc|].
    left. split; [reflexivity|]. split; [reflexivity|].
    eexists. split; reflexivity. }
  call_model.
  { rewrite chat_walk_display, chat_walk_end.
    eexists _, _, _. split; [reflexivity|]. split; [reflexivity|].
    split; [intros Heq; contradiction|]. intros _. exists 3. split; [lia|].
    split; [cbn [asked]; by rewrite <- !app_assoc|].
    left. split; [reflexivity|]. split; [reflexivity|].
    eexists. split; reflexivity. }
  rewrite chat_walk_failure, chat_walk_end.
  eexists _, _, _. split; [reflexivity|]. split; [reflexivity|].
  split; [intros Heq; contradiction|]. intros _. exists 3. split; [lia|].
  split; [cbn [asked]; by rewrite <- !app_assoc|].
  right. repeat split; reflexivity.
Qed.

End ChatbotGraph.

(** X11. The LangGraph chatbot, invoked as the demonstration does for a
    message and the conversation so far, ends without error, whatever the
    model answers.  A message that is empty once trimmed is refused without
    the model being called.  Any other message is put to the model at
    least once and at most three times, each time as the conversation so
    far followed by the message; the workflow ends in [success] as soon as
    a call answers, with the answer appended to the history after the
    message, or in [failed] after three failed calls, with the history as it
    was. *)
Theorem langgraph_chatbot_asks_at_most_three_times
    (trim : string -> string) (message : string) (history : list Llm.Message)
    (model : Llm.Model) :
  exists final model' ran,
    ChatbotLangGraph.invoke trim (ChatbotLangGraph.initialState message history) model
    = Js.Normal (final, model', ran)
    /\ ChatbotLangGraph.userMessage final = message
    /\ (String.length (trim message) = 0 ->
        Llm.asked model' = Llm.asked model
        /\ ChatbotLangGraph.status final = "failed"
        /\ ChatbotLangGraph.conversationHistory final = history
        /\ ChatbotLangGraph.currentResponse final = None
        /\ ChatbotLangGraph.retryCount final = Js.Finite 0
        /\ ran = ["validate_input"])
    /\ (String.length (trim message) <> 0 ->
        exists calls,
          1 <= calls <= 3
          /\ Llm.asked model'
             = Llm.asked model ++ replicate calls (question history message)
          /\ ((ChatbotLangGraph.status final = "success"
               /\ ChatbotLangGraph.retryCount final = Js.Finite (Z.of_nat calls - 1)
               /\ exists response,
                    ChatbotLangGraph.currentResponse final = Some response
                    /\ ChatbotLangGraph.conversationHistory final
                       = answered history message response)
              \/ (ChatbotLangGraph.status final = "failed" /\ calls = 3
                  /\ ChatbotLangGraph.retryCount final = Js.Finite 3
                  /\ ChatbotLangGraph.currentResponse final = None
                  /\ ChatbotLangGraph.conversationHistory final = history))).
Proof. apply chatbot_outcome. Qed.

Lemma langgraph_chatbot_asks_at_most_three_times_witness :
  exists final model' ran,
    ChatbotLangGraph.invoke keep (ChatbotLangGraph.initialState "Hello!" []) unavailable
    = Js.Normal (final, model', ran)
    /\ exists calls,
         1 <= calls <= 3
         /\ Llm.asked model' = replicate calls (question [] "Hello!").
Proof.
  destruct (langgraph_chatbot_asks_at_most_three_times keep "Hello!" [] unavailable)
    as (final & model' & ran & Hrun & _ & _ & Hasked).
  exists final, model', ran. split; [exact Hrun|].
  destruct Hasked as (calls & Hcalls & Hasked & _); [vm_compute; discriminate|].
  exists calls. split; [exact Hcalls | exact Hasked].
Defined.

Section ChatbotSteps.

Import Js Llm ChatbotMastra.

Variable trim : string -> string.

Lemma callLoop_unfold rounds success state model :
  callLoop (S rounds) success state model
  = if negb success && lt (retryCount state) MAX_LLM_RETRIES then
      match answers model (length (asked model))
              (question (conversationHistory state) (userMessage state)) with
      | Normal response =>
          callLoop rounds true
            {| userMessage := userMessage state;
               conversationHistory :=
                 answered (conversationHistory state) (userMessage state) response;
               currentResponse := Some response;
               retryCount := retryCount state;
               status := "success" |}
            {| answers := answers model;
               asked := asked model
                        ++ [question (conversationHistory state) (userMessage state)] |}
      | Throw _ =>
          callLoop rounds false
            (withRetryCount (add (retryCount state) (Finite 1)) state)
            {| answers := answers model;
               asked := asked model
                        ++ [question (conversationHistory state) (userMessage state)] |}
      end
    else Some (success, state, model).
Proof. reflexivity. Qed.

Lemma callLoop_exit rounds success state model :
  negb success && lt (retryCount state) MAX_LLM_RETRIES = false ->
  callLoop rounds success state model = Some (success, state, model).
Proof. intros Hexit. destruct rounds; simpl; by rewrite Hexit. Qed.

Lemma validateInput_of_message message history :
  validateInput trim (inputData message history)
  = if bool_decide (String.length (trim message) = 0) then
      {| userMessage := ""; conversationHistory := history; currentResponse := None;
         retryCount := Finite 0; status := "failed" |}
    else
      {| userMessage := trim message; conversationHistory := history;
         currentResponse := None; retryCount := Finite 0; status := "validating" |}.
Proof. reflexivity. Qed.

Ltac call_round :=
  rewrite callLoop_unfold;
  match goal with
  | |- context [negb ?b && lt (retryCount ?s) MAX_LLM_RETRIES] =>
      let v := eval vm_compute in (negb b && lt (retryCount s) MAX_LLM_RETRIES) in
      change (negb b && lt (retryCount s) MAX_LLM_RETRIES) with v
  end;
  cbv iota;
  cbn [userMessage conversationHistory currentResponse retryCount status
       withStatus withRetryCount answers asked];
  match goal with
  | |- context [match answers ?m ?i ?q with _ => _ end] =>
      destruct (answers m i q) as [?response | ?oops]
  end.

Lemma mastra_chatbot_outcome message history model rounds :
  3 <= rounds ->
  exists final model',
    chatWorkflow trim rounds (inputData message history) model = Some (final, model')
    /\ (String.length (trim message) = 0 ->
        asked model' = asked model /\ status final = "failed"
        /\ userMessage final = ""
        /\ conversationHistory final = history /\ currentResponse final = None
        /\ retryCount final = Finite 0)
    /\ (String.length (trim message) <> 0 ->
        userMessage final = trim message
        /\ exists calls,
             1 <= calls <= 3
             /\ asked model'
                = asked model ++ replicate calls (question history (trim message))
             /\ ((status final = "success"
                  /\ retryCount final = Finite (Z.of_nat calls - 1)
                  /\ exists response,
                       currentResponse final = Some response
                       /\ conversationHistory final
                          = answered history (trim message) response)
                 \/ (status final = "failed" /\ calls = 3
                     /\ retryCount final = Finite 3
                     /\ currentResponse final = None
                     /\ conversationHistory final = history))).
Proof.
  intros Hrounds.
  destruct rounds as [|[|[|rounds]]]; try lia. clear Hrounds.
  unfold chatWorkflow, displayResponse, callLLMStep, validateInput.
  cbn [inputData userMessage_opt conversationHistory_opt retryCount_opt default].
  destruct (bool_decide (String.length (trim message) = 0)) eqn:Hblank.
  { apply bool_decide_eq_true in Hblank. cbn [status].
    rewrite bool_decide_eq_true_2 by reflexivity.
    eexists _, _. split; [reflexivity|].
    split; [intros _; repeat split; reflexivity | intros Hne; contradiction]. }
  apply bool_decide_eq_false in Hblank. cbn [status truthy].
  rewrite (bool_decide_eq_false_2 ("validating" = "failed")) by discriminate.
  call_round.
  { rewrite callLoop_exit by reflexivity. cbn [negb].
    eexists _, _. split; [reflexivity|].
    split; [intros Heq; contradiction|]. intros _. split; [reflexivity|].
    exists 1. split; [lia|].
    split; [reflexivity|]. left. split; [reflexivity|]. split; [reflexivity|].
    eexists. split; reflexivity. }
  call_round.
  { rewrite callLoop_exit by reflexivity. cbn [negb].
    eexists _, _. split; [reflexivity|].
    split; [intros Heq; contradiction|]. intros _. split; [reflexivity|].
    exists 2. split; [lia|].
    split; [cbn [asked]; by rewrite <- app_assoc|].
    left. split; [reflexivity|]. split; [reflexivity|].
    eexists. split; reflexivity. }
  call_round.
  { rewrite callLoop_exit by reflexivity. cbn [negb].
    eexists _, _. split; [reflexivity|].
    split; [intros Heq; contradiction|]. intros _. split; [reflexivity|].
    exists 3. split; [lia|].
    split; [cbn [asked]; by rewrite <- !app_assoc|].
    left. split; [reflexivity|]. split; [reflexivity|].
    eexists. split; reflexivity. }
  rewrite callLoop_exit by reflexivity. cbn [negb].
  eexists _, _. split; [reflexivity|].
  split; [intros Heq; contradiction|]. intros _. split; [reflexivity|].
  exists 3. split; [lia|].
  split; [cbn [asked]; by rewrite <- !app_assoc|].
  right. repeat split; reflexivity.
Qed.

End ChatbotSteps.

(** X12. The Mastra chatbot, run as the demonstration does for a message
    and the conversation so far, and allowed at least three rounds of its
    retry loop, ends whatever the model answers.  A message that is empty
    once trimmed is refused without the model being called, and the state
    returned holds an empty message.  Any other message is stored trimmed,
    and put to the model, trimmed, at least once and at most three times;
    the workflow ends in [success] as soon as a call answers, with the
    message and the answer appended to the history, or in [failed] after
    three failed calls, with the history as it was. *)
Theorem mastra_chatbot_asks_at_most_three_times
    (trim : string -> string) (message : string) (history : list Llm.Message)
    (model : Llm.Model) (rounds : nat) :
  3 <= rounds ->
  exists final model',
    ChatbotMastra.chatWorkflow trim rounds (ChatbotMastra.inputData message history) model
    = Some (final, model')
    /\ (String.length (trim message) = 0 ->
        Llm.asked model' = Llm.asked model
        /\ ChatbotMastra.status final = "failed"
        /\ ChatbotMastra.userMessage final = ""
        /\ ChatbotMastra.conversationHistory final = history
        /\ ChatbotMastra.currentResponse final = None
        /\ ChatbotMastra.retryCount final = Js.Finite 0)
    /\ (String.length (trim message) <> 0 ->
        ChatbotMastra.userMessage final = trim message
        /\ exists calls,
             1 <= calls <= 3
             /\ Llm.asked model'
                = Llm.asked model ++ replicate calls (question history (trim message))
             /\ ((ChatbotMastra.status final = "success"
                  /\ ChatbotMastra.retryCount final = Js.Finite (Z.of_nat calls - 1)
                  /\ exists response,
                       ChatbotMastra.currentResponse final = Some response
                       /\ ChatbotMastra.conversationHistory final
                          = answered history (trim message) response)
                 \/ (ChatbotMastra.status final = "failed" /\ calls = 3
                     /\ ChatbotMastra.retryCount final = Js.Finite 3
                     /\ ChatbotMastra.currentResponse final = None
                     /\ ChatbotMastra.conversationHistory final = history))).
Proof. apply mastra_chatbot_outcome. Qed.

Lemma mastra_chatbot_asks_at_most_three_times_witness :
  exists final model',
    ChatbotMastra.chatWorkflow keep 3 (ChatbotMastra.inputData "Hello!" []) helpful
    = Some (final, model')
    /\ ChatbotMastra.userMessage final = "Hello!"
    /\ exists calls,
         1 <= calls <= 3
         /\ Llm.asked model' = replicate calls (question [] "Hello!").
Proof.
  destruct (mastra_chatbot_asks_at_most_three_times keep "Hello!" [] helpful 3)
    as (final & model' & Hrun & _ & Hasked).
  - lia.
  - exists final, model'. split; [exact Hrun|].
    destruct Hasked as (Hmessage & calls & Hcalls & Hasked & _); [vm_compute; discriminate|].
    split; [exact Hmessage|]. exists calls. split; [exact Hcalls | exact Hasked].
Defined.

Section ChatbotsAgree.

Import Js Llm.

Variable trim : string -> string.

Ltac graph_call H :=
  rewrite chat_walk_call, callLLMNode_cases;
  cbn [fst snd ChatbotLangGraph.userMessage ChatbotLangGraph.conversationHistory
       ChatbotLangGraph.currentResponse ChatbotLangGraph.retryCount
       ChatbotLangGraph.status ChatbotLangGraph.withStatus
       ChatbotLangGraph.initialState answers asked];
  match goal with
  | |- context [match answers ?m ?i ?q with _ => _ end] =>
      destruct (answers m i q) as [?response | ?oops] eqn:H
  end;
  match goal with
  | |- context [ChatbotLangGraph.routeAfterLLMCall ?s] =>
      let v := eval vm_compute in (ChatbotLangGraph.routeAfterLLMCall s) in
      change (ChatbotLangGraph.routeAfterLLMCall s) with v
  end.

Ltac step_call H :=
  rewrite callLoop_unfold;
  match goal with
  | |- context [negb ?b && lt (ChatbotMastra.retryCount ?s) ChatbotMastra.MAX_LLM_RETRIES] =>
      let v := eval vm_compute in
        (negb b && lt (ChatbotMastra.retryCount s) ChatbotMastra.MAX_LLM_RETRIES) in
      change (negb b && lt (ChatbotMastra.retryCount s) ChatbotMastra.MAX_LLM_RETRIES)
        with v
  end;
  cbv iota;
  cbn [ChatbotMastra.userMessage ChatbotMastra.conversationHistory
       ChatbotMastra.currentResponse ChatbotMastra.retryCount ChatbotMastra.status
       ChatbotMastra.withStatus ChatbotMastra.withRetryCount answers asked];
  rewrite H.

Lemma chatbots_agree message history model rounds :
  trim message = message ->
  3 <= rounds ->
  exists final model' ran,
    ChatbotLangGraph.invoke trim (ChatbotLangGraph.initialState message history) model
    = Normal (final, model', ran)
    /\ ChatbotMastra.chatWorkflow trim rounds (ChatbotMastra.inputData message history) model
       = Some (asChatState final, model').
Proof.
  intros Htrim Hrounds.
  destruct rounds as [|[|[|rounds]]]; try lia. clear Hrounds.
  unfold ChatbotLangGraph.invoke, ChatbotLangGraph.recursionLimit.
  change (ChatbotLangGraph.nextNode "__start__" (ChatbotLangGraph.initialState message history))
    with "validate_input".
  rewrite chat_walk_validate. unfold ChatbotLangGraph.validateInputNode.
  cbn [ChatbotLangGraph.userMessage ChatbotLangGraph.initialState].
  unfold ChatbotMastra.chatWorkflow, ChatbotMastra.displayResponse,
    ChatbotMastra.callLLMStep.
  rewrite validateInput_of_message, Htrim.
  destruct (bool_decide (String.length message = 0)) eqn:Hblank.
  { apply bool_decide_eq_true in Hblank.
    assert (message = "") as -> by (by destruct message).
    change (ChatbotLangGraph.routeAfterValidation _) with ChatbotLangGraph.END.
    rewrite chat_walk_end. cbn [ChatbotMastra.status].
    rewrite bool_decide_eq_true_2 by reflexivity.
    eexists _, _, _. split; reflexivity. }
  cbn [ChatbotMastra.status ChatbotMastra.withStatus ChatbotMastra.userMessage
       ChatbotMastra.conversationHistory ChatbotMastra.currentResponse
       ChatbotMastra.retryCount].
  rewrite (bool_decide_eq_false_2 ("validating" = "failed")) by discriminate.
  change (ChatbotLangGraph.routeAfterValidation _) with "call_llm".
  graph_call H1.
  { rewrite chat_walk_display, chat_walk_end.
    step_call H1. rewrite callLoop_exit by reflexivity.
    eexists _, _, _. split; reflexivity. }
  graph_call H2.
  { rewrite chat_walk_display, chat_walk_end.
    step_call H1. step_call H2. rewrite callLoop_exit by reflexivity.
    eexists _, _, _. split; reflexivity. }
  graph_call H3.
  { rewrite chat_walk_display, chat_walk_end.
    step_call H1. step_call H2. step_call H3. rewrite callLoop_exit by reflexivity.
    eexists _, _, _. split; reflexivity. }
  rewrite chat_walk_failure, chat_walk_end.
  step_call H1. step_call H2. step_call H3. rewrite callLoop_exit by reflexivity.
  eexists _, _, _. split; reflexivity.
Qed.

End ChatbotsAgree.

(** X13. The two chatbot workflows agree on a message that trimming leaves
    as it is.  Given the same message, conversation and model, the
    LangGraph workflow and the Mastra workflow (allowed at least three
    rounds of its retry loop) both end, put the same questions to the
    model, and return the same message, history, response, retry count and
    status. *)
Theorem chatbot_workflows_agree
    (trim : string -> string) (message : string) (history : list Llm.Message)
    (model : Llm.Model) (rounds : nat) :
  trim message = message ->
  3 <= rounds ->
  exists final model' ran,
    ChatbotLangGraph.invoke trim (ChatbotLangGraph.initialState message history) model
    = Js.Normal (final, model', ran)
    /\ ChatbotMastra.chatWorkflow trim rounds (ChatbotMastra.inputData message history) model
       = Some (asChatState final, model').
Proof. apply chatbots_agree. Qed.

Lemma chatbot_workflows_agree_witness :
  exists final model' ran,
    ChatbotLangGraph.invoke keep (ChatbotLangGraph.initialState "Hello!" []) unavailable
    = Js.Normal (final, model', ran)
    /\ ChatbotMastra.chatWorkflow keep 4 (ChatbotMastra.inputData "Hello!" []) unavailable
       = Some (asChatState final, model').
Proof.
  apply (chatbot_workflows_agree keep "Hello!" [] unavailable 4).
  - reflexivity.
  - lia.
Defined.

(** ** The machine core: more on events and timers *)

(** The resolver only returns transitions declared for the current state
    and the trigger that occurred. *)
Lemma resolve_candidate {State Context Payload World : Type} `{EqDecision State}
    (machine : Statechart.Machine State Context Payload World)
    occurred event actor world t world' :
  Statechart.resolve machine occurred event actor world = (Some t, world') ->
  t ∈ Statechart.transitions machine
  /\ Statechart.source t = Statechart.value actor
  /\ Statechart.trigger t = occurred.
Proof.
  unfold Statechart.resolve, Statechart.candidates. intros Hres.
  apply firstEnabled_sound in Hres as (skipped & rest & world1 & Hsplit & _).
  assert (Hin : t ∈ skipped ++ t :: rest) by (apply elem_of_app; right; left).
  rewrite <- Hsplit in Hin. apply list_elem_of_filter in Hin as [[Hsource Htrigger] Hin].
  auto.
Qed.

(** A machine that is not running ignores what is delivered to it. *)
Lemma deliver_halted {State Context Payload World : Type} `{EqDecision State}
    (machine : Statechart.Machine State Context Payload World) event actor world :
  Statechart.status actor <> Statechart.Running ->
  Statechart.deliver machine event actor world = (actor, world).
Proof.
  intros Hhalted. unfold Statechart.deliver.
  by destruct (decide (Statechart.status actor = Statechart.Running)).
Qed.

Lemma filter_none {A : Type} (P : A -> Prop) `{forall x, Decision (P x)} (l : list A) :
  (forall x, x ∈ l -> ~ P x) -> filter P l = [].
Proof.
  induction l as [|x l IH]; intros Hnone; [reflexivity|].
  rewrite filter_cons_False by (apply Hnone; left).
  apply IH. intros y Hy. apply Hnone. by right.
Qed.

Section SingleTimer.

Import Statechart.

Context {State Context Payload World : Type} `{EqDecision State}.

Variable machine : Statechart.Machine State Context Payload World.

(** While no timer is due, only the clock moves. *)
Lemma elapse_quiet (ms : N) (actor : Statechart.Actor State Context) (world : World) :
  (forall tm, tm ∈ pending actor -> (clock actor + ms < due tm)%N) ->
  elapse machine ms actor world
  = ({| status := status actor; value := value actor; context := context actor;
        clock := (clock actor + ms)%N; generation := generation actor;
        pending := pending actor |}, world).
Proof.
  unfold elapse. revert actor world.
  induction ms as [|ms IH] using N.peano_ind; intros actor world Hquiet.
  - simpl. destruct actor; simpl. by rewrite N.add_0_r.
  - rewrite N.iter_succ, IH by (intros tm Htm; specialize (Hquiet tm Htm); lia).
    unfold tick. cbn [fst snd status value context clock generation pending].
    rewrite filter_none.
    + simpl. by rewrite N.add_succ_r, N.add_1_r.
    + intros tm Htm. specialize (Hquiet tm Htm). simpl. lia.
Qed.

(** The only pending timer expires when its delay has passed, and not
    before: the expiry is then delivered to the machine. *)
Lemma elapse_single_timer (ms : N) (tm : Statechart.Timer State)
    (actor : Statechart.Actor State Context) (world : World) :
  pending actor = [tm] ->
  due tm = (clock actor + ms)%N ->
  (0 < ms)%N ->
  elapse machine ms actor world
  = deliver machine (Elapsed (delay tm))
      {| status := status actor; value := value actor; context := context actor;
         clock := (clock actor + ms)%N; generation := generation actor;
         pending := [] |} world.
Proof.
  intros Hpending Hdue Hpositive.
  replace ms with (N.succ (N.pred ms)) at 1 by lia.
  unfold elapse. rewrite N.iter_succ.
  fold (elapse machine (N.pred ms) actor world).
  rewrite elapse_quiet.
  2: { intros other Hin. rewrite Hpending in Hin.
       apply list_elem_of_singleton in Hin as ->. lia. }
  unfold tick. cbn [fst snd status value context clock generation pending].
  rewrite Hpending.
  replace (N.pred ms + 1)%N with ms by lia.
  replace (clock actor + N.pred ms + 1)%N with (clock actor + ms)%N by lia.
  rewrite filter_cons_True by (simpl; lia). rewrite filter_nil.
  cbn [foldl fst snd]. unfold fire.
  cbn [status value context clock generation pending].
  destruct (decide (tm ∈ [tm])) as [_ | Hout]; [|exfalso; apply Hout; left].
  rewrite filter_cons_False by (intros Hne; by apply Hne). by rewrite filter_nil.
Qed.

End SingleTimer.

(** ** The game machine, event by event *)

Section GameEvents.

Import Js Statechart GamePersistence.

Ltac resolve_now :=
  match goal with
  | |- context [resolve ?m ?o ?e ?a ?w] =>
      let v := eval vm_compute in (resolve m o e a w) in
      replace (resolve m o e a w) with v by (vm_compute; reflexivity)
  end;
  cbv beta iota zeta.

Ltac settle_in_playing :=
  match goal with
  | |- context [settle gameMachine (patience gameMachine) ?e
                  {| status := Running; value := "playing"; context := ?ctx;
                     clock := ?c; generation := ?g; pending := ?p |} ?w] =>
      let Hsettled := fresh "Hsettled" in
      pose proof (settle_playing e ctx c g p w) as Hsettled;
      cbv zeta in Hsettled;
      destruct Hsettled as (Hvalue & Hcontext & Hstatus & Hworld)
  end.

Lemma playing_earn_points points ctx c g p (disk : Disk) :
  let after := send gameMachine (EARN_POINTS points) (gameIn "playing" ctx c g p) disk in
  context (fst after)
  = {| level := level ctx;
       score := add (score ctx) (if truthy points then points else Finite 100);
       lives := lives ctx; playerName := playerName ctx |}
  /\ value (fst after) = (if le (lives ctx) (Finite 0) then "gameOver" else "playing")
  /\ snd after = disk.
Proof.
  unfold send, gameIn. rewrite deliver_running by reflexivity.
  resolve_now.
  match goal with
  | |- context [take ?m ?t ?e ?a ?w] =>
      replace (take m t e a w)
        with ({| status := Running; value := "playing";
                 context :=
                   {| level := level ctx;
                      score := add (score ctx) (if truthy points then points else Finite 100);
                      lives := lives ctx; playerName := playerName ctx |};
                 clock := c; generation := g; pending := p |}, disk)
        by (vm_compute; reflexivity)
  end.
  cbv beta iota zeta.
  settle_in_playing. auto.
Qed.

Lemma playing_lose_life ctx c g p (disk : Disk) :
  let after := send gameMachine LOSE_LIFE (gameIn "playing" ctx c g p) disk in
  context (fst after)
  = {| level := level ctx; score := score ctx;
       lives := sub (lives ctx) (Finite 1); playerName := playerName ctx |}
  /\ value (fst after)
     = (if le (sub (lives ctx) (Finite 1)) (Finite 0) then "gameOver" else "playing")
  /\ snd after = disk.
Proof.
  unfold send, gameIn. rewrite deliver_running by reflexivity.
  resolve_now.
  match goal with
  | |- context [take ?m ?t ?e ?a ?w] =>
      replace (take m t e a w)
        with ({| status := Running; value := "playing";
                 context :=
                   {| level := level ctx; score := score ctx;
                      lives := sub (lives ctx) (Finite 1);
                      playerName := playerName ctx |};
                 clock := c; generation := g; pending := p |}, disk)
        by (vm_compute; reflexivity)
  end.
  cbv beta iota zeta.
  settle_in_playing. auto.
Qed.

End GameEvents.

(** X14. In [playing], [EARN_POINTS] adds the points of the event to the
    score, and adds 100 instead when the points are 0 or [NaN]
    ([points || 100]); nothing else changes, and the game stays in
    [playing] (as long as [lives <= 0] is false, which holds whenever the
    machine is in [playing]).  This is stated for a score and points that
    are whole numbers of magnitude at most [2^53], [NaN] or infinite, and
    whose sum is in that range again: there the addition of doubles is
    exact. *)
Theorem earn_points_defaults_to_hundred
    (points : Js.number) (ctx : GamePersistence.GameContext)
    (c g : N) (p : list (Statechart.Timer string)) (disk : GamePersistence.Disk) :
  Js.le (GamePersistence.lives ctx) (Js.Finite 0) = false ->
  representable (GamePersistence.score ctx) ->
  representable points ->
  representable
    (Js.add (GamePersistence.score ctx)
       (if Js.truthy points then points else Js.Finite 100)) ->
  let after :=
    Statechart.send GamePersistence.gameMachine (GamePersistence.EARN_POINTS points)
      (gameIn "playing" ctx c g p) disk in
  Statechart.value (fst after) = "playing"
  /\ GamePersistence.score (Statechart.context (fst after))
     = Js.add (GamePersistence.score ctx)
         (if Js.truthy points then points else Js.Finite 100)
  /\ representable (GamePersistence.score (Statechart.context (fst after)))
  /\ GamePersistence.level (Statechart.context (fst after)) = GamePersistence.level ctx
  /\ GamePersistence.lives (Statechart.context (fst after)) = GamePersistence.lives ctx
  /\ GamePersistence.playerName (Statechart.context (fst after))
     = GamePersistence.playerName ctx
  /\ snd after = disk.
Proof.
  intros Halive _ _ Hsum after.
  destruct (playing_earn_points points ctx c g p disk) as (Hcontext & Hvalue & Hdisk).
  fold after in Hcontext, Hvalue, Hdisk.
  rewrite Halive in Hvalue. rewrite Hcontext. repeat split; assumption || reflexivity.
Qed.

Lemma earn_points_defaults_to_hundred_witness :
  let after :=
    Statechart.send GamePersistence.gameMachine (GamePersistence.EARN_POINTS (Js.Finite 0))
      (gameIn "playing" lastLife 0 1 []) emptyDisk in
  Statechart.value (fst after) = "playing"
  /\ GamePersistence.score (Statechart.context (fst after)) = Js.Finite 1300.
Proof.
  destruct (earn_points_defaults_to_hundred (Js.Finite 0) lastLife 0 1 [] emptyDisk)
    as (Hvalue & Hscore & _).
  - reflexivity.
  - simpl. lia.
  - simpl. lia.
  - simpl. lia.
  - split; [exact Hvalue | exact Hscore].
Defined.

(** X15. In [playing], [LOSE_LIFE] takes one life, and the eventless check
    that follows moves the machine to [gameOver] exactly when the lives
    left are [<= 0]; otherwise it stays in [playing].  Level, score, player
    name and save file are untouched.  This is stated for lives that are a
    whole number of magnitude at most [2^53], [NaN] or infinite, and that
    are in that range again with one life less: there the subtraction of
    doubles is exact. *)
Theorem losing_the_last_life_ends_the_game
    (ctx : GamePersistence.GameContext)
    (c g : N) (p : list (Statechart.Timer string)) (disk : GamePersistence.Disk) :
  representable (GamePersistence.lives ctx) ->
  representable (Js.sub (GamePersistence.lives ctx) (Js.Finite 1)) ->
  let after :=
    Statechart.send GamePersistence.gameMachine GamePersistence.LOSE_LIFE
      (gameIn "playing" ctx c g p) disk in
  Statechart.context (fst after)
  = {| GamePersistence.level := GamePersistence.level ctx;
       GamePersistence.score := GamePersistence.score ctx;
       GamePersistence.lives := Js.sub (GamePersistence.lives ctx) (Js.Finite 1);
       GamePersistence.playerName := GamePersistence.playerName ctx |}
  /\ Statechart.value (fst after)
     = (if Js.le (Js.sub (GamePersistence.lives ctx) (Js.Finite 1)) (Js.Finite 0)
        then "gameOver" else "playing")
  /\ snd after = disk.
Proof. intros _ _. apply playing_lose_life. Qed.

Lemma losing_the_last_life_ends_the_game_witness :
  let after :=
    Statechart.send GamePersistence.gameMachine GamePersistence.LOSE_LIFE
      (gameIn "playing" lastLife 0 1 []) emptyDisk in
  GamePersistence.lives (Statechart.context (fst after)) = Js.Finite 0
  /\ Statechart.value (fst after) = "gameOver".
Proof.
  destruct (losing_the_last_life_ends_the_game lastLife 0 1 [] emptyDisk)
    as (Hcontext & Hvalue & _).
  - simpl. lia.
  - simpl. lia.
  - split; [by rewrite Hcontext | exact Hvalue].
Defined.

Section GameSaving.

Import Js Statechart GamePersistence.

Ltac resolve_here :=
  match goal with
  | |- context [resolve ?m ?o ?e ?a ?w] =>
      let v := eval vm_compute in (resolve m o e a w) in
      replace (resolve m o e a w) with v by (vm_compute; reflexivity)
  end;
  cbv beta iota zeta.

Lemma save_from origin saving ctx c g (disk : Disk) :
  (origin = "paused" /\ saving = "savingFromPaused")
  \/ (origin = "playing" /\ saving = "savingFromPlaying") ->
  send gameMachine SAVE (gameIn origin ctx c g []) disk
  = ({| status := Running; value := saving; context := ctx; clock := c;
        generation := (g + 1)%N;
        pending := [{| owner := saving; delay := 1000; due := (c + 1000)%N;
                       armedAt := (g + 1)%N |}] |},
     saveGame ctx disk).
Proof.
  intros [[-> ->] | [-> ->]];
    unfold send, gameIn; rewrite deliver_running by reflexivity;
    resolve_here;
    match goal with
    | |- context [take ?m ?t ?e ?a ?w] =>
        match goal with
        | |- _ = (?after, ?disk') =>
            replace (take m t e a w) with (after, disk') by (vm_compute; reflexivity)
        end
    end;
    cbv beta iota zeta;
    (apply settle_elsewhere; [apply list_elem_of_In; simpl; tauto | discriminate]).
Qed.

Lemma saved_returns origin saving ctx c g (disk : Disk) :
  (origin = "paused" /\ saving = "savingFromPaused")
  \/ (origin = "playing" /\ saving = "savingFromPlaying") ->
  le (lives ctx) (Finite 0) = false ->
  let back :=
    deliver gameMachine (Elapsed 1000)
      {| status := Running; value := saving; context := ctx; clock := c;
         generation := g; pending := [] |} disk in
  value (fst back) = origin /\ context (fst back) = ctx /\ snd back = disk
  /\ pending (fst back) = [].
Proof.
  intros [[-> ->] | [-> ->]] Halive;
    cbv zeta; rewrite deliver_running by reflexivity;
    resolve_here.
  - match goal with
    | |- context [take ?m ?t ?e ?a ?w] =>
        replace (take m t e a w)
          with ({| status := Running; value := "paused"; context := ctx; clock := c;
                   generation := (g + 1)%N; pending := [] |}, disk)
          by (vm_compute; reflexivity)
    end.
    cbv beta iota zeta.
    rewrite settle_elsewhere by (first [apply list_elem_of_In; simpl; tauto | discriminate]).
    auto.
  - match goal with
    | |- context [take ?m ?t ?e ?a ?w] =>
        replace (take m t e a w)
          with ({| status := Running; value := "playing"; context := ctx; clock := c;
                   generation := (g + 1)%N; pending := [] |}, disk)
          by (vm_compute; reflexivity)
    end.
    cbv beta iota zeta.
    match goal with
    | |- context [settle gameMachine (patience gameMachine) ?e
                    {| status := Running; value := "playing"; context := ?x;
                       clock := ?k; generation := ?n; pending := ?q |} ?w] =>
        pose proof (settle_playing e x k n q w) as Hsettled
    end.
    cbv zeta in Hsettled. destruct Hsettled as (Hvalue & Hcontext & Hstatus & Hworld).
    rewrite Halive in Hvalue.
    split; [exact Hvalue|]. split; [exact Hcontext|]. split; [exact Hworld|].
    revert Hvalue. change (patience gameMachine) with 7.
    cbn [settle status]. destruct (decide (Running = Running)); [|contradiction].
    unfold resolve. cbn [value context].
    replace (candidates gameMachine "playing" Always) with [outOfLives]
      by (vm_compute; reflexivity).
    cbn [firstEnabled guard outOfLives]. unfold pure. rewrite Halive. reflexivity.
Qed.

Lemma saving_round origin saving ctx c g (disk : Disk) :
  (origin = "paused" /\ saving = "savingFromPaused")
  \/ (origin = "playing" /\ saving = "savingFromPlaying") ->
  le (lives ctx) (Finite 0) = false ->
  savesAndReturns origin saving ctx c g disk.
Proof.
  intros Hfrom Halive. unfold savesAndReturns. cbv zeta.
  rewrite (save_from origin saving ctx c g disk Hfrom). cbn [fst snd].
  split; [reflexivity|]. split; [reflexivity|]. split; [reflexivity|]. split.
  - intros ms Hms. rewrite elapse_quiet; [reflexivity|].
    intros tm Htm. cbn [pending clock] in *.
    apply list_elem_of_singleton in Htm as ->. simpl. lia.
  - rewrite (elapse_single_timer gameMachine 1000
               {| owner := saving; delay := 1000; due := (c + 1000)%N;
                  armedAt := (g + 1)%N |}); [|reflexivity|reflexivity|lia].
    cbn [status value context clock generation delay].
    apply (saved_returns origin saving ctx (c + 1000)%N (g + 1)%N
             (saveGame ctx disk) Hfrom Halive).
Qed.

End GameSaving.

(** X16. Saving returns the game to where it came from.  A game in [paused]
    or in [playing] that is sent [SAVE] writes its context to the save
    file on entering the saving state; it stays in that state as long as
    less than 1000 ms have passed, and after 1000 ms it is back in the state
    the [SAVE] was sent in ([paused] after [savingFromPaused], [playing]
    after [savingFromPlaying]) with its context unchanged and no timer
    left. *)
Theorem saving_returns_to_where_it_came_from
    (ctx : GamePersistence.GameContext) (c g : N) (disk : GamePersistence.Disk) :
  Js.le (GamePersistence.lives ctx) (Js.Finite 0) = false ->
  savesAndReturns "paused" "savingFromPaused" ctx c g disk
  /\ savesAndReturns "playing" "savingFromPlaying" ctx c g disk.
Proof.
  intros Halive. split; apply saving_round; auto.
Qed.

Lemma saving_returns_to_where_it_came_from_witness :
  savesAndReturns "paused" "savingFromPaused" lastLife 2500 3 emptyDisk
  /\ savesAndReturns "playing" "savingFromPlaying" lastLife 2500 3 emptyDisk.
Proof.
  apply (saving_returns_to_where_it_came_from lastLife 2500 3 emptyDisk).
  reflexivity.
Defined.

(** X17. After a game over only [RESTART] is accepted: every other event
    leaves the machine in [gameOver] as it was.  [RESTART] leads to the menu
    with the final context kept, and [NEW_GAME] then starts at level 1 with
    score 0 and 3 lives whatever they were, keeping the player name. *)
Theorem game_over_accepts_only_restart
    (ctx : GamePersistence.GameContext)
    (c g : N) (p : list (Statechart.Timer string)) (disk : GamePersistence.Disk) :
  (forall payload,
     GamePersistence.eventType payload <> "RESTART" ->
     Statechart.send GamePersistence.gameMachine payload (gameIn "gameOver" ctx c g p) disk
     = (gameIn "gameOver" ctx c g p, disk))
  /\ (let menu :=
        Statechart.send GamePersistence.gameMachine GamePersistence.RESTART
          (gameIn "gameOver" ctx c g p) disk in
      Statechart.value (fst menu) = "menu" /\ Statechart.context (fst menu) = ctx)
  /\ (let fresh :=
        Statechart.sendAll GamePersistence.gameMachine
          [GamePersistence.RESTART; GamePersistence.NEW_GAME]
          (gameIn "gameOver" ctx c g p) disk in
      Statechart.value (fst fresh) = "playing"
      /\ Statechart.context (fst fresh)
         = {| GamePersistence.level := Js.Finite 1; GamePersistence.score := Js.Finite 0;
              GamePersistence.lives := Js.Finite 3;
              GamePersistence.playerName := GamePersistence.playerName ctx |}
      /\ snd fresh = disk).
Proof.
  split; [|split].
  - intros payload Hother.
    destruct payload; try (exfalso; apply Hother; reflexivity); vm_compute; reflexivity.
  - split; vm_compute; reflexivity.
  - repeat split; vm_compute; reflexivity.
Qed.

Lemma game_over_accepts_only_restart_witness :
  Statechart.send GamePersistence.gameMachine GamePersistence.NEW_GAME
    (gameIn "gameOver" lastLife 0 1 []) emptyDisk
  = (gameIn "gameOver" lastLife 0 1 [], emptyDisk).
Proof.
  apply (game_over_accepts_only_restart lastLife 0 1 [] emptyDisk).
  discriminate.
Defined.

(** ** The chat machine: the retry budget *)

Section ChatBudget.

Import Js Statechart LlmChat.

Lemma chat_next_message ctx c g (calls : Calls) text :
  send chatMachine (SEND_MESSAGE text) (chatIn "success" ctx c g) calls
  = ({| status := Running; value := "calling_llm";
        context := {| message := text; response := None; error := None;
                      retryCount := retryCount ctx |};
        clock := c; generation := (g + 1)%N; pending := [] |},
     calls ++ [text]).
Proof. destruct ctx. vm_compute. reflexivity. Qed.

Lemma chat_call_fails ctx c g (calls : Calls) oops :
  send chatMachine (ErrorInvoke oops) (chatIn "calling_llm" ctx c g) calls
  = ({| status := Running; value := "error";
        context := {| message := message ctx; response := response ctx;
                      error := Some oops; retryCount := retryCount ctx |};
        clock := c; generation := (g + 1)%N;
        pending := [{| owner := "error"; delay := 1500; due := (c + 1500)%N;
                       armedAt := (g + 1)%N |}] |},
     calls).
Proof. destruct ctx. vm_compute. reflexivity. Qed.

Lemma chat_budget_carries_over ctx c g (calls : Calls) text oops :
  let asking := send chatMachine (SEND_MESSAGE text) (chatIn "success" ctx c g) calls in
  value (fst asking) = "calling_llm"
  /\ message (context (fst asking)) = text
  /\ retryCount (context (fst asking)) = retryCount ctx
  /\ snd asking = calls ++ [text]
  /\ (lt (retryCount ctx) (Finite 3) = false ->
      let waiting := send chatMachine (ErrorInvoke oops) (fst asking) (snd asking) in
      let later := elapse chatMachine 1500 (fst waiting) (snd waiting) in
      value (fst later) = "failed" /\ status (fst later) = Done
      /\ snd later = calls ++ [text]).
Proof.
  cbv zeta. rewrite chat_next_message. cbn [fst snd value context message retryCount].
  repeat (split; [reflexivity|]).
  intros Hspent.
  match goal with
  | |- context [send chatMachine (ErrorInvoke oops) ?a ?w] =>
      change a with (chatIn "calling_llm"
                       {| message := text; response := None; error := None;
                          retryCount := retryCount ctx |} c (g + 1)%N)
  end.
  rewrite chat_call_fails. cbn [fst snd message response retryCount].
  rewrite (elapse_single_timer chatMachine 1500
             {| owner := "error"; delay := 1500; due := (c + 1500)%N;
                armedAt := (g + 1 + 1)%N |}); [|reflexivity|reflexivity|lia].
  cbn [status value context clock generation delay].
  match goal with
  | |- context [deliver chatMachine (Elapsed 1500) ?a ?w] =>
      destruct (chat_timer_gives_up a w eq_refl eq_refl Hspent)
        as (Hvalue & Hstatus & _ & Hcalls)
  end.
  auto.
Qed.

End ChatBudget.

(** X18. In the chat machine of [llm-chat.ts] the retries used for one
    message are not given back for the next.  [SEND_MESSAGE] in [success]
    starts a call for the new message but, unlike [SEND_MESSAGE] in [idle],
    leaves [retryCount] as it is.  So when the previous answer took three
    retries, the first failure of the new call is final: 1500 ms later the
    machine is in [failed], having called the model once for that
    message. *)
Theorem retry_budget_carries_over_to_next_message
    (ctx : LlmChat.ChatContext) (c g : N) (calls : LlmChat.Calls) (text oops : string) :
  let asking :=
    Statechart.send LlmChat.chatMachine (LlmChat.SEND_MESSAGE text)
      (chatIn "success" ctx c g) calls in
  Statechart.value (fst asking) = "calling_llm"
  /\ LlmChat.message (Statechart.context (fst asking)) = text
  /\ LlmChat.retryCount (Statechart.context (fst asking)) = LlmChat.retryCount ctx
  /\ snd asking = calls ++ [text]
  /\ (Js.lt (LlmChat.retryCount ctx) (Js.Finite 3) = false ->
      let waiting :=
        Statechart.send LlmChat.chatMachine (LlmChat.ErrorInvoke oops)
          (fst asking) (snd asking) in
      let later :=
        Statechart.elapse LlmChat.chatMachine 1500 (fst waiting) (snd waiting) in
      Statechart.value (fst later) = "failed"
      /\ Statechart.status (fst later) = Statechart.Done
      /\ snd later = calls ++ [text]).
Proof. apply chat_budget_carries_over. Qed.

Lemma retry_budget_carries_over_to_next_message_witness :
  let asking :=
    Statechart.send LlmChat.chatMachine (LlmChat.SEND_MESSAGE "again")
      (chatIn "success" answeredAtLast 7000 8) ["hello"; "hello"; "hello"; "hello"] in
  let waiting :=
    Statechart.send LlmChat.chatMachine (LlmChat.ErrorInvoke "timeout")
      (fst asking) (snd asking) in
  let later :=
    Statechart.elapse LlmChat.chatMachine 1500 (fst waiting) (snd waiting) in
  Statechart.value (fst later) = "failed"
  /\ Statechart.status (fst later) = Statechart.Done
  /\ snd later = ["hello"; "hello"; "hello"; "hello"] ++ ["again"].
Proof.
  apply (retry_budget_carries_over_to_next_message answeredAtLast 7000 8
           ["hello"; "hello"; "hello"; "hello"] "again" "timeout").
  reflexivity.
Defined.

(** ** The form machine *)

(** The length of a password is counted in UTF-16 code units, not in
    bytes: two Hangul syllables take six bytes and are still too short. *)
Lemma two_syllables_are_too_short (EMAIL_REGEX_test : string -> bool) (email : string) :
  email <> "" ->
  EMAIL_REGEX_test email = true ->
  FormValidation.validate EMAIL_REGEX_test
    {| FormValidation.email := email; FormValidation.password := "암호";
       FormValidation.errors := [] |}
  = ["비밀번호는 최소 6자 이상이어야 합니다"].
Proof.
  intros Hemail Htest. unfold FormValidation.validate.
  cbn [FormValidation.email FormValidation.password].
  rewrite (bool_decide_eq_false_2 _ Hemail), Htest. reflexivity.
Qed.

(** X19. The validation of the form records no error exactly when the
    email is not empty and matches the regular expression and the password
    has a [length] of at least six (UTF-16 code units); it records at most
    one error for each of the two fields, and does not depend on the errors
    recorded before. *)
Theorem validate_accepts_exactly_the_valid_forms
    (EMAIL_REGEX_test : string -> bool) (ctx : FormValidation.FormContext)
    (earlier : list string) :
  (FormValidation.validate EMAIL_REGEX_test ctx = [] <->
   FormValidation.email ctx <> ""
   /\ EMAIL_REGEX_test (FormValidation.email ctx) = true
   /\ FormValidation.MIN_PASSWORD_LENGTH <= Js.stringLength (FormValidation.password ctx))
  /\ length (FormValidation.validate EMAIL_REGEX_test ctx) <= 2
  /\ FormValidation.validate EMAIL_REGEX_test
       {| FormValidation.email := FormValidation.email ctx;
          FormValidation.password := FormValidation.password ctx;
          FormValidation.errors := earlier |}
     = FormValidation.validate EMAIL_REGEX_test ctx.
Proof.
  unfold FormValidation.validate, FormValidation.MIN_PASSWORD_LENGTH.
  destruct ctx as [email password errors]. cbn [FormValidation.email FormValidation.password].
  split; [|split; [|reflexivity]].
  - destruct (decide (email = "")) as [-> | Hemail].
    { simpl. split; [discriminate | intros [Hne _]; contradiction]. }
    rewrite (bool_decide_eq_false_2 _ Hemail).
    destruct (EMAIL_REGEX_test email) eqn:Htest; simpl;
      [|split; [discriminate | intros (_ & ? & _); discriminate]].
    destruct (decide (password = "")) as [-> | Hpassword].
    { simpl. split; [discriminate | intros (_ & _ & Hlen); lia]. }
    rewrite (bool_decide_eq_false_2 _ Hpassword).
    destruct (decide (Js.stringLength password < 6)) as [Hshort | Hlong].
    + rewrite (bool_decide_eq_true_2 _ Hshort).
      split; [discriminate | intros (_ & _ & Hlen); lia].
    + rewrite (bool_decide_eq_false_2 _ Hlong).
      split; [intros _; repeat split; [assumption | lia] | reflexivity].
  - repeat case_bool_decide; destruct (EMAIL_REGEX_test email); simpl; lia.
Qed.

Section FormMachine.

Import Js Statechart FormValidation.

Variable EMAIL_REGEX_test : string -> bool.

Abbreviation form := (formMachine EMAIL_REGEX_test).

(** Taking a declared transition from its source state. *)
Lemma form_take t event (actor : Statechart.Actor string FormContext) (w : unit) :
  t ∈ transitions form ->
  source t = value actor ->
  value actor <> "validating" ->
  status (fst (take form t event actor w)) = status actor
  /\ ((value (fst (take form t event actor w)) = "validating"
       /\ errors (context (fst (take form t event actor w)))
          = validate EMAIL_REGEX_test (context actor)
       /\ validate EMAIL_REGEX_test (context (fst (take form t event actor w)))
          = validate EMAIL_REGEX_test (context actor))
      \/ value (fst (take form t event actor w)) = "editing"
      \/ value (fst (take form t event actor w)) = "error"
      \/ (value (fst (take form t event actor w)) = "success"
          /\ value actor = "submitting"
          /\ context (fst (take form t event actor w)) = context actor)).
Proof.
  intros Ht Hsource Hstable. destruct actor as [st v ctx c g p]. simpl in Hsource, Hstable.
  apply list_elem_of_In in Ht. simpl in Ht.
  repeat (destruct Ht as [<- | Ht];
          [simpl in Hsource; subst v; try contradiction;
           (split; [reflexivity|]);
           first [ left; repeat split; reflexivity
                 | right; left; reflexivity
                 | right; right; left; reflexivity
                 | right; right; right; repeat split; reflexivity ] |]).
  destruct Ht.
Qed.

(** The machine does not rest in [validating]. *)
Lemma form_settle_validating event (actor : Statechart.Actor string FormContext) (w : unit) :
  status actor = Running -> value actor = "validating" ->
  let settled := settle form (patience form) event actor w in
  value (fst settled)
  = (if bool_decide (length (errors (context actor)) = 0) then "submitting" else "error")
  /\ context (fst settled) = context actor.
Proof.
  destruct actor as [st v ctx c g p]. destruct w. simpl. intros -> ->.
  change (patience form) with 6.
  cbn [settle status]. destruct (decide (Running = Running)); [|contradiction].
  rewrite validating_routes_by_errors.
  destruct (bool_decide (length (errors ctx) = 0)); split; reflexivity.
Qed.

Lemma form_settle_elsewhere event (actor : Statechart.Actor string FormContext) (w : unit) :
  value actor ∈ ["editing"; "submitting"; "success"; "error"] ->
  settle form (patience form) event actor w = (actor, w).
Proof.
  intros Hin. destruct actor as [st v ctx c g p]. simpl in Hin.
  apply list_elem_of_In in Hin. simpl in Hin. destruct w.
  destruct st;
    repeat (destruct Hin as [<- | Hin]; [reflexivity|]); destruct Hin.
Qed.

Lemma form_deliver_invariant event (actor : Statechart.Actor string FormContext) (w : unit) :
  formInvariant EMAIL_REGEX_test actor ->
  formInvariant EMAIL_REGEX_test (fst (deliver form event actor w)).
Proof.
  intros [Hin Hvalid].
  assert (Hstable : value actor <> "validating").
  { intros Heq. rewrite Heq in Hin. apply list_elem_of_In in Hin. simpl in Hin.
    destruct Hin as [H | [H | [H | [H | []]]]]; discriminate H. }
  destruct (decide (status actor = Running)) as [Hrun | Hhalted];
    [|rewrite deliver_halted by exact Hhalted; by split].
  rewrite deliver_running by exact Hrun.
  destruct (resolve _ _ _ _ _) as [[t|] w1] eqn:Hres.
  - apply resolve_candidate in Hres as (Ht & Hsource & _).
    destruct (form_take t event actor w1 Ht Hsource Hstable) as [Hstatus Hcases].
    destruct (take form t event actor w1) as [actor1 w2]. cbn [fst] in *.
    destruct Hcases as [(Hvalue & Herrors & Hsame) | [Hvalue | [Hvalue | (Hvalue & Hfrom & Hctx)]]].
    + destruct (form_settle_validating event actor1 w2) as [Hsettled Hcontext];
        [congruence | exact Hvalue |].
      cbv zeta in Hsettled, Hcontext. unfold formInvariant.
      rewrite Hsettled, Hcontext.
      destruct (bool_decide (length (errors (context actor1)) = 0)) eqn:Hnone.
      * split; [apply list_elem_of_In; simpl; auto|]. intros _.
        apply bool_decide_eq_true in Hnone.
        assert (Hnil : errors (context actor1) = [])
          by (by destruct (errors (context actor1))).
        split; [|exact Hnil]. rewrite Hsame, <- Herrors. exact Hnil.
      * split; [apply list_elem_of_In; simpl; auto|].
        intros Hmem. apply list_elem_of_In in Hmem. simpl in Hmem.
        destruct Hmem as [H | [H | []]]; discriminate H.
    + rewrite form_settle_elsewhere by (rewrite Hvalue; apply list_elem_of_In; simpl; auto).
      cbn [fst]. split; [rewrite Hvalue; apply list_elem_of_In; simpl; auto|].
      rewrite Hvalue. intros Hmem. apply list_elem_of_In in Hmem. simpl in Hmem.
      destruct Hmem as [H | [H | []]]; discriminate H.
    + rewrite form_settle_elsewhere by (rewrite Hvalue; apply list_elem_of_In; simpl; auto).
      cbn [fst]. split; [rewrite Hvalue; apply list_elem_of_In; simpl; auto|].
      rewrite Hvalue. intros Hmem. apply list_elem_of_In in Hmem. simpl in Hmem.
      destruct Hmem as [H | [H | []]]; discriminate H.
    + rewrite form_settle_elsewhere by (rewrite Hvalue; apply list_elem_of_In; simpl; auto).
      cbn [fst]. split; [rewrite Hvalue; apply list_elem_of_In; simpl; auto|].
      intros _. rewrite Hctx. apply Hvalid. rewrite Hfrom.
      apply list_elem_of_In; simpl; auto.
  - rewrite form_settle_elsewhere by exact Hin. by split.
Qed.

Lemma form_run_invariant history :
  formInvariant EMAIL_REGEX_test (fst (run form history (start form tt))).
Proof.
  apply (run_keeps form (formInvariant EMAIL_REGEX_test)).
  - apply form_deliver_invariant.
  - intros tm actor Hinv. exact Hinv.
  - intros actor Hinv. exact Hinv.
  - intros actor Hinv. exact Hinv.
  - split; [apply list_elem_of_In; simpl; auto|].
    intros Hmem. apply list_elem_of_In in Hmem. simpl in Hmem.
    destruct Hmem as [H | [H | []]]; discriminate H.
Qed.

End FormMachine.

(** X20. The form machine submits only what passes the validation.
    Whatever is sent to it, whatever time passes, it never rests in
    [validating]; and whenever it is in [submitting] or in [success], its
    context records no error and passes the validation (non-empty email
    matching the regular expression, password whose [length], in UTF-16
    code units, is six or more). *)
Theorem form_submits_only_valid_input
    (EMAIL_REGEX_test : string -> bool)
    (history : list (Statechart.Step string FormValidation.FormEvent)) :
  let now :=
    Statechart.run (FormValidation.formMachine EMAIL_REGEX_test) history
      (Statechart.start (FormValidation.formMachine EMAIL_REGEX_test) tt) in
  Statechart.value (fst now) ∈ ["editing"; "submitting"; "success"; "error"]
  /\ (Statechart.value (fst now) ∈ ["submitting"; "success"] ->
      FormValidation.errors (Statechart.context (fst now)) = []
      /\ FormValidation.validate EMAIL_REGEX_test (Statechart.context (fst now)) = []
      /\ FormValidation.email (Statechart.context (fst now)) <> ""
      /\ EMAIL_REGEX_test (FormValidation.email (Statechart.context (fst now))) = true
      /\ 6 <= Js.stringLength (FormValidation.password (Statechart.context (fst now)))).
Proof.
  intros now.
  destruct (form_run_invariant EMAIL_REGEX_test history) as [Hin Hvalid].
  fold now in Hin, Hvalid. split; [exact Hin|].
  intros Hsubmitted. destruct (Hvalid Hsubmitted) as [Hpasses Hnone].
  split; [exact Hnone|]. split; [exact Hpasses|].
  unfold FormValidation.validate in Hpasses.
  destruct (Statechart.context (fst now)) as [email password errors]. simpl in *.
  destruct (decide (email = "")) as [-> | Hemail]; [discriminate Hpasses|].
  rewrite (bool_decide_eq_false_2 _ Hemail) in Hpasses.
  destruct (EMAIL_REGEX_test email); [|discriminate Hpasses]. simpl in Hpasses.
  destruct (decide (password = "")) as [-> | Hpassword]; [discriminate Hpasses|].
  rewrite (bool_decide_eq_false_2 _ Hpassword) in Hpasses.
  unfold FormValidation.MIN_PASSWORD_LENGTH in Hpasses.
  destruct (decide (Js.stringLength password < 6)) as [Hshort | Hlong].
  - rewrite (bool_decide_eq_true_2 _ Hshort) in Hpasses. discriminate Hpasses.
  - repeat split; [assumption | lia].
Qed.

Lemma form_submits_only_valid_input_witness :
  let now :=
    Statechart.run (FormValidation.formMachine hasAt) fillAndSubmit
      (Statechart.start (FormValidation.formMachine hasAt) tt) in
  FormValidation.errors (Statechart.context (fst now)) = []
  /\ FormValidation.email (Statechart.context (fst now)) <> ""
  /\ 6 <= Js.stringLength (FormValidation.password (Statechart.context (fst now))).
Proof.
  destruct (form_submits_only_valid_input hasAt fillAndSubmit) as [_ Hvalid].
  destruct Hvalid as (Hnone & _ & Hemail & _ & Hpassword).
  - apply list_elem_of_In. vm_compute. left. reflexivity.
  - split; [exact Hnone | split; [exact Hemail | exact Hpassword]].
Defined.

(** ** The fetch machine *)

Section FetchMachine.

Import Js Statechart FetchExample.

Ltac pick_case :=
  first [ solve [repeat split; first [reflexivity | lia]]
        | left; pick_case
        | right; pick_case ].

Lemma fetch_send_invariant payload (now : Statechart.Actor string FetchContext * Fetches) :
  payload <> FETCH ->
  fetchInvariant now ->
  fetchInvariant (send fetchMachine payload (fst now) (snd now)).
Proof.
  intros Hother Hinv.
  destruct now as [[st v ctx c g p] fetches].
  destruct (decide (st = Running)) as [-> | Hhalted].
  2: { unfold send. rewrite deliver_halted by exact Hhalted. exact Hinv. }
  destruct Hinv as (Hidle & Hbound & Hcases). cbn [fst snd] in *.
  cbn [pending value context] in *. subst p.
  destruct ctx as [data error count]. cbn [retryCount] in *.
  destruct fetches as [|[|[|[|fetches]]]]; try lia;
    destruct Hcases as [(-> & Hf) | [(-> & Hf & ->) | [(-> & Hf & ->) | [(-> & Hf) | (-> & Hf)]]]];
    try lia;
    destruct payload; try contradiction;
    unfold fetchInvariant; vm_compute;
    (split; [reflexivity|]); (split; [lia|]); pick_case.
Qed.

Lemma fetch_step_invariant s (now : Statechart.Actor string FetchContext * Fetches) :
  s <> DoSend FETCH ->
  fetchInvariant now ->
  fetchInvariant (step fetchMachine now s).
Proof.
  intros Hother Hinv. destruct s as [payload | ms | tm |]; cbn [step].
  - apply fetch_send_invariant; [congruence | exact Hinv].
  - destruct Hinv as (Hidle & Hrest). rewrite elapse_idle by exact Hidle.
    split; [reflexivity | exact Hrest].
  - destruct Hinv as (Hidle & Hrest). unfold fire. rewrite Hidle.
    destruct (decide (tm ∈ [])) as [Hin | _]; [by apply elem_of_nil in Hin|].
    split; [exact Hidle | exact Hrest].
  - destruct Hinv as (Hidle & Hrest). split; [reflexivity | exact Hrest].
Qed.

Lemma fetch_run_invariant steps : forall now,
  Forall (fun s => s <> DoSend FETCH) steps ->
  fetchInvariant now ->
  fetchInvariant (run fetchMachine steps now).
Proof.
  induction steps as [|s steps IH]; intros now Hsteps Hinv; [exact Hinv|].
  apply Forall_cons in Hsteps as [Hs Hsteps].
  simpl. apply IH; [exact Hsteps|]. by apply fetch_step_invariant.
Qed.

Lemma fetch_step_started s (now : Statechart.Actor string FetchContext * Fetches) :
  s <> DoSend FETCH ->
  fetchInvariant now ->
  value (fst now) <> "idle" ->
  value (fst (step fetchMachine now s)) <> "idle".
Proof.
  intros Hs Hi Hne.
  destruct now as [[st v ctx c g p] fetches].
  destruct Hi as (Hidle & Hbound & Hcases). cbn [fst snd] in *.
  cbn [pending value context] in *. subst p.
  destruct s as [payload | ms | tm |]; cbn [step fst snd].
  - destruct (decide (st = Running)) as [-> | Hhalted].
    2: { unfold send. by rewrite deliver_halted. }
    destruct ctx as [data error count]. cbn [retryCount] in *.
    destruct fetches as [|[|[|[|fetches]]]]; try lia;
      destruct Hcases as [(-> & Hf) | [(-> & Hf & ->) | [(-> & Hf & ->) | [(-> & Hf) | (-> & Hf)]]]];
      try lia; try contradiction;
      destruct payload; try contradiction;
      vm_compute; discriminate.
  - by rewrite elapse_idle.
  - unfold fire. cbn [pending].
    destruct (decide (tm ∈ [])) as [Hin | _]; [by apply elem_of_nil in Hin | exact Hne].
  - exact Hne.
Qed.

Lemma fetch_run_started steps : forall now,
  Forall (fun s => s <> DoSend FETCH) steps ->
  fetchInvariant now ->
  value (fst now) <> "idle" ->
  value (fst (run fetchMachine steps now)) <> "idle".
Proof.
  induction steps as [|s steps IH]; intros now Hsteps Hinv Hne; [exact Hne|].
  apply Forall_cons in Hsteps as [Hs Hsteps]. simpl.
  apply IH; [exact Hsteps | by apply fetch_step_invariant | by apply fetch_step_started].
Qed.

End FetchMachine.

(** X21. Between two [FETCH] events the fetch machine calls [fetchUser] at
    most three times.  After a [FETCH] sent to the machine just started,
    whatever else happens (any events but [FETCH], any passing of time, a
    stop), [fetchUser] has been called at least once and at most three
    times; in [failure] the retry count is the number of calls made, all of
    them failed; and [error] is only reached after three calls. *)
Theorem fetch_is_tried_at_most_three_times
    (steps : list (Statechart.Step string FetchExample.FetchEvent)) :
  Forall (fun s => s <> Statechart.DoSend FetchExample.FETCH) steps ->
  let now :=
    Statechart.run FetchExample.fetchMachine (Statechart.DoSend FetchExample.FETCH :: steps)
      (Statechart.start FetchExample.fetchMachine 0) in
  1 <= snd now <= 3
  /\ (Statechart.value (fst now) = "failure" ->
      FetchExample.retryCount (Statechart.context (fst now))
      = Js.Finite (Z.of_nat (snd now)))
  /\ (Statechart.value (fst now) = "error" -> snd now = 3).
Proof.
  intros Hsteps now.
  assert (Hinv : fetchInvariant now).
  { apply (fetch_run_invariant steps
             (Statechart.step FetchExample.fetchMachine
                (Statechart.start FetchExample.fetchMachine 0)
                (Statechart.DoSend FetchExample.FETCH))); [exact Hsteps|].
    split; [reflexivity|]. split; [vm_compute; lia|].
    right. left. repeat split; vm_compute; reflexivity || lia. }
  assert (Hstarted : 1 <= snd now).
  { pose proof (fetch_run_started steps
                  (Statechart.step FetchExample.fetchMachine
                     (Statechart.start FetchExample.fetchMachine 0)
                     (Statechart.DoSend FetchExample.FETCH)) Hsteps) as Hmono.
    change (Statechart.run FetchExample.fetchMachine steps
              (Statechart.step FetchExample.fetchMachine
                 (Statechart.start FetchExample.fetchMachine 0)
                 (Statechart.DoSend FetchExample.FETCH))) with now in Hmono.
    destruct Hinv as (_ & _ & [(Hvalue & _) | [(_ & ? & _) | [(_ & ? & _) | [(_ & ?) | (_ & ?)]]]]);
      try lia.
    exfalso. revert Hvalue. apply Hmono.
    - split; [reflexivity|]. split; [vm_compute; lia|].
      right. left. repeat split; vm_compute; reflexivity || lia.
    - vm_compute. discriminate. }
  destruct Hinv as (_ & Hbound & Hcases).
  split; [lia|]. split.
  - intros Hfailure.
    destruct Hcases as [(Hv & _) | [(Hv & _) | [(_ & _ & Hcount) | [(Hv & _) | (Hv & _)]]]];
      try (rewrite Hfailure in Hv; discriminate Hv).
    exact Hcount.
  - intros Herror.
    destruct Hcases as [(Hv & _) | [(Hv & _) | [(Hv & _) | [(_ & Hthree) | (Hv & _)]]]];
      try (rewrite Herror in Hv; discriminate Hv).
    exact Hthree.
Qed.

Lemma fetch_is_tried_at_most_three_times_witness :
  let now :=
    Statechart.run FetchExample.fetchMachine
      (Statechart.DoSend FetchExample.FETCH :: threeFailures)
      (Statechart.start FetchExample.fetchMachine 0) in
  1 <= snd now <= 3.
Proof.
  apply (fetch_is_tried_at_most_three_times threeFailures).
  repeat (apply Forall_cons; split; [discriminate|]). apply Forall_nil. exact I.
Defined.

(** X22. The retry limit of the fetch machine binds [RETRY] only.  [FETCH]
    is accepted in every state but [loading] and always starts a call of
    [fetchUser]; sent in [error] it resets the retry count to 0 and clears
    the error, but sent in [failure] (or [idle], or [success]) it leaves the
    retry count as it is, whatever it is: a failure answered with [FETCH]
    instead of [RETRY] is retried without limit.  [RETRY] in [failure] starts
    a call exactly when the retry count is below 3 and otherwise leads to
    [error] without calling. *)
Theorem fetch_event_is_never_refused
    (state : string) (ctx : FetchExample.FetchContext)
    (c g : N) (p : list (Statechart.Timer string)) (fetches : FetchExample.Fetches) :
  state ∈ ["idle"; "success"; "failure"; "error"] ->
  (let after :=
     Statechart.send FetchExample.fetchMachine FetchExample.FETCH
       (fetchIn state ctx c g p) fetches in
   Statechart.value (fst after) = "loading"
   /\ snd after = S fetches
   /\ FetchExample.retryCount (Statechart.context (fst after))
      = (if decide (state = "error") then Js.Finite 0 else FetchExample.retryCount ctx)
   /\ FetchExample.data (Statechart.context (fst after)) = FetchExample.data ctx)
  /\ (let after :=
        Statechart.send FetchExample.fetchMachine FetchExample.RETRY
          (fetchIn "failure" ctx c g p) fetches in
      if Js.lt (FetchExample.retryCount ctx) (Js.Finite 3)
      then Statechart.value (fst after) = "loading" /\ snd after = S fetches
      else Statechart.value (fst after) = "error" /\ snd after = fetches).
Proof.
  intros Hin. split.
  - apply list_elem_of_In in Hin. simpl in Hin. destruct ctx as [data error count].
    destruct Hin as [<- | [<- | [<- | [<- | []]]]]; repeat split; vm_compute; reflexivity.
  - cbv zeta. unfold Statechart.send, fetchIn.
    destruct (Js.lt (FetchExample.retryCount ctx) (Js.Finite 3)) eqn:Hbelow.
    + destruct (deliver_first_enabled FetchExample.fetchMachine
                  (Statechart.Sent FetchExample.RETRY)
                  {| Statechart.status := Statechart.Running; Statechart.value := "failure";
                     Statechart.context := ctx; Statechart.clock := c;
                     Statechart.generation := g; Statechart.pending := p |}
                  fetches fetches fetches [] [FetchExample.giveUp] FetchExample.retryFetch)
        as [_ ->].
      * reflexivity.
      * reflexivity.
      * reflexivity.
      * unfold accepted.
        cbn [Statechart.guard Statechart.context FetchExample.retryFetch].
        unfold Statechart.pure, FetchExample.MAX_RETRIES. by rewrite Hbelow.
      * destruct ctx. split; vm_compute; reflexivity.
    + destruct (deliver_first_enabled FetchExample.fetchMachine
                  (Statechart.Sent FetchExample.RETRY)
                  {| Statechart.status := Statechart.Running; Statechart.value := "failure";
                     Statechart.context := ctx; Statechart.clock := c;
                     Statechart.generation := g; Statechart.pending := p |}
                  fetches fetches fetches [FetchExample.retryFetch] [] FetchExample.giveUp)
        as [_ ->].
      * reflexivity.
      * reflexivity.
      * cbn [rejected Statechart.guard Statechart.context FetchExample.retryFetch].
        unfold Statechart.pure, FetchExample.MAX_RETRIES. by rewrite Hbelow.
      * reflexivity.
      * destruct ctx. split; vm_compute; reflexivity.
Qed.

Lemma fetch_event_is_never_refused_witness :
  let after :=
    Statechart.send FetchExample.fetchMachine FetchExample.FETCH
      (fetchIn "failure" fiveFailures 9000 12 []) 6 in
  Statechart.value (fst after) = "loading"
  /\ snd after = 7
  /\ FetchExample.retryCount (Statechart.context (fst after)) = Js.Finite 5.
Proof.
  destruct (fetch_event_is_never_refused "failure" fiveFailures 9000 12 [] 6)
    as [(Hvalue & Hcalls & Hcount & _) _].
  - apply list_elem_of_In. simpl. auto.
  - split; [exact Hvalue|]. split; [exact Hcalls | exact Hcount].
Defined.

(** ** Final states *)

Section FinalStates.

Import Statechart.

Context {State Context Payload World : Type} `{EqDecision State}.

Variable machine : Statechart.Machine State Context Payload World.

(** Entering a final state ends the machine's life. *)
Lemma enter_halts s event (actor : Statechart.Actor State Context) (world : World) :
  haltedWhenFinal machine (fst (enter machine s event actor world)).
Proof.
  unfold enter. destruct (runActions _ _ _ _) as [ctx world'].
  unfold haltedWhenFinal. simpl. intros Hfinal.
  destruct (decide (s ∈ final machine)); [discriminate | contradiction].
Qed.

Lemma take_halts t event (actor : Statechart.Actor State Context) (world : World) :
  haltedWhenFinal machine actor ->
  haltedWhenFinal machine (fst (take machine t event actor world)).
Proof.
  intros Hhalted. unfold take. destruct (target t) as [s|].
  - destruct (runActions _ _ _ _) as [ctx1 world1].
    destruct (runActions _ _ _ _) as [ctx2 world2].
    apply enter_halts.
  - destruct (runActions _ _ _ _) as [ctx1 world1]. exact Hhalted.
Qed.

(** Whatever the host does, a machine that is in a final state is not
    running. *)
Lemma run_halts (history : list (Statechart.Step State Payload)) (world : World) :
  haltedWhenFinal machine (fst (run machine history (start machine world))).
Proof.
  apply (run_keeps machine (haltedWhenFinal machine)).
  - apply (deliver_keeps machine (haltedWhenFinal machine) take_halts).
  - intros tm actor Hhalted. exact Hhalted.
  - intros actor Hhalted. exact Hhalted.
  - intros actor _ _. discriminate.
  - unfold start.
    destruct (enter _ _ _ _ _) as [actor world'] eqn:Henter.
    apply (settle_keeps machine (haltedWhenFinal machine) take_halts).
    change actor with (fst (actor, world')). rewrite <- Henter.
    apply enter_halts.
Qed.

End FinalStates.

(** ** The chatbot machine *)

Section ChatbotMachine.

Import Js Statechart Llm ChatbotXState.

Variable trim : string -> string.

Abbreviation chatbot := (chatbotMachine trim).

(** The machine does not rest in [validating]: a blank message sends it
    back to [waiting_input], any other message on to [calling_llm], where
    the model is called. *)
Lemma chatbot_settle_validating event ctx c g (asked : Asked) :
  let settled := settle chatbot (patience chatbot) event (chatbotIn "validating" ctx c g) asked in
  context (fst settled) = ctx
  /\ if bool_decide (String.length (trim (userMessage ctx)) = 0)
     then value (fst settled) = "waiting_input" /\ snd settled = asked
     else value (fst settled) = "calling_llm"
          /\ snd settled = asked ++ [question (conversationHistory ctx) (userMessage ctx)].
Proof.
  unfold chatbotIn. change (patience chatbot) with 7.
  cbn [settle status]. destruct (decide (Running = Running)); [|contradiction].
  unfold resolve. cbn [value context].
  replace (candidates chatbot "validating" Always) with [refuseBlank trim; accept]
    by (vm_compute; reflexivity).
  cbn [firstEnabled guard refuseBlank accept]. unfold pure.
  destruct ctx as [message history response oops count]. cbn [userMessage conversationHistory].
  destruct (bool_decide (String.length (trim message) = 0));
    repeat split; vm_compute; reflexivity.
Qed.

Lemma chatbot_message origin text ctx c g (asked : Asked) :
  origin ∈ ["waiting_input"; "response_ready"] ->
  let after := send chatbot (SEND_MESSAGE text) (chatbotIn origin ctx c g) asked in
  context (fst after)
  = {| userMessage := text; conversationHistory := conversationHistory ctx;
       currentResponse := if decide (origin = "response_ready") then None
                          else currentResponse ctx;
       error := None; retryCount := Finite 0 |}
  /\ if bool_decide (String.length (trim text) = 0)
     then value (fst after) = "waiting_input" /\ snd after = asked
     else value (fst after) = "calling_llm"
          /\ snd after = asked ++ [question (conversationHistory ctx) text].
Proof.
  intros Hin. apply list_elem_of_In in Hin. simpl in Hin.
  destruct Hin as [<- | [<- | []]];
    cbv zeta; unfold send, chatbotIn; rewrite deliver_running by reflexivity;
    match goal with
    | |- context [resolve ?m ?o ?e ?a ?w] =>
        let v := eval vm_compute in (resolve m o e a w) in
        replace (resolve m o e a w) with v by (vm_compute; reflexivity)
    end;
    cbv beta iota zeta.
  - match goal with
    | |- context [take ?m ?t ?e ?a ?w] =>
        replace (take m t e a w)
          with (chatbotIn "validating"
                  {| userMessage := text; conversationHistory := conversationHistory ctx;
                     currentResponse := currentResponse ctx;
                     error := None; retryCount := Finite 0 |} c (g + 1)%N, asked)
          by (destruct ctx; vm_compute; reflexivity)
    end.
    cbv beta iota zeta.
    match goal with
    | |- context [settle chatbot (patience chatbot) ?e (chatbotIn "validating" ?x ?k ?n) ?w] =>
        destruct (chatbot_settle_validating e x k n w) as [Hcontext Hroute]
    end.
    cbv zeta in Hcontext, Hroute. cbn [userMessage conversationHistory] in Hroute.
    split; [exact Hcontext | exact Hroute].
  - match goal with
    | |- context [take ?m ?t ?e ?a ?w] =>
        replace (take m t e a w)
          with (chatbotIn "validating"
                  {| userMessage := text; conversationHistory := conversationHistory ctx;
                     currentResponse := None;
                     error := None; retryCount := Finite 0 |} c (g + 1)%N, asked)
          by (destruct ctx; vm_compute; reflexivity)
    end.
    cbv beta iota zeta.
    match goal with
    | |- context [settle chatbot (patience chatbot) ?e (chatbotIn "validating" ?x ?k ?n) ?w] =>
        destruct (chatbot_settle_validating e x k n w) as [Hcontext Hroute]
    end.
    cbv zeta in Hcontext, Hroute. cbn [userMessage conversationHistory] in Hroute.
    split; [exact Hcontext | exact Hroute].
Qed.

End ChatbotMachine.

(** X23. The chatbot machine never asks the model about a blank message.
    [SEND_MESSAGE] in [waiting_input] or in [response_ready] stores the
    message, clears the error and resets the retry count (and, in
    [response_ready], clears the response); then, if the message is empty
    once trimmed, the machine is in [waiting_input] and the model was not
    called; otherwise it is in [calling_llm] and the model was called once,
    with the conversation so far followed by the message. *)
Theorem blank_message_is_not_sent_to_the_model
    (trim : string -> string) (origin text : string) (ctx : ChatbotXState.ChatContext)
    (c g : N) (asked : ChatbotXState.Asked) :
  origin ∈ ["waiting_input"; "response_ready"] ->
  let after :=
    Statechart.send (ChatbotXState.chatbotMachine trim) (ChatbotXState.SEND_MESSAGE text)
      (chatbotIn origin ctx c g) asked in
  Statechart.context (fst after)
  = {| ChatbotXState.userMessage := text;
       ChatbotXState.conversationHistory := ChatbotXState.conversationHistory ctx;
       ChatbotXState.currentResponse :=
         if decide (origin = "response_ready") then None
         else ChatbotXState.currentResponse ctx;
       ChatbotXState.error := None;
       ChatbotXState.retryCount := Js.Finite 0 |}
  /\ if bool_decide (String.length (trim text) = 0)
     then Statechart.value (fst after) = "waiting_input" /\ snd after = asked
     else Statechart.value (fst after) = "calling_llm"
          /\ snd after
             = asked ++ [question (ChatbotXState.conversationHistory ctx) text].
Proof. apply chatbot_message. Qed.

Lemma blank_message_is_not_sent_to_the_model_witness :
  let after :=
    Statechart.send (ChatbotXState.chatbotMachine keep) (ChatbotXState.SEND_MESSAGE "")
      (chatbotIn "waiting_input"
         (Statechart.initialContext (ChatbotXState.chatbotMachine keep)) 0 0) [] in
  Statechart.value (fst after) = "waiting_input" /\ snd after = [].
Proof.
  destruct (blank_message_is_not_sent_to_the_model keep "waiting_input" ""
              (Statechart.initialContext (ChatbotXState.chatbotMachine keep)) 0 0 [])
    as [_ Hroute].
  - apply list_elem_of_In. simpl. auto.
  - exact Hroute.
Defined.

(** X24. [RESET] is dead in [failed].  The state [failed] of the chatbot
    machine declares a [RESET] transition but is final: whenever the
    machine is in [failed] it has stopped running, and [RESET], like every
    other event, leaves it as it is. *)
Theorem reset_is_dead_in_failed
    (trim : string -> string)
    (history : list (Statechart.Step string ChatbotXState.ChatEvent))
    (payload : ChatbotXState.ChatEvent) :
  let now :=
    Statechart.run (ChatbotXState.chatbotMachine trim) history
      (Statechart.start (ChatbotXState.chatbotMachine trim) []) in
  Statechart.value (fst now) = "failed" ->
  Statechart.status (fst now) <> Statechart.Running
  /\ Statechart.send (ChatbotXState.chatbotMachine trim) payload (fst now) (snd now) = now
  /\ Statechart.send (ChatbotXState.chatbotMachine trim) ChatbotXState.RESET
       (fst now) (snd now) = now.
Proof.
  intros now Hfailed.
  assert (Hhalted : Statechart.status (fst now) <> Statechart.Running).
  { apply (run_halts (ChatbotXState.chatbotMachine trim) history []).
    fold now. rewrite Hfailed. apply list_elem_of_In. simpl. auto. }
  split; [exact Hhalted|].
  unfold Statechart.send. rewrite !deliver_halted by exact Hhalted.
  by destruct now.
Qed.

Lemma reset_is_dead_in_failed_witness :
  let now :=
    Statechart.run (ChatbotXState.chatbotMachine keep) fourFailures
      (Statechart.start (ChatbotXState.chatbotMachine keep) []) in
  Statechart.status (fst now) <> Statechart.Running
  /\ Statechart.send (ChatbotXState.chatbotMachine keep) ChatbotXState.RETRY
       (fst now) (snd now) = now
  /\ Statechart.send (ChatbotXState.chatbotMachine keep) ChatbotXState.RESET
       (fst now) (snd now) = now.
Proof.
  apply (reset_is_dead_in_failed keep fourFailures ChatbotXState.RETRY).
  vm_compute. reflexivity.
Defined.

(** ** The machines of [basic-machine.ts] *)

Section ToggleMachine.

Import Statechart BasicMachine.

Lemma toggleMachine_flips (actor : Statechart.Actor string unit) (w : unit) :
  status actor = Running ->
  value actor ∈ states toggleMachine ->
  status (fst (send toggleMachine TOGGLE actor w)) = Running
  /\ value (fst (send toggleMachine TOGGLE actor w))
     = (if bool_decide (value actor = "inactive") then "active" else "inactive").
Proof.
  destruct actor as [st v [] c g p]. destruct w. simpl. intros -> Hin.
  apply list_elem_of_In in Hin. simpl in Hin.
  destruct Hin as [<- | [<- | []]]; split; vm_compute; reflexivity.
Qed.

Lemma toggle_machine_simulates payloads :
  forall (actor : Statechart.Actor string unit) (fsm : Toggle.ToggleFSM),
    status actor = Running ->
    Toggle.currentState fsm ∈ Toggle.declaredStates ->
    value actor = asMachineState (Toggle.currentState fsm) ->
    value (fst (sendAll toggleMachine payloads actor tt))
    = asMachineState
        (Toggle.getState (Toggle.sendAll (map (fun _ => "TOGGLE") payloads) fsm)).
Proof.
  induction payloads as [|[] payloads IH]; intros actor fsm Hrun Hdeclared Hsame;
    [exact Hsame|].
  assert (Hin : value actor ∈ states toggleMachine).
  { rewrite Hsame. unfold asMachineState.
    case_bool_decide; apply list_elem_of_In; simpl; auto. }
  destruct (toggleMachine_flips actor tt Hrun Hin) as [Hrun' Hvalue].
  unfold sendAll. cbn [foldl fst snd].
  destruct (send toggleMachine TOGGLE actor tt) as [actor' []]. cbn [fst] in *.
  fold (sendAll toggleMachine payloads actor' tt).
  cbn [map]. rewrite toggle_sendAll_cons.
  apply IH; [exact Hrun' | by apply toggle_transition_declared |].
  rewrite Hvalue, Hsame. unfold Toggle.transition, asMachineState.
  rewrite (bool_decide_eq_true_2 ("TOGGLE" = "TOGGLE")) by reflexivity.
  destruct fsm as [state]. cbn [fst Toggle.currentState] in *.
  apply list_elem_of_In in Hdeclared. simpl in Hdeclared.
  destruct Hdeclared as [<- | [<- | []]]; reflexivity.
Qed.

End ToggleMachine.

(** X25. The toggle machine of [basic-machine.ts] and the hand-written
    [ToggleFSM] do the same: started together (the machine in [inactive],
    the class in [OFF]) and sent the same number of [TOGGLE], the machine is
    in [active] exactly when the class is in [ON], and in [inactive] exactly
    when it is in [OFF]. *)
Theorem toggle_machine_matches_toggle_class (payloads : list BasicMachine.ToggleEvent) :
  let actor :=
    fst (Statechart.sendAll BasicMachine.toggleMachine payloads
           (fst (Statechart.start BasicMachine.toggleMachine tt)) tt) in
  let fsm := Toggle.sendAll (map (fun _ => "TOGGLE") payloads) (Toggle.new None) in
  (Statechart.value actor = "active" <-> Toggle.getState fsm = "ON")
  /\ (Statechart.value actor = "inactive" <-> Toggle.getState fsm = "OFF").
Proof.
  intros actor fsm.
  assert (Hsame : Statechart.value actor = asMachineState (Toggle.getState fsm)).
  { apply toggle_machine_simulates; [reflexivity | | reflexivity].
    apply list_elem_of_In. simpl. auto. }
  assert (Hdeclared : Toggle.getState fsm ∈ Toggle.declaredStates).
  { apply toggle_sendAll_declared. apply list_elem_of_In. simpl. auto. }
  rewrite Hsame. apply list_elem_of_In in Hdeclared. simpl in Hdeclared.
  destruct Hdeclared as [<- | [<- | []]]; split; split; intros Heq;
    first [reflexivity | discriminate Heq].
Qed.

(** ** The statechart definitions are closed *)

Lemma fetchMachine_well_formed : wellFormed FetchExample.fetchMachine.
Proof. check_well_formed. Qed.

Lemma chatbotMachine_well_formed trim : wellFormed (ChatbotXState.chatbotMachine trim).
Proof. check_well_formed. Qed.

Lemma toggleMachine_well_formed : wellFormed BasicMachine.toggleMachine.
Proof. check_well_formed. Qed.

(** X26. Every statechart of the repository stays within the states it
    declares: in the chat, order, form, game, fetch, chatbot and toggle
    machines the initial state and the target of every transition are
    declared states, so whatever events are sent, whatever time passes and
    whatever the guards draw, the current state is one of the states of the
    definition. *)
Theorem statecharts_stay_in_declared_states
    (EMAIL_REGEX_test : string -> bool) (trim : string -> string)
    (calls : LlmChat.Calls) (rng : OrderXState.Random) (disk : GamePersistence.Disk)
    (fetches : FetchExample.Fetches) (asked : ChatbotXState.Asked)
    (chatSteps : list (Statechart.Step string LlmChat.ChatEvent))
    (orderSteps : list (Statechart.Step string OrderXState.OrderEvent))
    (formSteps : list (Statechart.Step string FormValidation.FormEvent))
    (gameSteps : list (Statechart.Step string GamePersistence.GameEvent))
    (fetchSteps : list (Statechart.Step string FetchExample.FetchEvent))
    (chatbotSteps : list (Statechart.Step string ChatbotXState.ChatEvent))
    (toggleSteps : list (Statechart.Step string BasicMachine.ToggleEvent)) :
  Statechart.value
    (fst (Statechart.run LlmChat.chatMachine chatSteps
            (Statechart.start LlmChat.chatMachine calls)))
    ∈ ["idle"; "calling_llm"; "success"; "error"; "failed"]
  /\ Statechart.value
       (fst (Statechart.run OrderXState.orderMachine orderSteps
               (Statechart.start OrderXState.orderMachine rng)))
     ∈ ["pending"; "confirmed"; "processing_payment"; "paid"; "payment_failed";
        "shipping"; "delivered"; "canceled"]
  /\ Statechart.value
       (fst (Statechart.run (FormValidation.formMachine EMAIL_REGEX_test) formSteps
               (Statechart.start (FormValidation.formMachine EMAIL_REGEX_test) tt)))
     ∈ ["editing"; "validating"; "submitting"; "success"; "error"]
  /\ Statechart.value
       (fst (Statechart.run GamePersistence.gameMachine gameSteps
               (Statechart.start GamePersistence.gameMachine disk)))
     ∈ ["menu"; "playing"; "paused"; "savingFromPlaying"; "savingFromPaused"; "gameOver"]
  /\ Statechart.value
       (fst (Statechart.run FetchExample.fetchMachine fetchSteps
               (Statechart.start FetchExample.fetchMachine fetches)))
     ∈ ["idle"; "loading"; "success"; "failure"; "error"]
  /\ Statechart.value
       (fst (Statechart.run (ChatbotXState.chatbotMachine trim) chatbotSteps
               (Statechart.start (ChatbotXState.chatbotMachine trim) asked)))
     ∈ ["waiting_input"; "validating"; "calling_llm"; "response_ready"; "error"; "failed"]
  /\ Statechart.value
       (fst (Statechart.run BasicMachine.toggleMachine toggleSteps
               (Statechart.start BasicMachine.toggleMachine tt)))
     ∈ ["inactive"; "active"].
Proof.
  split; [apply (executor_state_declared _ chatMachine_well_formed)|].
  split; [apply (executor_state_declared _ orderMachine_well_formed)|].
  split; [apply (executor_state_declared _ (formMachine_well_formed EMAIL_REGEX_test))|].
  split; [apply (executor_state_declared _ gameMachine_well_formed)|].
  split; [apply (executor_state_declared _ fetchMachine_well_formed)|].
  split; [apply (executor_state_declared _ (chatbotMachine_well_formed trim))|].
  apply (executor_state_declared _ toggleMachine_well_formed).
Qed.

(** ** Invariants that involve the world *)

Section WorldLifts.

Import Statechart.

Context {State Context Payload World : Type} `{EqDecision State}.

Variable machine : Statechart.Machine State Context Payload World.

(** A property of an actor and its world that every change made by the
    host keeps. *)
Variable P : Statechart.Actor State Context * World -> Prop.

Hypothesis keeps_deliver : forall event actor world,
  P (actor, world) -> P (deliver machine event actor world).

Hypothesis keeps_drop : forall tm actor world,
  P (actor, world) ->
  P ({| status := status actor; value := value actor; context := context actor;
        clock := clock actor; generation := generation actor;
        pending := filter (fun other => other <> tm) (pending actor) |}, world).

Hypothesis keeps_clock : forall actor world,
  P (actor, world) ->
  P ({| status := status actor; value := value actor; context := context actor;
        clock := (clock actor + 1)%N; generation := generation actor;
        pending := pending actor |}, world).

Hypothesis keeps_stop : forall actor world, P (actor, world) -> P (stop actor, world).

Lemma fire_keeps_world tm actor world :
  P (actor, world) -> P (fire machine tm actor world).
Proof.
  intros HP. unfold fire.
  destruct (decide (tm ∈ pending actor)); [|exact HP].
  apply keeps_deliver, keeps_drop, HP.
Qed.

Lemma tick_keeps_world now : P now -> P (tick machine now).
Proof.
  destruct now as [actor world]. intros HP. unfold tick. cbn [fst snd].
  set (due := filter _ _). clearbody due.
  apply keeps_clock in HP. revert HP.
  generalize ({| status := status actor; value := value actor; context := context actor;
                 clock := (clock actor + 1)%N; generation := generation actor;
                 pending := pending actor |}, world).
  induction due as [|tm due IH]; intros aw HP; simpl; [exact HP|].
  apply IH. destruct aw as [a w]. apply fire_keeps_world, HP.
Qed.

Lemma elapse_keeps_world ms actor world :
  P (actor, world) -> P (elapse machine ms actor world).
Proof.
  intros HP. unfold elapse.
  apply (N.iter_invariant ms _ (tick machine) P); [|exact HP].
  intros now Hnow. apply tick_keeps_world, Hnow.
Qed.

Lemma step_keeps_world now s : P now -> P (step machine now s).
Proof.
  destruct now as [actor world]. intros HP. destruct s; cbn [step fst snd].
  - apply keeps_deliver, HP.
  - apply elapse_keeps_world, HP.
  - apply fire_keeps_world, HP.
  - apply keeps_stop, HP.
Qed.

Lemma run_keeps_world steps : forall now, P now -> P (run machine steps now).
Proof.
  induction steps as [|s steps IH]; intros now HP; simpl; [exact HP|].
  apply IH, step_keeps_world, HP.
Qed.

End WorldLifts.

(** ** The order machine: the payment is tried at most three times *)

Section OrderMachine.

Import Js Statechart OrderXState.

Lemma allDeclined_next (dr : nat -> Q) (tk n : nat) :
  allDeclined {| draws := dr; taken := tk |} n ->
  Qle_bool PAYMENT_SUCCESS_RATE (dr (tk + n)) = true ->
  allDeclined {| draws := dr; taken := tk |} (S n).
Proof.
  intros Hall Hdraw i Hi. cbn [draws taken] in *.
  destruct (decide (i = n)) as [-> | Hne]; [exact Hdraw|].
  apply Hall. lia.
Qed.

(** No timer of the order machine has another delay than these three. *)
Lemma order_quiet_delay v (d : N) :
  d <> 1000%N -> d <> 1500%N -> d <> 2000%N ->
  candidates orderMachine v (After d) = [].
Proof.
  intros H1 H2 H3. unfold candidates. cbn [transitions orderMachine].
  repeat (rewrite filter_cons_False;
          [|intros [_ Htrigger]; cbn in Htrigger;
            first [discriminate Htrigger | injection Htrigger as <-; contradiction]]).
  apply filter_nil.
Qed.

Ltac known_state :=
  apply list_elem_of_In; simpl; tauto.

Ltac close_atom :=
  first [ reflexivity | lia | assumption | known_state
        | solve [intros ? ?; lia]
        | solve [apply allDeclined_next; assumption]
        | progress simpl; first [reflexivity | lia | assumption] ].

Ltac close_case :=
  first [ close_atom
        | solve [left; repeat split; close_atom]
        | solve [right; repeat split; close_atom] ].

Ltac choose_case :=
  first [ solve [repeat split; close_case]
        | left; choose_case
        | right; choose_case ].

Ltac compute_deliver :=
  match goal with
  | |- context [deliver orderMachine ?e ?a ?w] =>
      let r := eval vm_compute in (deliver orderMachine e a w) in
      change (deliver orderMachine e a w) with r
  end.

Ltac keep_invariant_at n :=
  unfold orderInvariant; cbn [fst snd value context retryCount draws taken];
  split; [reflexivity|]; exists n; split; [first [reflexivity | lia]|];
  split; [lia|]; choose_case.

Ltac keep_invariant :=
  match goal with
  | Htaken : _ = _ + ?n |- _ => keep_invariant_at n
  end.

Lemma order_deliver_invariant rng0 event actor rng :
  orderInvariant rng0 (actor, rng) ->
  orderInvariant rng0 (deliver orderMachine event actor rng).
Proof.
  intros Hinv.
  destruct (decide (status actor = Running)) as [Hrun | Hhalted];
    [|by rewrite deliver_halted].
  destruct Hinv as (Hdraws & n & Htaken & Hbound & Hcases). cbn [fst snd] in *.
  destruct actor as [st v [oid its tot ost rc] c g p].
  destruct rng as [dr tk]. destruct rng0 as [dr0 tk0].
  cbn [status value context retryCount draws taken] in *. subst st dr.
  destruct n as [|[|[|[|n]]]]; try lia;
    destruct Hcases
      as [(Hv & Hn & Hrc) | [(Hv & Hn & Hrc & Hall) | [(Hv & Hn & Hrc & Hall)
          | [(Hv & Hn & Hall & Hlast) | (Hv & Hn)]]]];
    try lia;
    try (apply list_elem_of_In in Hv; simpl in Hv;
         repeat (destruct Hv as [Hv | Hv]); try contradiction);
    subst v; try subst rc.
  all: destruct event as [|payload|d];
    [ compute_deliver; keep_invariant
    | destruct payload; compute_deliver; keep_invariant
    | ].
  all: destruct (decide (d = 1000%N)) as [-> | H1];
    [ lazymatch goal with
      | |- context ["processing_payment"] => idtac
      | |- _ => compute_deliver; keep_invariant
      end
    | destruct (decide (d = 1500%N)) as [-> | H2];
      [ compute_deliver; keep_invariant
      | destruct (decide (d = 2000%N)) as [-> | H3];
        [ compute_deliver; keep_invariant
        | rewrite deliver_running by reflexivity; unfold resolve;
          cbn [triggerOf value];
          rewrite order_quiet_delay by assumption;
          cbn [firstEnabled];
          match goal with
          | |- context [settle orderMachine ?f ?e ?a ?w] =>
              let r := eval vm_compute in (settle orderMachine f e a w) in
              change (settle orderMachine f e a w) with r
          end;
          keep_invariant ] ] ].
  all: rewrite deliver_running by reflexivity;
    change (triggerOf orderMachine (Elapsed 1000)) with (After 1000);
    rewrite payment_routes_by_draw;
    cbn [draws taken];
    destruct (Qle_bool PAYMENT_SUCCESS_RATE (dr0 tk)) eqn:Hdraw;
    match goal with
    | |- context [take orderMachine ?t ?e ?a ?w] =>
        let r := eval vm_compute in (take orderMachine t e a w) in
        change (take orderMachine t e a w) with r
    end;
    cbv beta iota zeta;
    match goal with
    | |- context [settle orderMachine ?f ?e ?a ?w] =>
        let r := eval vm_compute in (settle orderMachine f e a w) in
        change (settle orderMachine f e a w) with r
    end;
    subst tk;
    match goal with
    | Hall : allDeclined _ ?n |- _ => keep_invariant_at (S n)
    end.
Qed.

Lemma order_run_invariant rng0 history :
  orderInvariant rng0 (run orderMachine history (start orderMachine rng0)).
Proof.
  apply (run_keeps_world orderMachine (orderInvariant rng0)).
  - intros event actor world. apply order_deliver_invariant.
  - intros tm actor world Hinv. exact Hinv.
  - intros actor world Hinv. exact Hinv.
  - intros actor world Hinv. exact Hinv.
  - destruct rng0 as [dr0 tk0].
    change (start orderMachine {| draws := dr0; taken := tk0 |})
      with ({| status := Running; value := "pending";
               context := initialContext orderMachine;
               clock := 0; generation := 0; pending := [] |},
            {| draws := dr0; taken := tk0 |}).
    split; [reflexivity|]. exists 0. split; [cbn [snd taken]; lia|]. split; [lia|].
    left. split; [apply list_elem_of_In; simpl; tauto|]. split; reflexivity.
Qed.

End OrderMachine.

(** X27. The order machine tries the payment at most three times.
    Started with any generator behind [Math.random()], whatever events
    are sent to it and whatever time passes, it has drawn at most three
    times; an order that is [canceled] was canceled before any payment was
    tried, or after three draws that all declined; and an order that is
    [paid], [shipping] or [delivered] was accepted by the last draw. *)
Theorem order_machine_draws_at_most_three_times
    (rng0 : OrderXState.Random)
    (history : list (Statechart.Step string OrderXState.OrderEvent)) :
  let now :=
    Statechart.run OrderXState.orderMachine history
      (Statechart.start OrderXState.orderMachine rng0) in
  OrderXState.draws (snd now) = OrderXState.draws rng0
  /\ OrderXState.taken rng0 <= OrderXState.taken (snd now) <= OrderXState.taken rng0 + 3
  /\ (Statechart.value (fst now) = "canceled" ->
      OrderXState.taken (snd now) = OrderXState.taken rng0
      \/ (OrderXState.taken (snd now) = OrderXState.taken rng0 + 3
          /\ allDeclined rng0 3))
  /\ (Statechart.value (fst now) ∈ ["paid"; "shipping"; "delivered"] ->
      1 <= OrderXState.taken (snd now) - OrderXState.taken rng0
      /\ Qle_bool OrderXState.PAYMENT_SUCCESS_RATE
           (OrderXState.draws rng0 (OrderXState.taken (snd now) - 1)) = false).
Proof.
  intros now.
  destruct (order_run_invariant rng0 history) as (Hdraws & n & Htaken & Hbound & Hcases).
  fold now in Hdraws, Htaken, Hcases.
  split; [exact Hdraws|]. split; [lia|]. split.
  - intros Hcanceled. rewrite Hcanceled in Hcases.
    destruct Hcases
      as [(Hv & _) | [(Hv & _) | [(Hv & _) | [(Hv & _) | (_ & [-> | [-> Hall]])]]]];
      try discriminate Hv;
      try (apply list_elem_of_In in Hv; simpl in Hv;
           repeat (destruct Hv as [Hv | Hv]); try discriminate Hv; contradiction).
    + left. lia.
    + right. split; [lia | exact Hall].
  - intros Hpaid.
    destruct Hcases
      as [(Hv & _) | [(Hv & _) | [(Hv & _) | [(_ & Hn & _ & Hlast) | (Hv & _)]]]].
    + exfalso. apply list_elem_of_In in Hv, Hpaid. simpl in Hv, Hpaid.
      destruct Hv as [Hv | [Hv | []]]; rewrite <- Hv in Hpaid;
        destruct Hpaid as [H | [H | [H | []]]]; discriminate H.
    + exfalso. rewrite Hv in Hpaid. apply list_elem_of_In in Hpaid. simpl in Hpaid.
      destruct Hpaid as [H | [H | [H | []]]]; discriminate H.
    + exfalso. rewrite Hv in Hpaid. apply list_elem_of_In in Hpaid. simpl in Hpaid.
      destruct Hpaid as [H | [H | [H | []]]]; discriminate H.
    + split; [lia|]. rewrite Htaken.
      replace (OrderXState.taken rng0 + n - 1) with (OrderXState.taken rng0 + (n - 1)) by lia.
      exact Hlast.
    + exfalso. rewrite Hv in Hpaid. apply list_elem_of_In in Hpaid. simpl in Hpaid.
      destruct Hpaid as [H | [H | [H | []]]]; discriminate H.
Qed.

Lemma order_machine_draws_at_most_three_times_witness :
  let now :=
    Statechart.run OrderXState.orderMachine orderHistory
      (Statechart.start OrderXState.orderMachine (nines 0)) in
  OrderXState.taken (snd now) = OrderXState.taken (nines 0)
  \/ (OrderXState.taken (snd now) = OrderXState.taken (nines 0) + 3
      /\ allDeclined (nines 0) 3).
Proof.
  destruct (order_machine_draws_at_most_three_times (nines 0) orderHistory)
    as (_ & _ & Hcanceled & _).
  apply Hcanceled. vm_compute. reflexivity.
Defined.

Section GameLoading.

Import Js Statechart GamePersistence.

Lemma menu_load_game saved ctx c g p (disk : Disk) :
  let after := send gameMachine (LOAD_GAME saved) (gameIn "menu" ctx c g p) disk in
  context (fst after) = merge ctx saved
  /\ value (fst after)
     = (if le (lives (merge ctx saved)) (Finite 0) then "gameOver" else "playing")
  /\ snd after = disk.
Proof.
  unfold send, gameIn. rewrite deliver_running by reflexivity.
  match goal with
  | |- context [resolve ?m ?o ?e ?a ?w] =>
      let v := eval vm_compute in (resolve m o e a w) in
      replace (resolve m o e a w) with v by (vm_compute; reflexivity)
  end.
  cbv beta iota zeta.
  match goal with
  | |- context [take ?m ?t ?e ?a ?w] =>
      replace (take m t e a w)
        with ({| status := Running; value := "playing"; context := merge ctx saved;
                 clock := c; generation := (g + 1)%N;
                 pending := cancel "menu" p ++ [] |}, disk)
        by (vm_compute; reflexivity)
  end.
  cbv beta iota zeta.
  match goal with
  | |- context [settle gameMachine (patience gameMachine) ?e
                  {| status := Running; value := "playing"; context := ?x;
                     clock := ?k; generation := ?n; pending := ?q |} ?w] =>
      pose proof (settle_playing e x k n q w) as Hsettled
  end.
  cbv zeta in Hsettled. destruct Hsettled as (Hvalue & Hcontext & _ & Hdisk).
  auto.
Qed.

End GameLoading.

(** X28. [LOAD_GAME] merges the saved state into the context the machine
    has: every property present in the saved state replaces the one of the
    context, every property absent from it keeps the value the context
    had, and an event without saved state changes nothing.  The machine then
    goes to [playing], unless the lives after the merge are [<= 0], in which
    case it is in [gameOver] at once. *)
Theorem load_game_merges_into_the_context
    (saved : option GamePersistence.PartialGameContext)
    (ctx : GamePersistence.GameContext)
    (c g : N) (p : list (Statechart.Timer string)) (disk : GamePersistence.Disk) :
  let after :=
    Statechart.send GamePersistence.gameMachine (GamePersistence.LOAD_GAME saved)
      (gameIn "menu" ctx c g p) disk in
  Statechart.context (fst after)
  = match saved with
    | None => ctx
    | Some state =>
        {| GamePersistence.level :=
             default (GamePersistence.level ctx) (GamePersistence.level_opt state);
           GamePersistence.score :=
             default (GamePersistence.score ctx) (GamePersistence.score_opt state);
           GamePersistence.lives :=
             default (GamePersistence.lives ctx) (GamePersistence.lives_opt state);
           GamePersistence.playerName :=
             default (GamePersistence.playerName ctx)
               (GamePersistence.playerName_opt state) |}
    end
  /\ Statechart.value (fst after)
     = (if Js.le (GamePersistence.lives (Statechart.context (fst after))) (Js.Finite 0)
        then "gameOver" else "playing")
  /\ snd after = disk.
Proof.
  intros after.
  destruct (menu_load_game saved ctx c g p disk) as (Hcontext & Hvalue & Hdisk).
  fold after in Hcontext, Hvalue, Hdisk.
  rewrite Hcontext. split; [by destruct saved|]. split; [exact Hvalue | exact Hdisk].
Qed.
